(** * lmstudio.sync_api: a shallow embedding of the synchronous websocket client

    The development follows [src/lmstudio/sync_api.py] class by class:
    [SyncChannel], [SyncRemoteCall], [_AsyncWebsocketThread],
    [SyncLMStudioWebsocket], [SyncSession], [PredictionStream], [LLM.act],
    [Client] and [get_default_client].

    Python objects are records, [None]-able attributes are [option]s, and a
    method is a function in the monad [M O] whose state pairs the mutable
    object [self : O] with the [World]: the network, the heap of
    [queue.Queue] objects and the heap of background threads.  An exception
    is the outcome [Raise]; a caller that blocks on a queue that is never
    fed is the outcome [Hang]. *)

From stdpp Require Import base gmap list strings sorting pretty.

Open Scope string_scope.
Open Scope list_scope.

(** ** Wire frames, exceptions and outcomes *)

(** JSON payloads are kept as opaque text. *)
Definition Any : Type := string.

(** The envelope shapes of the multiplexed protocol. *)
Inductive frame : Type :=
| rpcCall (callId : nat) (endpoint : string) (parameter : Any)
| rpcResult (callId : nat) (result : Any)
| rpcError (callId : nat) (error : Any)
| channelCreate (channelId : nat) (endpoint : string) (creationParameter : Any)
| channelSend (channelId : nat) (message : Any)
| channelCancel (channelId : nat)
| channelClose (channelId : nat).

(** What a receive queue holds: a frame, or [None], the shutdown sentinel. *)
Definition rx_message : Type := option frame.

Inductive exn : Type :=
| LMStudioValueError (msg : string)
| LMStudioRuntimeError (msg : string)
| LMStudioClientError (msg : string)
| LMStudioCancelledError (msg : string)
| ConnectError
| AuthError (error : Any)
| TxError (message : frame)
| Disconnected
| RpcError (error : Any)
| ChannelError
| UnknownMessageError
| PredictionError (msg : string)
| LMStudioWebsocketError (msg : string)
| HTTPXWSException
| AssertionError.

Inductive outcome (A : Type) : Type :=
| Ok (a : A)
| Raise (e : exn)
| Hang.
Arguments Ok {A} a.
Arguments Raise {A} e.
Arguments Hang {A}.

(** ** The world outside the Python objects *)

(** What the environment does while a caller is blocked: the server delivers
    a frame, the transport fails on receive, or another thread of the client
    calls [disconnect()] on the websocket. *)
Inductive env_event : Type :=
| EvRx (f : frame)
| EvRxFail
| EvDisconnect.

(** What can be observed on the network. *)
Inductive net_event : Type :=
| NetConnect (url : string)
| NetAuth (auth : Any)
| NetSend (f : frame).

(** State of one [_AsyncWebsocketThread]; the attributes hold objects that
    are not modelled further, so only "is not None" or "is set" is kept. *)
Record Thread : Type := mkThread {
  th_ws : bool;
  th_ws_loop : bool;
  th_terminate : bool;
  th_connection_failure : bool;
  th_auth_failure : option Any;
}.

Record World : Type := mkWorld {
  srv_accepts : bool;            (* [aconnect_ws] succeeds *)
  srv_auth_error : option Any;   (* the handshake reply: [None] is success *)
  tx_ok : bool;                  (* [ws.send_json] succeeds *)
  auth_rx_ok : bool;             (* [ws.receive_json] gives the handshake reply *)
  env : list env_event;          (* what is still to happen *)
  wire : list net_event;         (* what was put on the network, oldest first *)
  next_ref : nat;                (* the next fresh object reference *)
  queues : gmap nat (list rx_message);
  threads : gmap nat Thread;
  consumed : list (nat * rx_message);   (* every [Queue.get()] that returned *)
}.

Definition set_env (evs : list env_event) (w : World) : World :=
  mkWorld (srv_accepts w) (srv_auth_error w) (tx_ok w) (auth_rx_ok w) evs (wire w)
    (next_ref w) (queues w) (threads w) (consumed w).
Definition set_wire (wr : list net_event) (w : World) : World :=
  mkWorld (srv_accepts w) (srv_auth_error w) (tx_ok w) (auth_rx_ok w) (env w) wr
    (next_ref w) (queues w) (threads w) (consumed w).
Definition set_next_ref (n : nat) (w : World) : World :=
  mkWorld (srv_accepts w) (srv_auth_error w) (tx_ok w) (auth_rx_ok w) (env w) (wire w)
    n (queues w) (threads w) (consumed w).
Definition set_queues (qs : gmap nat (list rx_message)) (w : World) : World :=
  mkWorld (srv_accepts w) (srv_auth_error w) (tx_ok w) (auth_rx_ok w) (env w) (wire w)
    (next_ref w) qs (threads w) (consumed w).
Definition set_threads (ts : gmap nat Thread) (w : World) : World :=
  mkWorld (srv_accepts w) (srv_auth_error w) (tx_ok w) (auth_rx_ok w) (env w) (wire w)
    (next_ref w) (queues w) ts (consumed w).
Definition set_consumed (c : list (nat * rx_message)) (w : World) : World :=
  mkWorld (srv_accepts w) (srv_auth_error w) (tx_ok w) (auth_rx_ok w) (env w) (wire w)
    (next_ref w) (queues w) (threads w) c.

Definition emit (e : net_event) (w : World) : World :=
  set_wire (wire w ++ [e]) w.

(** ** The method monad *)

Record State (O : Type) : Type := mkState { world : World; self : O }.
Arguments mkState {O} world self.
Arguments world {O} s.
Arguments self {O} s.

Definition M (O A : Type) : Type := State O -> outcome A * State O.

Definition ret {O A} (a : A) : M O A := fun s => (Ok a, s).

Definition bind {O A B} (m : M O A) (k : A -> M O B) : M O B :=
  fun s =>
    match m s with
    | (Ok a, s') => k a s'
    | (Raise e, s') => (Raise e, s')
    | (Hang, s') => (Hang, s')
    end.

Definition raise {O A} (e : exn) : M O A := fun s => (Raise e, s).

(** [with cm: body]: the exit code runs when the body returns or raises,
    and never when the body does not come back. *)
Definition finally {O A} (body : M O A) (on_exit : State O -> State O) : M O A :=
  fun s =>
    match body s with
    | (Hang, s') => (Hang, s')
    | (r, s') => (r, on_exit s')
    end.

Definition get_self {O} : M O O := fun s => (Ok (self s), s).
Definition put_self {O} (o : O) : M O unit :=
  fun s => (Ok tt, mkState (world s) o).
Definition get_world {O} : M O World := fun s => (Ok (world s), s).
Definition modify_world {O} (f : World -> World) : M O unit :=
  fun s => (Ok tt, mkState (f (world s)) (self s)).

Declare Scope method_scope.
Delimit Scope method_scope with method.
Notation "x <- m ;; k" := (bind m (fun x => k))
  (at level 20, m at level 99, k at level 200, only parsing) : method_scope.
Notation "'_' <- m ;; k" := (bind m (fun _ => k))
  (at level 20, m at level 99, k at level 200, only parsing) : method_scope.
Open Scope method_scope.

(** ** [queue.Queue] *)

Module Queue.

(** [queue.Queue()]: a fresh, empty queue object. *)
Definition new {O} : M O nat :=
  fun s =>
    let w := world s in
    let q := next_ref w in
    (Ok q, mkState (set_next_ref (S q) (set_queues (<[q := []]> (queues w)) w)) (self s)).

Definition contents (q : nat) (w : World) : list rx_message :=
  default [] (queues w !! q).

(** [rx_queue.put(message)] *)
Definition put (q : nat) (m : rx_message) (w : World) : World :=
  set_queues (<[q := contents q w ++ [m]]> (queues w)) w.

(** [rx_queue.get()] blocks until the queue holds a message.  While the
    caller is blocked the rest of the world moves on: [step] processes the
    next environment event.  When nothing is left to happen and the queue
    is still empty, the caller stays blocked. *)
Fixpoint blocking_get {O} (step : env_event -> State O -> State O)
    (q : nat) (evs : list env_event) (s : State O) : outcome rx_message * State O :=
  match contents q (world s) with
  | m :: rest =>
      let w := world s in
      (Ok m, mkState (set_consumed (consumed w ++ [(q, m)])
                        (set_queues (<[q := rest]> (queues w)) w)) (self s))
  | [] =>
      match evs with
      | [] => (Hang, s)
      | ev :: evs' =>
          blocking_get step q evs'
            (step ev (mkState (set_env evs' (world s)) (self s)))
      end
  end.

Definition get {O} (step : env_event -> State O -> State O) (q : nat)
    : M O rx_message :=
  fun s => blocking_get step q (env (world s)) s.

End Queue.

(** Lift a computation that does not touch the state. *)
Definition lift {O A} (r : outcome A) : M O A := fun s => (r, s).

(** Run a method of another object [obj] that shares the world with [self].
    The object as the method left it is returned with the result; when the
    method raises, the caller has no name for the object any more. *)
Definition run_on {O P A} (obj : P) (m : M P A) : M O (A * P) :=
  fun s =>
    match m (mkState (world s) obj) with
    | (Ok a, s') => (Ok (a, self s'), mkState (world s') (self s))
    | (Raise e, s') => (Raise e, mkState (world s') (self s))
    | (Hang, s') => (Hang, mkState (world s') (self s))
    end.

(** ** Channel and call handlers ([json_api]) *)

(** The part of a [ChannelEndpoint] the channel protocol reads. *)
Record ChannelEndpoint : Type := mkEndpoint {
  api_endpoint : string;
  creation_params : Any;
}.

Module ChannelHandler.

(** Modelled from the spec: [ChannelHandler.get_creation_message] is
    defined in [json_api], which is not part of the sources; the frame is
    the spec's [channelCreate] envelope, carrying the endpoint's creation
    payload. *)
Definition get_creation_message (channel_id : nat) (endpoint : ChannelEndpoint) : frame :=
  channelCreate channel_id (api_endpoint endpoint) (creation_params endpoint).

(** Modelled from the spec: [ChannelHandler.get_cancel_message]
    ([json_api]) builds the spec's [channelCancel] envelope. *)
Definition get_cancel_message (channel_id : nat) : frame :=
  channelCancel channel_id.

(** Modelled from the spec: [ChannelHandler.handle_rx_message]
    ([json_api]).  A [channelSend] frame gives its [message] field, the
    server's [channelClose] gives [None], the shutdown sentinel fails with
    [Disconnected], and any other frame is a protocol violation. *)
Definition handle_rx_message (message : rx_message) : outcome (option Any) :=
  match message with
  | None => Raise Disconnected
  | Some (channelSend _ contents) => Ok (Some contents)
  | Some (channelClose _) => Ok None
  | Some _ => Raise ChannelError
  end.

End ChannelHandler.

Module RemoteCallHandler.

(** Modelled from the spec: [RemoteCallHandler.get_rpc_message]
    ([json_api]) builds the spec's [rpcCall] envelope. *)
Definition get_rpc_message (call_id : nat) (endpoint : string) (params : option Any) : frame :=
  rpcCall call_id endpoint (default "null" params).

(** Modelled from the spec: [RemoteCallHandler.handle_rx_message]
    ([json_api]).  [rpcResult] returns the payload, [rpcError] fails with
    an [RpcError] carrying the server-supplied error, the shutdown
    sentinel fails with [Disconnected], and any other frame is a protocol
    violation. *)
Definition handle_rx_message (message : rx_message) : outcome Any :=
  match message with
  | None => Raise Disconnected
  | Some (rpcResult _ result) => Ok result
  | Some (rpcError _ error) => Raise (RpcError error)
  | Some _ => Raise UnknownMessageError
  end.

End RemoteCallHandler.

(** ** [class SyncChannel] *)

Module SyncChannel.

Record t : Type := mk {
  _is_finished : bool;
  _rx_queue : nat;
  channel_id : nat;               (* held by [self._api_channel] *)
  endpoint : ChannelEndpoint;     (* held by [self._api_channel] *)
}.

Definition __init__ (channel_id rx_queue : nat) (endpoint : ChannelEndpoint) : t :=
  mk false rx_queue channel_id endpoint.

Definition mark_finished (ch : t) : t :=
  mk true (_rx_queue ch) (channel_id ch) (endpoint ch).

Definition get_creation_message (ch : t) : frame :=
  ChannelHandler.get_creation_message (channel_id ch) (endpoint ch).

Section Methods.
Context {O : Type}.
(** The constructor's [send_json] callable, and [Queue.get] as the
    owner of the queue provides it; both run on the owner [O], the
    channel's methods on the owner and the channel. *)
Variable send_json : frame -> M O unit.
Variable queue_get : nat -> M O rx_message.

Definition in_owner {A} (m : M O A) : M (O * t) A :=
  fun s =>
    let (r, s') := m (mkState (world s) (fst (self s))) in
    (r, mkState (world s') (self s', snd (self s))).

Definition get_channel : M (O * t) t := fun s => (Ok (snd (self s)), s).
Definition put_channel (ch : t) : M (O * t) unit :=
  fun s => (Ok tt, mkState (world s) (fst (self s), ch)).

Definition cancel : M (O * t) unit :=
  ch <- get_channel ;;
  if _is_finished ch then ret tt
  else
    let cancel_message := ChannelHandler.get_cancel_message (channel_id ch) in
    in_owner (send_json cancel_message).

(** One resumption of the [rx_stream] generator: [None] is
    [StopIteration], [Some contents] is a yield. *)
Definition rx_stream_next : M (O * t) (option Any) :=
  ch <- get_channel ;;
  if _is_finished ch then ret None
  else
    message <- in_owner (queue_get (_rx_queue ch)) ;;
    contents <- lift (ChannelHandler.handle_rx_message message) ;;
    match contents with
    | None =>
        _ <- put_channel (mark_finished ch) ;;
        ret None
    | Some c => ret (Some c)
    end.

(** [list(channel.rx_stream())]: the generator run to its end.  [None]
    means the fuel ran out before the generator stopped. *)
Fixpoint rx_stream (fuel : nat) (s : State (O * t))
    : option (outcome (list Any) * State (O * t)) :=
  match fuel with
  | 0 => None
  | S fuel' =>
      match rx_stream_next s with
      | (Ok None, s') => Some (Ok [], s')
      | (Ok (Some c), s') =>
          match rx_stream fuel' s' with
          | Some (Ok cs, s'') => Some (Ok (c :: cs), s'')
          | r => r
          end
      | (Raise e, s') => Some (Raise e, s')
      | (Hang, s') => Some (Hang, s')
      end
  end.

End Methods.

End SyncChannel.

(** ** [class SyncRemoteCall] *)

Module SyncRemoteCall.

Record t : Type := mk {
  _rx_queue : nat;
  call_id : nat;     (* held by [self._rpc] *)
}.

Definition __init__ (call_id rx_queue : nat) : t := mk rx_queue call_id.

Definition get_rpc_message (rpc : t) (endpoint : string) (params : option Any) : frame :=
  RemoteCallHandler.get_rpc_message (call_id rpc) endpoint params.

Definition receive_result {O} (queue_get : nat -> M O rx_message) (rpc : t) : M O Any :=
  message <- queue_get (_rx_queue rpc) ;;
  lift (RemoteCallHandler.handle_rx_message message).

End SyncRemoteCall.

(** ** [class _AsyncWebsocketThread] *)

(** What [ws.receive_json()] gives the background loop. *)
Inductive rx_result : Type :=
| RxFrame (message : frame)
| RxException.

Module _AsyncWebsocketThread.

Definition lookup (tid : nat) (w : World) : option Thread := threads w !! tid.

Definition store (tid : nat) (th : Thread) (w : World) : World :=
  set_threads (<[tid := th]> (threads w)) w.

(** [_clear_task_state]: run when [_main_task] leaves its resources. *)
Definition _clear_task_state (th : Thread) : Thread :=
  mkThread false false (th_terminate th) (th_connection_failure th) (th_auth_failure th).

Definition set_terminate (th : Thread) : Thread :=
  mkThread (th_ws th) (th_ws_loop th) true (th_connection_failure th) (th_auth_failure th).

(** [_main_task] up to the point where [_connection_attempted] is set:
    open the websocket, then [_authenticate]: send the handshake, receive
    the reply.  A failure to connect is recorded in [_connection_failure];
    a handshake that cannot be sent, or whose reply cannot be received,
    raises out of [_authenticate] and leaves the task through its resources
    without a recorded reason; a refused handshake is recorded in
    [_auth_failure]. *)
Definition _main_task (ws_url : string) (auth_details : Any) (w : World) : Thread * World :=
  let w := emit (NetConnect ws_url) w in
  if negb (srv_accepts w) then (mkThread false false false true None, w)
  else if negb (tx_ok w) then (mkThread false false false false None, w)
  else
    let w := emit (NetAuth auth_details) w in
    if negb (auth_rx_ok w) then (mkThread false false false false None, w)
    else
      match srv_auth_error w with
      | Some error => (mkThread false false false false (Some error), w)
      | None => (mkThread true true false false None, w)
      end.

(** [_AsyncWebsocketThread(...)] and [connect()]: the new thread object
    and whether the session was established. *)
Definition connect {O} (ws_url : string) (auth_details : Any) : M O (nat * bool) :=
  fun s =>
    let w := world s in
    let tid := next_ref w in
    let (th, w') := _main_task ws_url auth_details (set_next_ref (S tid) w) in
    (Ok (tid, th_ws th && th_ws_loop th), mkState (store tid th w') (self s)).

(** [async _send_json], run on the background loop. *)
Definition _send_json {O} (tid : nat) (message : frame) : M O unit :=
  fun s =>
    match lookup tid (world s) with
    | Some th =>
        if th_ws th then
          if tx_ok (world s)
          then (Ok tt, mkState (emit (NetSend message) (world s)) (self s))
          else (Raise (TxError message), s)
        else (Raise AssertionError, s)
    | None => (Raise AssertionError, s)
    end.

(** [send_json]: hand the send to the background loop and wait for it. *)
Definition send_json {O} (tid : nat) (message : frame) : M O unit :=
  fun s =>
    match lookup tid (world s) with
    | Some th => if th_ws_loop th then _send_json tid message s else (Raise AssertionError, s)
    | None => (Raise AssertionError, s)
    end.

(** [_process_next_message]: receive one message and hand it to the
    [enqueue_message] callable given to the constructor. *)
Definition _process_next_message {O} (queue_message : frame -> M O bool)
    (received : rx_result) : M O bool :=
  match received with
  | RxFrame message => queue_message message
  | RxException => raise HTTPXWSException
  end.

(** One turn of the [while True] loop of [_receive_messages]; the result
    says whether the loop goes on. *)
Definition _receive_messages_turn {O} (tid : nat) (queue_message : frame -> M O bool)
    (received : rx_result) : M O bool :=
  fun s =>
    match _process_next_message queue_message received s with
    | (Ok _, s') => (Ok true, s')
    | (Raise (LMStudioWebsocketError _), s') | (Raise HTTPXWSException, s') =>
        match lookup tid (world s') with
        | Some th =>
            if th_ws th
            then (* Websocket failed unexpectedly (rather than due to client shutdown) *)
              (Ok false, mkState (store tid (set_terminate th) (world s')) (self s'))
            else (Ok false, s')
        | None => (Ok false, s')
        end
    | (Raise e, s') => (Raise e, s')
    | (Hang, s') => (Hang, s')
    end.

(** [_receive_messages] over what the transport delivers; the loop waits
    for more when the list is used up. *)
Fixpoint _receive_messages {O} (tid : nat) (queue_message : frame -> M O bool)
    (incoming : list rx_result) : M O unit :=
  match incoming with
  | [] => ret tt
  | received :: rest =>
      go_on <- _receive_messages_turn tid queue_message received ;;
      if (go_on : bool) then _receive_messages tid queue_message rest else ret tt
  end.

(** Once [_terminate] is set [_main_task] wakes up, cancels the receive
    task and leaves its resources. *)
Definition _main_task_exit (tid : nat) (w : World) : World :=
  match lookup tid w with
  | Some th => if th_terminate th then store tid (_clear_task_state th) w else w
  | None => w
  end.

(** [disconnect()]: ask the main task to terminate and join the thread. *)
Definition disconnect (tid : nat) (w : World) : World :=
  match lookup tid w with
  | Some th =>
      let th := if th_ws th then set_terminate th else th in
      _main_task_exit tid (store tid th w)
  | None => w
  end.

End _AsyncWebsocketThread.

(** ** The multiplexer ([json_api]) *)

Module MultiplexingManager.

Record t : Type := mk {
  next_channel_id : nat;
  next_call_id : nat;
  open_channels : gmap nat nat;    (* channel id to queue *)
  pending_calls : gmap nat nat;    (* call id to queue *)
}.

Definition empty : t := mk 0 0 ∅ ∅.

(** Modelled from the spec: [MultiplexingManager.assign_channel_id]
    ([json_api]) is a scoped acquisition: ids start at 0 and increase by
    1, the inbox is registered on entry and removed on exit. *)
Definition assign_channel_id_enter (rx_queue : nat) (m : t) : nat * t :=
  let id := next_channel_id m in
  (id, mk (S id) (next_call_id m) (<[id := rx_queue]> (open_channels m)) (pending_calls m)).

Definition assign_channel_id_exit (channel_id : nat) (m : t) : t :=
  mk (next_channel_id m) (next_call_id m) (delete channel_id (open_channels m)) (pending_calls m).

(** Modelled from the spec: [MultiplexingManager.assign_call_id]
    ([json_api]), the same scoped acquisition for calls. *)
Definition assign_call_id_enter (rx_queue : nat) (m : t) : nat * t :=
  let id := next_call_id m in
  (id, mk (next_channel_id m) (S id) (open_channels m) (<[id := rx_queue]> (pending_calls m))).

Definition assign_call_id_exit (call_id : nat) (m : t) : t :=
  mk (next_channel_id m) (next_call_id m) (open_channels m) (delete call_id (pending_calls m)).

(** Modelled from the spec: [MultiplexingManager.map_rx_message]
    ([json_api]) inspects the frame type, extracts the [channelId] or
    [callId] and returns the registered inbox, or [None] if unknown. *)
Definition map_rx_message (message : frame) (m : t) : option nat :=
  match message with
  | channelSend channel_id _ | channelClose channel_id => open_channels m !! channel_id
  | rpcResult call_id _ | rpcError call_id _ => pending_calls m !! call_id
  | _ => None
  end.

(** Modelled from the spec: [MultiplexingManager.all_queues]
    ([json_api]) gives every registered inbox. *)
Definition all_queues (m : t) : list nat :=
  (map_to_list (open_channels m)).*2 ++ (map_to_list (pending_calls m)).*2.

End MultiplexingManager.

(** ** [class SyncLMStudioWebsocket] *)

Module SyncLMStudioWebsocket.

Record t : Type := mk {
  _ws_url : string;
  _auth_details : Any;
  _ws : option nat;                  (* the [_AsyncWebsocketThread], if any *)
  _mux : MultiplexingManager.t;
}.

Definition __init__ (ws_url : string) (auth_details : Any) : t :=
  mk ws_url auth_details None MultiplexingManager.empty.

Definition set_ws (ws : option nat) (o : t) : t :=
  mk (_ws_url o) (_auth_details o) ws (_mux o).
Definition set_mux (m : MultiplexingManager.t) (o : t) : t :=
  mk (_ws_url o) (_auth_details o) (_ws o) m.

(** [self.connected] *)
Definition connected (o : t) : bool := bool_decide (_ws o ≠ None).

(** Modelled from the spec: [LMStudioWebsocket._fail_if_connected]
    ([json_api]) raises with the given message when the websocket is
    connected. *)
Definition _fail_if_connected (err_msg : string) : M t unit :=
  fun s => if connected (self s) then (Raise (LMStudioWebsocketError err_msg), s) else (Ok tt, s).

(** Modelled from the spec: [LMStudioWebsocket._ensure_connected]
    ([json_api]) raises when the websocket is not connected. *)
Definition _ensure_connected (usage : string) : M t unit :=
  fun s =>
    if connected (self s) then (Ok tt, s)
    else (Raise (LMStudioWebsocketError ("Websocket must be connected to " +:+ usage)), s).

Definition connect : M t unit :=
  _ <- _fail_if_connected "Attempted to connect already connected websocket" ;;
  o <- get_self ;;
  r <- _AsyncWebsocketThread.connect (_ws_url o) (_auth_details o) ;;
  let '(ws, ok) := r in
  if negb ok then
    w <- get_world ;;
    match _AsyncWebsocketThread.lookup ws w with
    | Some th =>
        if th_connection_failure th then raise ConnectError
        else match th_auth_failure th with
             | Some error => raise (AuthError error)
             | None => raise ConnectError
             end
    | None => raise ConnectError
    end
  else put_self (set_ws (Some ws) o).

Definition __enter__ : M t unit :=
  o <- get_self ;;
  match _ws o with
  | None => connect
  | Some _ => ret tt
  end.

Definition _enqueue_message (message : frame) : M t bool :=
  fun s =>
    match MultiplexingManager.map_rx_message message (_mux (self s)) with
    | None => (Ok false, s)
    | Some rx_queue => (Ok true, mkState (Queue.put rx_queue (Some message) (world s)) (self s))
    end.

(** Send None to all clients with open receive queues. *)
Definition _notify_client_termination (s : State t) : State t :=
  mkState
    (foldl (fun w rx_queue => Queue.put rx_queue None w) (world s)
       (MultiplexingManager.all_queues (_mux (self s))))
    (self s).

Definition disconnect (s : State t) : State t :=
  let ws := _ws (self s) in
  let s := mkState (world s) (set_ws None (self s)) in
  match ws with
  | Some ws =>
      let s := _notify_client_termination s in
      mkState (_AsyncWebsocketThread.disconnect ws (world s)) (self s)
  | None => s
  end.

Definition __exit__ : State t -> State t := disconnect.

Definition _send_json (message : frame) : M t unit :=
  fun s =>
    match _ws (self s) with
    | Some ws => _AsyncWebsocketThread.send_json ws message s
    | None => (Raise AssertionError, s)
    end.

(** The background thread of this websocket, while a caller is blocked:
    one turn of its receive loop, and the end of its main task when that
    turn set [_terminate]. *)
Definition background_receive (received : rx_result) (s : State t) : State t :=
  match _ws (self s) with
  | Some ws =>
      match _AsyncWebsocketThread.lookup ws (world s) with
      | Some th =>
          if th_ws th && negb (th_terminate th) then
            let s' := snd (_AsyncWebsocketThread._receive_messages_turn ws _enqueue_message received s) in
            mkState (_AsyncWebsocketThread._main_task_exit ws (world s')) (self s')
          else s
      | None => s
      end
  | None => s
  end.

Definition env_step (ev : env_event) (s : State t) : State t :=
  match ev with
  | EvRx message => background_receive (RxFrame message) s
  | EvRxFail => background_receive RxException s
  | EvDisconnect => disconnect s
  end.

Definition queue_get (rx_queue : nat) : M t rx_message := Queue.get env_step rx_queue.

Definition _connect_to_endpoint (channel : SyncChannel.t) : M t unit :=
  _ <- _ensure_connected "open channel endpoints" ;;
  let create_message := SyncChannel.get_creation_message channel in
  _send_json create_message.

Definition mux_update (f : MultiplexingManager.t -> MultiplexingManager.t) (s : State t) : State t :=
  mkState (world s) (set_mux (f (_mux (self s))) (self s)).

(** [open_channel] is a generator context manager: the code up to the
    [yield] runs on entry, the exit of [assign_channel_id] runs on exit
    (also when the entry itself raises inside that scope). *)
Definition open_channel_enter (endpoint : ChannelEndpoint) : M t SyncChannel.t :=
  rx_queue <- Queue.new ;;
  o <- get_self ;;
  let (channel_id, mux) := MultiplexingManager.assign_channel_id_enter rx_queue (_mux o) in
  _ <- put_self (set_mux mux o) ;;
  let channel := SyncChannel.__init__ channel_id rx_queue endpoint in
  fun s =>
    match _connect_to_endpoint channel s with
    | (Ok _, s') => (Ok channel, s')
    | (Raise e, s') =>
        (Raise e, mux_update (MultiplexingManager.assign_channel_id_exit channel_id) s')
    | (Hang, s') => (Hang, s')
    end.

Definition open_channel_exit (channel_id : nat) (s : State t) : State t :=
  mux_update (MultiplexingManager.assign_channel_id_exit channel_id) s.

(** [with self.open_channel(endpoint) as channel: body] *)
Definition open_channel {A} (endpoint : ChannelEndpoint) (body : SyncChannel.t -> M t A) : M t A :=
  channel <- open_channel_enter endpoint ;;
  finally (body channel) (open_channel_exit (SyncChannel.channel_id channel)).

Definition _send_call (rpc : SyncRemoteCall.t) (endpoint : string) (params : option Any) : M t unit :=
  _ <- _ensure_connected "send remote procedure call" ;;
  let call_message := SyncRemoteCall.get_rpc_message rpc endpoint params in
  _send_json call_message.

Definition remote_call (endpoint : string) (params : option Any) : M t Any :=
  rx_queue <- Queue.new ;;
  o <- get_self ;;
  let (call_id, mux) := MultiplexingManager.assign_call_id_enter rx_queue (_mux o) in
  _ <- put_self (set_mux mux o) ;;
  finally
    (let rpc := SyncRemoteCall.__init__ call_id rx_queue in
     _ <- _send_call rpc endpoint params ;;
     SyncRemoteCall.receive_result queue_get rpc)
    (mux_update (MultiplexingManager.assign_call_id_exit call_id)).

(** The channel methods as the websocket wires them up: [send_json] is
    [self._send_json] and the queue is fed by this websocket's thread. *)
Definition channel_cancel : M (t * SyncChannel.t) unit :=
  SyncChannel.cancel _send_json.
Definition channel_rx_stream_next : M (t * SyncChannel.t) (option Any) :=
  SyncChannel.rx_stream_next queue_get.
Definition channel_rx_stream : nat -> State (t * SyncChannel.t) ->
    option (outcome (list Any) * State (t * SyncChannel.t)) :=
  SyncChannel.rx_stream queue_get.

End SyncLMStudioWebsocket.

(** ** [class SyncSession] *)

Module SyncSession.

(** [_client] is only read for [api_host] and [_auth_details], which are
    kept here.  [_resources] holds the websocket entered by [connect],
    the very object [_lmsws] names.

    [connect] makes a new websocket object each time, and a channel keeps
    the websocket that opened it whatever [_lmsws] becomes.  To tell these
    objects apart they are numbered in the order [connect] makes them;
    [lmsws_serial] is the number of the one [_lmsws] holds, or held last. *)
Record t : Type := mk {
  API_NAMESPACE : option string;
  client_api_host : string;
  client_auth_details : Any;
  _lmsws : option SyncLMStudioWebsocket.t;
  lmsws_serial : nat;
}.

Definition __init__ (namespace : option string) (api_host : string) (auth_details : Any) : t :=
  mk namespace api_host auth_details None 0.

Definition set_lmsws (lmsws : option SyncLMStudioWebsocket.t) (o : t) : t :=
  mk (API_NAMESPACE o) (client_api_host o) (client_auth_details o) lmsws (lmsws_serial o).

(** [self._lmsws = lmsws] for a websocket [connect] has just made. *)
Definition set_new_lmsws (lmsws : SyncLMStudioWebsocket.t) (o : t) : t :=
  mk (API_NAMESPACE o) (client_api_host o) (client_auth_details o) (Some lmsws)
    (S (lmsws_serial o)).

Definition connected (o : t) : bool :=
  match _lmsws o with
  | Some lmsws => SyncLMStudioWebsocket.connected lmsws
  | None => false
  end.

(** Modelled from the spec: [ClientSession._fail_if_connected]
    ([json_api]) raises with the given message when the session holds a
    connected websocket. *)
Definition _fail_if_connected (err_msg : string) : M t unit :=
  fun s => if connected (self s) then (Raise (LMStudioWebsocketError err_msg), s) else (Ok tt, s).

(** Run a method of the session's websocket; the websocket keeps what the
    method did to it, whatever the outcome.  Modelled from the spec:
    [ClientSession._get_lmsws] ([json_api]) raises when the session is
    not connected. *)
Definition on_lmsws {A} (usage : string) (m : M SyncLMStudioWebsocket.t A) : M t A :=
  fun s =>
    match _lmsws (self s) with
    | Some lmsws =>
        if SyncLMStudioWebsocket.connected lmsws then
          let (r, s') := m (mkState (world s) lmsws) in
          (r, mkState (world s') (set_lmsws (Some (self s')) (self s)))
        else (Raise (LMStudioWebsocketError ("Session must be connected to " +:+ usage)), s)
    | None => (Raise (LMStudioWebsocketError ("Session must be connected to " +:+ usage)), s)
    end.

Definition connect : M t unit :=
  _ <- _fail_if_connected "Attempted to connect already connected session" ;;
  o <- get_self ;;
  match API_NAMESPACE o with
  | None => raise (LMStudioClientError "No API namespace defined")
  | Some namespace =>
      let session_url := "ws://" +:+ client_api_host o +:+ "/" +:+ namespace in
      r <- run_on (SyncLMStudioWebsocket.__init__ session_url (client_auth_details o))
             SyncLMStudioWebsocket.__enter__ ;;
      put_self (set_new_lmsws (snd r) o)
  end.

Definition _ensure_connected : M t unit :=
  o <- get_self ;;
  match _lmsws o with
  | None => connect
  | Some _ => ret tt
  end.

Definition disconnect (s : State t) : State t :=
  let lmsws := _lmsws (self s) in
  let s := mkState (world s) (set_lmsws None (self s)) in
  match lmsws with
  | Some lmsws =>
      mkState (world (SyncLMStudioWebsocket.__exit__ (mkState (world s) lmsws))) (self s)
  | None => s
  end.

(** [_create_channel] is a generator context manager around
    [lmsws.open_channel]. *)
Definition _create_channel_enter (endpoint : ChannelEndpoint) : M t SyncChannel.t :=
  _ <- _ensure_connected ;;
  on_lmsws "create channels" (SyncLMStudioWebsocket.open_channel_enter endpoint).

(** What [_create_channel] yields, with the websocket that opened it: the
    suspended generator keeps its local [lmsws], and the channel's
    [send_json] is the bound [lmsws._send_json]. *)
Record ChannelScope : Type := mkChannelScope {
  opened_by : nat;                (* the number of that websocket *)
  scope_channel : SyncChannel.t;
}.

(** The scope of a channel the session's websocket has just opened. *)
Definition opened_channel (channel : SyncChannel.t) : M t ChannelScope :=
  o <- get_self ;;
  ret (mkChannelScope (lmsws_serial o) channel).

(** The websocket numbered [serial], if the session still holds it.  A
    websocket the session holds no more was dropped by [disconnect()],
    which disconnected it, or replaced by [connect()], which replaces only
    a websocket that is not connected; nothing connects it again, and
    nothing but the channels it opened can reach it. *)
Definition held_websocket (serial : nat) (o : t) : option SyncLMStudioWebsocket.t :=
  match _lmsws o with
  | Some lmsws => if bool_decide (lmsws_serial o = serial) then Some lmsws else None
  | None => None
  end.

(** Leaving the [with lmsws.open_channel(endpoint)] of the suspended
    generator: the registration is removed from the multiplexer of the
    websocket that opened the channel. *)
Definition _create_channel_exit (scope : ChannelScope) (s : State t) : State t :=
  match held_websocket (opened_by scope) (self s) with
  | Some lmsws =>
      let s' := SyncLMStudioWebsocket.open_channel_exit
                  (SyncChannel.channel_id (scope_channel scope)) (mkState (world s) lmsws) in
      mkState (world s') (set_lmsws (Some (self s')) (self s))
  | None => s
  end.

Definition remote_call (endpoint : string) (params : option Any) : M t Any :=
  _ <- _ensure_connected ;;
  on_lmsws "make remote calls" (SyncLMStudioWebsocket.remote_call endpoint params).

(** [channel.cancel()] for a channel of this session: the channel's
    [send_json] is the [_send_json] of the websocket that opened it.  On a
    websocket the session holds no more, [_send_json] fails its
    [ws is not None] assertion. *)
Definition channel_cancel (scope : ChannelScope) : M t unit :=
  fun s =>
    let channel := scope_channel scope in
    match held_websocket (opened_by scope) (self s) with
    | Some lmsws =>
        let (r, s') := SyncLMStudioWebsocket.channel_cancel (mkState (world s) (lmsws, channel)) in
        (r, mkState (world s') (set_lmsws (Some (fst (self s'))) (self s)))
    | None => if SyncChannel._is_finished channel then (Ok tt, s) else (Raise AssertionError, s)
    end.

End SyncSession.

(** ** [class PredictionStream] *)

Module PredictionStream.

Record t : Type := mk {
  _is_started : bool;
  _is_finished : bool;
  _is_cancelled : bool;
  _error : option exn;
  _channel : option SyncSession.ChannelScope;   (* the channel, as the session yielded it *)
  _resources : list SyncSession.ChannelScope;   (* the channel scopes entered, last first *)
  _endpoint : ChannelEndpoint;
}.

(** Modelled from the spec: [PredictionStreamBase._init_prediction]
    ([json_api]): a new prediction is neither started nor finished. *)
Definition __init__ (endpoint : ChannelEndpoint) : t :=
  mk false false false None None [] endpoint.

(** Modelled from the spec: [_mark_started], [_mark_finished] and
    [_mark_cancelled] of [PredictionStreamBase] ([json_api]) mark the
    local handle and touch nothing else. *)
Definition _mark_started (p : t) : t :=
  mk true (_is_finished p) (_is_cancelled p) (_error p) (_channel p) (_resources p) (_endpoint p).
Definition _mark_finished (p : t) : t :=
  mk (_is_started p) true (_is_cancelled p) (_error p) (_channel p) (_resources p) (_endpoint p).
Definition _mark_cancelled (p : t) : t :=
  mk (_is_started p) (_is_finished p) true (_error p) (_channel p) (_resources p) (_endpoint p).

(** Modelled from the spec: [PredictionStreamBase._set_error]
    ([json_api]) is not part of the sources.  The spec has [errored] as a
    state of a prediction beside [finished] and [cancelled]; the callers
    in this file call [_set_error] on a prediction that is not finished
    only, and take the prediction as over afterwards ([__exit__] records
    the exception of the body and leaves nothing for [close()] to
    record): it stores the error and finishes the prediction. *)
Definition _set_error (e : exn) (p : t) : t :=
  mk (_is_started p) true (_is_cancelled p) (Some e) (_channel p) (_resources p) (_endpoint p).

Definition set_channel (ch : option SyncSession.ChannelScope)
    (res : list SyncSession.ChannelScope) (p : t) : t :=
  mk (_is_started p) (_is_finished p) (_is_cancelled p) (_error p) ch res (_endpoint p).

(** A method of the stream runs on the stream and on the session its
    channel context manager closes over. *)
Definition Self : Type := SyncSession.t * t.

Definition in_session {A} (m : M SyncSession.t A) : M Self A :=
  fun s =>
    let (r, s') := m (mkState (world s) (fst (self s))) in
    (r, mkState (world s') (self s', snd (self s))).

Definition get_stream : M Self t := fun s => (Ok (snd (self s)), s).
Definition put_stream (p : t) : M Self unit :=
  fun s => (Ok tt, mkState (world s) (fst (self s), p)).

Definition start : M Self unit :=
  p <- get_stream ;;
  if _is_finished p then
    raise (LMStudioRuntimeError "Prediction result has already been received.")
  else if _is_started p then
    raise (LMStudioRuntimeError "Prediction request has already been sent.")
  else
    (* The given channel context manager is set up to send the relevant request *)
    channel <- in_session (SyncSession._create_channel_enter (_endpoint p)) ;;
    scope <- in_session (SyncSession.opened_channel channel) ;;
    put_stream (_mark_started (set_channel (Some scope) (scope :: _resources p) p)).

Definition close : M Self unit :=
  p <- get_stream ;;
  let p :=
    if _is_started p && negb (_is_finished p)
    then _set_error (LMStudioCancelledError "Prediction cancelled unexpectedly: please use .cancel()") p
    else p in
  _ <- put_stream (set_channel None [] p) ;;
  in_session (fun s =>
    (Ok tt, foldl (fun s scope => SyncSession._create_channel_exit scope s) s (_resources p))).

Definition cancel : M Self unit :=
  p <- get_stream ;;
  match _channel p with
  | Some channel =>
      if negb (_is_finished p) then
        _ <- put_stream (_mark_cancelled p) ;;
        in_session (SyncSession.channel_cancel channel)
      else ret tt
  | None => ret tt
  end.

Definition __enter__ : M Self unit :=
  p <- get_stream ;;
  match _channel p with
  | None => start
  | Some _ => ret tt
  end.

(** [exc_val] is the exception that left the body of the [with]
    statement, if one did. *)
Definition __exit__ (exc_val : option exn) : M Self unit :=
  p <- get_stream ;;
  _ <- match exc_val with
       | Some e => if negb (_is_finished p) then put_stream (_set_error e p) else ret tt
       | None => ret tt
       end ;;
  close.

End PredictionStream.

(** ** [LLM.act] *)

Record ToolCallRequest : Type := mkToolCallRequest {
  request_id : nat;
  tool_name : string;
  tool_arguments : Any;
}.

Definition Prediction : Type := Any.
Definition Tools : Type := list string.

(** The operations [act] calls on the chat history: append the assistant
    response, append the tool results. *)
Inductive ChatMessage : Type :=
| UserMessage (text : Any)
| AssistantResponse (prediction : Prediction) (tool_call_requests : list ToolCallRequest)
| ToolResultMessage (tool_results : list Any).

Definition Chat : Type := list ChatMessage.

Inductive PredictionRxEvent : Type :=
| PredictionPrepProgressEvent
| PredictionFragmentEvent (fragment : Any)
| PredictionToolCallEvent (arg : ToolCallRequest)
| PredictionMessageEvent (message : Any).

Record ActResult : Type := mkActResult { rounds : Z }.

Module LLM.

(** What [act] does that can be seen from outside, in order.  The
    callbacks are the places [ActRoundStart], [ActPredictionCompleted],
    [ActMessage] and [ActRoundEnd]; a callback that raises is logged and
    swallowed by [sdk_callback_invocation], so none of them changes the
    course of the loop.  [on_message] decides whether the final response
    is appended to the chat, so its presence is an argument of [act]. *)
Inductive act_event : Type :=
| ActRoundStart (round_index : Z)
| ActEndpoint (round_index : Z) (tools : option Tools)
| ActToolSubmitted (round_index : Z) (request : ToolCallRequest)
| ActPredictionCompleted (round_index : Z)
| ActMessage (message : ChatMessage)
| ActRoundEnd (round_index : Z)
| ActInvalidToolRequest (round_index : Z) (err_msg : string).

Record ActState : Type := mkActState {
  agent_chat : Chat;
  trace : list act_event;
}.

Definition log (evs : list act_event) (st : ActState) : ActState :=
  mkActState (agent_chat st) (trace st ++ evs).
Definition add_message (m : ChatMessage) (st : ActState) : ActState :=
  mkActState (agent_chat st ++ [m]) (trace st).

(** [round_counter]: [range(max_prediction_rounds)] or [itertools.count()]. *)
Inductive round_counter : Type :=
| range (stop : Z)
| count.

Definition has_round (rc : round_counter) (i : Z) : bool :=
  match rc with
  | range stop => bool_decide (i < stop)%Z
  | count => true
  end.

Inductive loop_exit : Type := Continue | Break.

Definition tool_call_requests_of (events : list PredictionRxEvent) : list ToolCallRequest :=
  omap (fun event => match event with
                     | PredictionToolCallEvent request => Some request
                     | _ => None
                     end) events.

Section Act.
(** [ChatResponseEndpoint.parse_tools(tools)] *)
Variable llm_tool_args : Tools.
(** One prediction round against the server: the events
    [prediction_stream._iter_events()] yields for the endpoint built
    this round, and what [prediction_stream.result()] then gives. *)
Variable predict : Z -> Chat -> option Tools -> list PredictionRxEvent * outcome Prediction.
(** The result of the callable [endpoint.request_tool_call(request)]. *)
Variable request_tool_call : ToolCallRequest -> Any.
(** The worker pool, on one clock.  A future is named by the request whose
    tool call it runs: [completes_at] is the tick at which it finishes,
    [collected_at] the tick at which a round calls [as_completed], which
    is after its prediction has ended. *)
Variable completes_at : ToolCallRequest -> nat.
Variable collected_at : Z -> nat.
(** [list(s)] for a [set] of futures [s], given by what was put into it:
    the same futures, as the set iterates (futures hash by identity, so
    this is not the order of submission). *)
Variable set_iteration : list ToolCallRequest -> list ToolCallRequest.
(** [endpoint._handle_invalid_tool_request(err_msg)] *)
Variable _handle_invalid_tool_request : string -> outcome unit.

(** Insertion into a list that is in the order of [key]; futures with the
    same key stay in the order of the list. *)
Fixpoint insert_by (key : ToolCallRequest -> nat) (fut : ToolCallRequest)
    (done : list ToolCallRequest) : list ToolCallRequest :=
  match done with
  | [] => [fut]
  | other :: done' =>
      if (key fut <=? key other)%nat
      then fut :: other :: done'
      else other :: insert_by key fut done'
  end.

Definition in_order_of (key : ToolCallRequest -> nat) (futures : list ToolCallRequest)
    : list ToolCallRequest :=
  foldr (insert_by key) [] futures.

Definition finished_by (now : nat) (fut : ToolCallRequest) : bool :=
  (completes_at fut <=? now)%nat.

(** [_yield_finished_futures(fs, ...)] of [concurrent.futures] takes the
    futures from the end of the list. *)
Definition _yield_finished_futures (fs : list ToolCallRequest) : list ToolCallRequest :=
  reverse fs.

(** [concurrent.futures.as_completed(fs)], called at the tick [now].  It
    starts with [fs = set(fs)]; the futures that have finished by then are
    collected in a set, listed, and yielded first; the others are yielded
    as they complete. *)
Definition as_completed (now : nat) (fs : list ToolCallRequest) : list ToolCallRequest :=
  let finished := List.filter (finished_by now) fs in
  let pending := List.filter (fun fut => negb (finished_by now fut)) fs in
  _yield_finished_futures (set_iteration finished) ++ in_order_of completes_at pending.

(** The body of [for round_index in round_counter]. *)
Definition act_round (final_round_index round_index : Z) (on_message : bool)
    (st : ActState) : outcome loop_exit * ActState :=
  let st := log [ActRoundStart round_index] st in
  let tools :=
    if bool_decide (round_index ≠ final_round_index) then Some llm_tool_args else None in
  let st := log [ActEndpoint round_index tools] st in
  let (events, result) := predict round_index (agent_chat st) tools in
  let tool_call_requests := tool_call_requests_of events in
  let pending_tool_calls := tool_call_requests in
  let st := log (ActToolSubmitted round_index <$> tool_call_requests) st in
  match result with
  | Ok prediction =>
      let st := log [ActPredictionCompleted round_index] st in
      let st :=
        match pending_tool_calls with
        | _ :: _ =>
            let tool_results :=
              request_tool_call <$> as_completed (collected_at round_index) pending_tool_calls in
            let requests_message := AssistantResponse prediction tool_call_requests in
            let results_message := ToolResultMessage tool_results in
            let st := add_message results_message (add_message requests_message st) in
            if on_message
            then log [ActMessage requests_message; ActMessage results_message] st
            else st
        | [] =>
            if on_message
            then
              let message := AssistantResponse prediction [] in
              log [ActMessage message] (add_message message st)
            else st
        end in
      let st := log [ActRoundEnd round_index] st in
      match tool_call_requests with
      | [] => (Ok Break, st)
      | _ :: _ =>
          if bool_decide (round_index = final_round_index) then
            let err_msg := "Model requested tool use on final prediction round." in
            let st := log [ActInvalidToolRequest round_index err_msg] st in
            match _handle_invalid_tool_request err_msg with
            | Ok _ => (Ok Break, st)
            | Raise e => (Raise e, st)
            | Hang => (Hang, st)
            end
          else (Ok Continue, st)
      end
  | Raise e => (Raise e, st)
  | Hang => (Hang, st)
  end.

(** The [for] loop, from [round_index] on; the result is the last value
    of [round_index].  [None] means the fuel ran out. *)
Fixpoint act_loop (fuel : nat) (round_counter : round_counter) (final_round_index : Z)
    (on_message : bool) (round_index : Z) (st : ActState)
    : option (outcome Z * ActState) :=
  match fuel with
  | 0 => None
  | S fuel' =>
      match act_round final_round_index round_index on_message st with
      | (Ok Break, st') => Some (Ok round_index, st')
      | (Ok Continue, st') =>
          if has_round round_counter (round_index + 1)
          then act_loop fuel' round_counter final_round_index on_message (round_index + 1) st'
          else Some (Ok round_index, st')
      | (Raise e, st') => Some (Raise e, st')
      | (Hang, st') => Some (Hang, st')
      end
  end.

Definition act (fuel : nat) (chat : Chat) (max_prediction_rounds : option Z)
    (on_message : bool) : option (outcome ActResult * ActState) :=
  let st := mkActState chat [] in
  match max_prediction_rounds with
  | Some max_prediction_rounds =>
      if bool_decide (max_prediction_rounds < 1)%Z then
        Some (Raise (LMStudioValueError
                       ("Max prediction rounds must be at least 1 ("
                        +:+ pretty max_prediction_rounds +:+ " given)")), st)
      else
        let round_counter := range max_prediction_rounds in
        let final_round_index := (max_prediction_rounds - 1)%Z in
        match act_loop fuel round_counter final_round_index on_message 0 st with
        | Some (Ok round_index, st') => Some (Ok (mkActResult (round_index + 1)), st')
        | Some (Raise e, st') => Some (Raise e, st')
        | Some (Hang, st') => Some (Hang, st')
        | None => None
        end
  | None =>
      (* Do not force a final round when no limit is specified *)
      let final_round_index := (-1)%Z in
      match act_loop fuel count final_round_index on_message 0 st with
      | Some (Ok round_index, st') => Some (Ok (mkActResult (round_index + 1)), st')
      | Some (Raise e, st') => Some (Raise e, st')
      | Some (Hang, st') => Some (Hang, st')
      | None => None
      end
  end.

End Act.

End LLM.

(** ** [class Client] and the default client *)

Module Client.

Record t : Type := mk {
  api_host : string;
  _auth_details : Any;
  _sessions : gmap string SyncSession.t;
  _resources : list string;       (* the sessions pushed for closing, by namespace *)
}.

(** Modelled from the spec: [ClientBase.__init__] ([json_api]) keeps the
    host, which defaults to 127.0.0.1:1234, and the authentication
    details generated for this client. *)
Definition __init__ {O} (api_host : option string) (auth_details : Any) : M O t :=
  ret (mk (default "127.0.0.1:1234" api_host) auth_details ∅ []).

Definition _get_session (namespace : string) : M t SyncSession.t :=
  o <- get_self ;;
  match _sessions o !! namespace with
  | Some session => ret session
  | None =>
      (* No session yet for this namespace, so create one *)
      let session := SyncSession.__init__ (Some namespace) (api_host o) (_auth_details o) in
      _ <- put_self (mk (api_host o) (_auth_details o)
                       (<[namespace := session]> (_sessions o)) (namespace :: _resources o)) ;;
      ret session
  end.

End Client.

(** [get_default_client]; [self] is the module global [_default_client].
    The authentication details a new client would generate are passed in. *)
Definition get_default_client (api_host : option string) (auth_details : Any)
    : M (option Client.t) Client.t :=
  o <- get_self ;;
  match o with
  | None =>
      client <- Client.__init__ api_host auth_details ;;
      _ <- put_self (Some client) ;;
      ret client
  | Some client =>
      match api_host with
      | Some _ =>
          raise (LMStudioClientError "Default session already connected, cannot set API host.")
      | None => ret client
      end
  end.

(** * Properties *)

(** ** The default client *)

Definition already_connected : exn :=
  LMStudioClientError "Default session already connected, cannot set API host.".

(** A run of calls to [get_default_client], each with its [api_host]
    argument: the results in order and the final state. *)
Fixpoint default_client_calls (calls : list (option string)) (auth_details : Any)
    (s : State (option Client.t)) : list (outcome Client.t) * State (option Client.t) :=
  match calls with
  | [] => ([], s)
  | api_host :: calls' =>
      let (r, s') := get_default_client api_host auth_details s in
      let (rs, s'') := default_client_calls calls' auth_details s' in
      (r :: rs, s'')
  end.

(** What each call gives once a client exists. *)
Definition later_call_result (client : Client.t) (api_host : option string) : outcome Client.t :=
  match api_host with
  | Some _ => Raise already_connected
  | None => Ok client
  end.

(** The first call creates the client without touching the world. *)
Lemma get_default_client_creates (api_host : option string) (auth_details : Any) (w : World) :
  let client := Client.mk (default "127.0.0.1:1234" api_host) auth_details ∅ [] in
  get_default_client api_host auth_details (mkState w None)
  = (Ok client, mkState w (Some client)).
Proof. reflexivity. Qed.

(** C10.  Once the default client exists, every later call to
    [get_default_client] with an [api_host] raises the client error, also
    when the host is the existing client's own and no session was ever
    connected, and every later call without one returns the existing client;
    the global and the world stay as they were. *)
Theorem get_default_client_once_created
    (client : Client.t) (auth_details : Any) (w : World) (calls : list (option string)) :
  default_client_calls calls auth_details (mkState w (Some client))
  = (later_call_result client <$> calls, mkState w (Some client))
  /\ get_default_client (Some (Client.api_host client)) auth_details (mkState w (Some client))
     = (Raise already_connected, mkState w (Some client))
  /\ get_default_client None auth_details (mkState w (Some client))
     = (Ok client, mkState w (Some client)).
Proof.
  split; [|split; reflexivity].
  induction calls as [|api_host calls IH]; [reflexivity|].
  cbn [default_client_calls fmap list_fmap].
  destruct api_host as [host|]; cbn; rewrite IH; reflexivity.
Qed.

(** ** Starting a prediction twice *)

Definition already_sent : exn :=
  LMStudioRuntimeError "Prediction request has already been sent.".
Definition already_received : exn :=
  LMStudioRuntimeError "Prediction result has already been received.".

Lemma start_marks_started (s : State PredictionStream.Self) :
  fst (PredictionStream.start s) = Ok tt ->
  PredictionStream._is_started (snd (self (snd (PredictionStream.start s)))) = true.
Proof.
  unfold PredictionStream.start, bind, PredictionStream.get_stream.
  cbn [fst snd].
  destruct (PredictionStream._is_finished (snd (self s))); [discriminate|].
  destruct (PredictionStream._is_started (snd (self s))); [discriminate|].
  destruct (PredictionStream.in_session _ s) as [[channel|e|] s'] eqn:E; cbn; try discriminate.
  reflexivity.
Qed.

Lemma start_keeps_finished (s : State PredictionStream.Self) :
  fst (PredictionStream.start s) = Ok tt ->
  PredictionStream._is_finished (snd (self (snd (PredictionStream.start s)))) = false.
Proof.
  unfold PredictionStream.start, bind, PredictionStream.get_stream.
  cbn [fst snd].
  destruct (PredictionStream._is_finished (snd (self s))) eqn:F; [discriminate|].
  destruct (PredictionStream._is_started (snd (self s))); [discriminate|].
  destruct (PredictionStream.in_session _ s) as [[channel|e|] s'] eqn:E; cbn; try discriminate.
  intros _. unfold PredictionStream.in_session in E.
  destruct (SyncSession._create_channel_enter _ _) as [r0 s0]. 
  injection E as _ <-. cbn. exact F.
Qed.

(** C9.  [start()] on a prediction whose request was already sent raises a
    runtime error, and so does [start()] on a prediction whose result was
    already received; either way the stream, the session and the world
    (so the wire) are left as they were.  In particular a second [start()]
    right after a successful one raises. *)
Theorem start_twice_raises (s : State PredictionStream.Self) :
  (PredictionStream._is_finished (snd (self s)) = true ->
     PredictionStream.start s = (Raise already_received, s))
  /\ (PredictionStream._is_finished (snd (self s)) = false ->
      PredictionStream._is_started (snd (self s)) = true ->
     PredictionStream.start s = (Raise already_sent, s))
  /\ (fst (PredictionStream.start s) = Ok tt ->
      PredictionStream.start (snd (PredictionStream.start s))
      = (Raise already_sent, snd (PredictionStream.start s))).
Proof.
  assert (raises : forall s0 : State PredictionStream.Self,
    PredictionStream._is_finished (snd (self s0)) = false ->
    PredictionStream._is_started (snd (self s0)) = true ->
    PredictionStream.start s0 = (Raise already_sent, s0)).
  { intros s0 F S. unfold PredictionStream.start, bind, PredictionStream.get_stream.
    rewrite F, S. reflexivity. }
  split; [|split].
  - intros F. unfold PredictionStream.start, bind, PredictionStream.get_stream.
    rewrite F. reflexivity.
  - apply raises.
  - intros H. apply raises.
    + apply start_keeps_finished, H.
    + apply start_marks_started, H.
Qed.

(** ** Sending on a connected websocket *)

Import SyncLMStudioWebsocket.

(** The server accepts the connection and the handshake, and the
    transport carries the handshake both ways. *)
Definition server_ready (w : World) : bool :=
srv_accepts w && tx_ok w && auth_rx_ok w && bool_decide (srv_auth_error w = None).

(** The websocket has a thread whose socket and loop are up, and the
    transport takes what is sent. *)
Definition can_send (s : State SyncLMStudioWebsocket.t) : bool :=
  match _ws (self s) with
  | Some ws =>
      match _AsyncWebsocketThread.lookup ws (world s) with
      | Some th => th_ws th && th_ws_loop th && tx_ok (world s)
      | None => false
      end
  | None => false
  end.

Lemma can_send_connected (s : State t) : can_send s = true -> connected (self s) = true.
Proof.
  unfold can_send, connected. destruct (_ws (self s)); [|discriminate].
  intros _. apply bool_decide_eq_true. discriminate.
Qed.

Lemma send_json_ok (message : frame) (s : State t) :
  can_send s = true ->
  _send_json message s = (Ok tt, mkState (emit (NetSend message) (world s)) (self s)).
Proof.
  unfold can_send, _send_json, _AsyncWebsocketThread.send_json, _AsyncWebsocketThread._send_json.
  destruct (_ws (self s)) as [ws|]; [|discriminate].
  destruct (_AsyncWebsocketThread.lookup ws (world s)) as [th|]; [|discriminate].
  destruct (th_ws th), (th_ws_loop th), (tx_ok (world s)); try discriminate.
  reflexivity.
Qed.

Lemma can_send_emit (e : net_event) (s : State t) :
  can_send (mkState (emit e (world s)) (self s)) = can_send s.
Proof. reflexivity. Qed.

(** [cancel()] called [n] times in a row. *)
Fixpoint cancel_times (n : nat) : M (t * SyncChannel.t) unit :=
  match n with
  | 0 => ret tt
  | S n' => _ <- channel_cancel ;; cancel_times n'
  end.

Definition is_cancel_frame (channel_id : nat) (e : net_event) : bool :=
  match e with
  | NetSend (channelCancel id) => bool_decide (id = channel_id)
  | _ => false
  end.

(** The [channelCancel] frames for a channel that were put on the wire. *)
Definition cancel_frames (channel_id : nat) (w : World) : nat :=
  length (List.filter (is_cancel_frame channel_id) (wire w)).

Definition websocket_of (s : State (t * SyncChannel.t)) : State t :=
  mkState (world s) (fst (self s)).

Lemma cancel_finished (s : State (t * SyncChannel.t)) :
  SyncChannel._is_finished (snd (self s)) = true ->
  channel_cancel s = (Ok tt, s).
Proof.
  intros F. unfold channel_cancel, SyncChannel.cancel, bind, SyncChannel.get_channel.
  rewrite F. reflexivity.
Qed.

Lemma cancel_unfinished (s : State (t * SyncChannel.t)) :
  SyncChannel._is_finished (snd (self s)) = false ->
  can_send (websocket_of s) = true ->
  channel_cancel s
  = (Ok tt, mkState (emit (NetSend (channelCancel (SyncChannel.channel_id (snd (self s))))) (world s))
              (self s)).
Proof.
  intros F C. unfold channel_cancel, SyncChannel.cancel, bind, SyncChannel.get_channel.
  rewrite F. unfold SyncChannel.in_owner.
  change (mkState (world s) (fst (self s))) with (websocket_of s).
  rewrite (send_json_ok _ _ C). cbn. destruct s as [w [o ch]]; reflexivity.
Qed.

(** C3, as the code has it.  On a websocket that can send, [n] calls of
    [cancel()] all return, leave the channel as it was, and put one
    [channelCancel] frame on the wire per call while the channel is not
    finished, and none once it is finished. *)
Theorem cancel_sends_one_frame_per_call (n : nat) (s : State (t * SyncChannel.t)) :
  can_send (websocket_of s) = true ->
  let channel := snd (self s) in
  let r := cancel_times n s in
  fst r = Ok tt
  /\ self (snd r) = self s
  /\ wire (world (snd r))
     = wire (world s) ++
       (if SyncChannel._is_finished channel then []
        else replicate n (NetSend (channelCancel (SyncChannel.channel_id channel)))).
Proof.
  revert s. induction n as [|n IH]; intros s C; cbn zeta.
  - cbn. destruct (SyncChannel._is_finished _); rewrite app_nil_r; auto.
  - cbn [cancel_times]. unfold bind.
    destruct (SyncChannel._is_finished (snd (self s))) eqn:F.
    + rewrite (cancel_finished s F).
      specialize (IH s C). cbn zeta in IH. rewrite F in IH. exact IH.
    + rewrite (cancel_unfinished s F C).
      set (s1 := mkState _ _).
      assert (C1 : can_send (websocket_of s1) = true) by exact C.
      specialize (IH s1 C1). cbn zeta in IH.
      change (snd (self s1)) with (snd (self s)) in IH. rewrite F in IH.
      destruct IH as (R & S & W). repeat split; [exact R|exact S|].
      rewrite W. subst s1. cbn. rewrite <- app_assoc. reflexivity.
Qed.

(** *** A connected websocket with an open prediction channel *)

Definition demo_world : World := mkWorld true None true true [] [] 0 ∅ ∅ [].

Definition demo_websocket : State t :=
  snd (connect (mkState demo_world (__init__ "ws://127.0.0.1:1234/llm" "auth"))).

Definition predict_endpoint : ChannelEndpoint := mkEndpoint "predict" "{}".

Definition demo_channel : State (t * SyncChannel.t) :=
  let s := snd (open_channel_enter predict_endpoint demo_websocket) in
  mkState (world s) (self s, SyncChannel.__init__ 0 1 predict_endpoint).

Lemma demo_channel_entered :
  fst (open_channel_enter predict_endpoint demo_websocket)
  = Ok (snd (self demo_channel)).
Proof. vm_compute. reflexivity. Qed.

Lemma cancel_sends_one_frame_per_call_witness :
  let r := cancel_times 3 demo_channel in
  fst r = Ok tt
  /\ self (snd r) = self demo_channel
  /\ wire (world (snd r))
     = wire (world demo_channel) ++ replicate 3 (NetSend (channelCancel 0)).
Proof.
  apply (cancel_sends_one_frame_per_call 3 demo_channel). vm_compute. reflexivity.
Defined.

(** C3 as stated fails: two calls of [cancel()] on an open, unfinished
    channel put two [channelCancel] frames on the wire. *)
Lemma cancel_twice_sends_two_frames :
  SyncChannel._is_finished (snd (self demo_channel)) = false
  /\ cancel_frames 0 (world demo_channel) = 0
  /\ fst (cancel_times 2 demo_channel) = Ok tt
  /\ cancel_frames 0 (world (snd (cancel_times 2 demo_channel))) = 2.
Proof. vm_compute. auto. Qed.

(** ** The [open_channel] scope *)

Lemma ensure_connected_ok (usage : string) (s : State t) :
  can_send s = true -> _ensure_connected usage s = (Ok tt, s).
Proof.
  intros C. unfold _ensure_connected. rewrite (can_send_connected s C). reflexivity.
Qed.

Lemma connect_to_endpoint_ok (channel : SyncChannel.t) (s : State t) :
  can_send s = true ->
  _connect_to_endpoint channel s
  = (Ok tt, mkState (emit (NetSend (SyncChannel.get_creation_message channel)) (world s)) (self s)).
Proof.
  intros C. unfold _connect_to_endpoint, bind.
  rewrite (ensure_connected_ok _ s C). apply send_json_ok, C.
Qed.

Lemma open_channel_enter_ok (endpoint : ChannelEndpoint) (s : State t) :
  can_send s = true ->
  let channel_id := MultiplexingManager.next_channel_id (_mux (self s)) in
  let rx_queue := next_ref (world s) in
  let w := world s in
  open_channel_enter endpoint s
  = (Ok (SyncChannel.__init__ channel_id rx_queue endpoint),
     mkState
       (emit (NetSend (ChannelHandler.get_creation_message channel_id endpoint))
          (set_next_ref (S rx_queue) (set_queues (<[rx_queue := []]> (queues w)) w)))
       (set_mux (snd (MultiplexingManager.assign_channel_id_enter rx_queue (_mux (self s))))
          (self s))).
Proof.
  intros C. cbn zeta.
  unfold open_channel_enter, bind, Queue.new, get_self, put_self.
  cbn -[_connect_to_endpoint].
  rewrite connect_to_endpoint_ok; [reflexivity|exact C].
Qed.

(** C7, as the code has it.  On a websocket that can send, entering
    [open_channel] allocates the next channel id, registers a fresh inbox
    for it and sends one [channelCreate] frame carrying the endpoint's
    creation payload; leaving the scope removes the registration and puts
    nothing on the wire, so after any body the wire is what the body left. *)
Theorem open_channel_scope (endpoint : ChannelEndpoint) (s : State t) :
  can_send s = true ->
  let channel_id := MultiplexingManager.next_channel_id (_mux (self s)) in
  let rx_queue := next_ref (world s) in
  let channel := SyncChannel.__init__ channel_id rx_queue endpoint in
  let entered := open_channel_enter endpoint s in
  fst entered = Ok channel
  /\ wire (world (snd entered))
     = wire (world s) ++
       [NetSend (channelCreate channel_id (api_endpoint endpoint) (creation_params endpoint))]
  /\ MultiplexingManager.open_channels (_mux (self (snd entered))) !! channel_id = Some rx_queue
  /\ (forall s' : State t,
        world (open_channel_exit channel_id s') = world s'
        /\ MultiplexingManager.open_channels (_mux (self (open_channel_exit channel_id s')))
           !! channel_id = None)
  /\ (forall (A : Type) (body : SyncChannel.t -> M t A),
        world (snd (open_channel endpoint body s)) = world (snd (body channel (snd entered)))).
Proof.
  intros C. cbn zeta.
  pose proof (open_channel_enter_ok endpoint s C) as E. cbn zeta in E.
  rewrite E. cbn [fst snd].
  split; [reflexivity|].
  split; [reflexivity|].
  split; [cbn; apply lookup_insert_eq|].
  split.
  - intros s'. split; [reflexivity|]. cbn. apply lookup_delete_eq.
  - intros A body. unfold open_channel, bind. rewrite E.
    unfold finally. 
    destruct (body _ _) as [[a|e|] s']; reflexivity.
Qed.

Lemma open_channel_scope_witness :
  fst (open_channel_enter predict_endpoint demo_websocket)
  = Ok (SyncChannel.__init__ 0 1 predict_endpoint)
  /\ wire (world (snd (open_channel_enter predict_endpoint demo_websocket)))
     = wire (world demo_websocket) ++ [NetSend (channelCreate 0 "predict" "{}")].
Proof.
  pose proof (open_channel_scope predict_endpoint demo_websocket) as H.
  cbn zeta in H.
  destruct H as (H1 & H2 & _); [vm_compute; reflexivity|].
  split; [exact H1|exact H2].
Defined.

(** C7 as stated fails: a scope is left while its channel is not finished,
    and no [channelCancel] frame is sent for it; the wire holds the
    handshake and the [channelCreate] frame only. *)
Lemma open_channel_exit_sends_no_cancel :
  let r := open_channel predict_endpoint
             (fun channel => ret (SyncChannel._is_finished channel)) demo_websocket in
  fst r = Ok false
  /\ wire (world (snd r))
     = [NetConnect "ws://127.0.0.1:1234/llm"; NetAuth "auth";
        NetSend (channelCreate 0 "predict" "{}")]
  /\ cancel_frames 0 (world (snd r)) = 0
  /\ MultiplexingManager.open_channels (_mux (self (snd r))) !! 0 = None.
Proof. vm_compute. auto. Qed.

(** ** What the environment can do to a blocked caller *)

(** The parts of the world that only the caller's own thread writes. *)
Definition untouched (w w' : World) : Prop :=
  wire w' = wire w /\ consumed w' = consumed w /\ next_ref w' = next_ref w
  /\ tx_ok w' = tx_ok w /\ srv_accepts w' = srv_accepts w
  /\ srv_auth_error w' = srv_auth_error w /\ auth_rx_ok w' = auth_rx_ok w.

Lemma untouched_refl (w : World) : untouched w w.
Proof. unfold untouched; auto 10. Qed.

Lemma untouched_trans (w1 w2 w3 : World) :
  untouched w1 w2 -> untouched w2 w3 -> untouched w1 w3.
Proof. unfold untouched; intuition congruence. Qed.

Lemma untouched_put (q : nat) (m : rx_message) (w : World) : untouched w (Queue.put q m w).
Proof. unfold untouched; cbn; auto 10. Qed.

Lemma untouched_store (tid : nat) (th : Thread) (w : World) :
  untouched w (_AsyncWebsocketThread.store tid th w).
Proof. unfold untouched; cbn; auto 10. Qed.

Lemma untouched_set_env (evs : list env_event) (w : World) : untouched w (set_env evs w).
Proof. unfold untouched; cbn; auto 10. Qed.

Lemma untouched_notify (l : list nat) (w : World) :
  untouched w (foldl (fun w rx_queue => Queue.put rx_queue None w) w l).
Proof.
  revert w; induction l as [|q l IH]; intros w; cbn [foldl].
  - apply untouched_refl.
  - eapply untouched_trans; [apply untouched_put|apply IH].
Qed.

Lemma untouched_main_task_exit (tid : nat) (w : World) :
  untouched w (_AsyncWebsocketThread._main_task_exit tid w).
Proof.
  unfold _AsyncWebsocketThread._main_task_exit.
  destruct (_AsyncWebsocketThread.lookup tid w) as [th|]; [|apply untouched_refl].
  destruct (th_terminate th); [apply untouched_store|apply untouched_refl].
Qed.

Lemma untouched_thread_disconnect (tid : nat) (w : World) :
  untouched w (_AsyncWebsocketThread.disconnect tid w).
Proof.
  unfold _AsyncWebsocketThread.disconnect.
  destruct (_AsyncWebsocketThread.lookup tid w) as [th|]; [|apply untouched_refl].
  eapply untouched_trans; [apply untouched_store|apply untouched_main_task_exit].
Qed.

(** Queue contents under the world operations. *)
Lemma contents_put (q q' : nat) (m : rx_message) (w : World) :
  Queue.contents q (Queue.put q' m w)
  = if decide (q' = q) then Queue.contents q w ++ [m] else Queue.contents q w.
Proof.
  unfold Queue.contents, Queue.put. cbn. rewrite lookup_insert.
  destruct (decide (q' = q)) as [->|]; reflexivity.
Qed.

Lemma contents_store (q tid : nat) (th : Thread) (w : World) :
  Queue.contents q (_AsyncWebsocketThread.store tid th w) = Queue.contents q w.
Proof. reflexivity. Qed.

Lemma lookup_store (tid : nat) (th : Thread) (w : World) :
_AsyncWebsocketThread.lookup tid (_AsyncWebsocketThread.store tid th w) = Some th.
Proof. unfold _AsyncWebsocketThread.lookup, _AsyncWebsocketThread.store. cbn. apply lookup_insert_eq. Qed.

Lemma contents_main_task_exit (q tid : nat) (w : World) :
  Queue.contents q (_AsyncWebsocketThread._main_task_exit tid w) = Queue.contents q w.
Proof.
  unfold _AsyncWebsocketThread._main_task_exit.
  destruct (_AsyncWebsocketThread.lookup tid w) as [th|]; [|reflexivity].
  destruct (th_terminate th); reflexivity.
Qed.

Lemma contents_thread_disconnect (q tid : nat) (w : World) :
  Queue.contents q (_AsyncWebsocketThread.disconnect tid w) = Queue.contents q w.
Proof.
  unfold _AsyncWebsocketThread.disconnect.
  destruct (_AsyncWebsocketThread.lookup tid w) as [th|]; [|reflexivity].
  rewrite contents_main_task_exit. reflexivity.
Qed.

(** What one turn of the receive loop does, case by case. *)
Lemma receive_turn_frame (ws : nat) (message : frame) (s : State t) :
  snd (_AsyncWebsocketThread._receive_messages_turn ws _enqueue_message (RxFrame message) s)
  = match MultiplexingManager.map_rx_message message (_mux (self s)) with
    | Some rx_queue => mkState (Queue.put rx_queue (Some message) (world s)) (self s)
    | None => s
    end.
Proof.
  unfold _AsyncWebsocketThread._receive_messages_turn, _AsyncWebsocketThread._process_next_message,
    _enqueue_message.
  destruct (MultiplexingManager.map_rx_message message (_mux (self s))); reflexivity.
Qed.

Lemma receive_turn_failure (ws : nat) (s : State t) :
  snd (_AsyncWebsocketThread._receive_messages_turn ws _enqueue_message RxException s)
  = match _AsyncWebsocketThread.lookup ws (world s) with
    | Some th =>
        if th_ws th
        then mkState (_AsyncWebsocketThread.store ws (_AsyncWebsocketThread.set_terminate th) (world s)) (self s)
        else s
    | None => s
    end.
Proof.
  unfold _AsyncWebsocketThread._receive_messages_turn, _AsyncWebsocketThread._process_next_message,
    raise.
  destruct (_AsyncWebsocketThread.lookup ws (world s)) as [th|]; [|reflexivity].
  destruct (th_ws th); reflexivity.
Qed.

(** C4, the code's side.  When the transport fails on receive, the
    background thread sets [_terminate] and winds down: no receive queue
    gets anything, whatever is registered with the multiplexer. *)
Lemma transport_failure_delivers_nothing (s : State t) (q : nat) :
  Queue.contents q (world (env_step EvRxFail s)) = Queue.contents q (world s)
  /\ _mux (self (env_step EvRxFail s)) = _mux (self s).
Proof.
  unfold env_step, background_receive.
  destruct (_ws (self s)) as [ws|]; [|auto].
  destruct (_AsyncWebsocketThread.lookup ws (world s)) as [th|] eqn:L; [|auto].
  destruct (th_ws th && negb (th_terminate th)); [|auto].
  rewrite receive_turn_failure, L.
  destruct (th_ws th); cbn [world self]; rewrite contents_main_task_exit; auto.
Qed.

Lemma env_main_task_exit (tid : nat) (w : World) :
  env (_AsyncWebsocketThread._main_task_exit tid w) = env w.
Proof.
  unfold _AsyncWebsocketThread._main_task_exit.
  destruct (_AsyncWebsocketThread.lookup tid w) as [th|]; [|reflexivity].
  destruct (th_terminate th); reflexivity.
Qed.

Lemma env_thread_disconnect (tid : nat) (w : World) :
  env (_AsyncWebsocketThread.disconnect tid w) = env w.
Proof.
  unfold _AsyncWebsocketThread.disconnect.
  destruct (_AsyncWebsocketThread.lookup tid w) as [th|]; [|reflexivity].
  rewrite env_main_task_exit. reflexivity.
Qed.

Lemma env_notify (l : list nat) (w : World) :
  env (foldl (fun w rx_queue => Queue.put rx_queue None w) w l) = env w.
Proof.
  revert w; induction l as [|q l IH]; intros w; [reflexivity|].
  cbn [foldl]. rewrite IH. reflexivity.
Qed.

(** What may land in queue [q] while its reader is blocked: the shutdown
    sentinel, or a frame the multiplexer maps to [q]. *)
Definition deliverable (m : MultiplexingManager.t) (q : nat) (message : rx_message) : Prop :=
  match message with
  | None => True
  | Some f => MultiplexingManager.map_rx_message f m = Some q
  end.

Lemma contents_notify (q : nat) (l : list nat) (w : World) :
  exists k, k <= length l /\
    Queue.contents q (foldl (fun w rx_queue => Queue.put rx_queue None w) w l)
    = Queue.contents q w ++ replicate k None.
Proof.
  revert w; induction l as [|q' l IH]; intros w; cbn [foldl].
  - exists 0. split; [lia|]. cbn. rewrite app_nil_r. reflexivity.
  - destruct (IH (Queue.put q' None w)) as (k & Hk & E).
    rewrite E, contents_put. destruct (decide (q' = q)).
    + exists (S k). split; [cbn; lia|]. rewrite <- app_assoc. reflexivity.
    + exists k. split; [cbn; lia|]. reflexivity.
Qed.

Lemma Forall_replicate_None (m : MultiplexingManager.t) (q k : nat) :
  Forall (deliverable m q) (replicate k None).
Proof. apply Forall_replicate. exact I. Qed.

(** One environment event seen from queue [q]: the multiplexer and the
    caller's part of the world stay, and [q] only grows, by messages that
    are deliverable to it. *)
Lemma env_step_effect (ev : env_event) (s : State t) (q : nat) :
  untouched (world s) (world (env_step ev s))
  /\ env (world (env_step ev s)) = env (world s)
  /\ _mux (self (env_step ev s)) = _mux (self s)
  /\ exists added,
       Queue.contents q (world (env_step ev s)) = Queue.contents q (world s) ++ added
       /\ Forall (deliverable (_mux (self s)) q) added
       /\ length added <= S (length (MultiplexingManager.all_queues (_mux (self s)))).
Proof.
  assert (same : forall s1 : State t,
    world s1 = world s -> _mux (self s1) = _mux (self s) ->
    untouched (world s) (world s1) /\ env (world s1) = env (world s)
    /\ _mux (self s1) = _mux (self s)
    /\ exists added, Queue.contents q (world s1) = Queue.contents q (world s) ++ added
       /\ Forall (deliverable (_mux (self s)) q) added
       /\ length added <= S (length (MultiplexingManager.all_queues (_mux (self s))))).
  { intros s1 -> E. split; [apply untouched_refl|]. split; [reflexivity|]. split; [exact E|].
    exists []. rewrite app_nil_r. split; [reflexivity|]. split; [constructor|cbn; lia]. }
  destruct ev as [message| |]; unfold env_step.
  - unfold background_receive.
    destruct (_ws (self s)) as [ws|]; [|apply same; reflexivity].
    destruct (_AsyncWebsocketThread.lookup ws (world s)) as [th|] eqn:L; [|apply same; reflexivity].
    destruct (th_ws th && negb (th_terminate th)); [|apply same; reflexivity].
    rewrite receive_turn_frame.
    destruct (MultiplexingManager.map_rx_message message (_mux (self s))) as [q'|] eqn:Q;
      cbn [world self].
    + split; [eapply untouched_trans; [apply untouched_put|apply untouched_main_task_exit]|].
      split; [rewrite env_main_task_exit; reflexivity|].
      split; [reflexivity|].
      rewrite contents_main_task_exit, contents_put.
      destruct (decide (q' = q)) as [->|].
      * exists [Some message]. split; [reflexivity|]. split; [|cbn; lia].
        constructor; [exact Q|constructor].
      * exists []. rewrite app_nil_r. split; [reflexivity|]. split; [constructor|cbn; lia].
    + split; [apply untouched_main_task_exit|].
      split; [rewrite env_main_task_exit; reflexivity|].
      split; [reflexivity|].
      rewrite contents_main_task_exit.
      exists []. rewrite app_nil_r. split; [reflexivity|]. split; [constructor|cbn; lia].
  - destruct (transport_failure_delivers_nothing s q) as [E1 E2].
    unfold env_step in E1, E2.
    split.
    { unfold background_receive.
      destruct (_ws (self s)) as [ws|]; [|apply untouched_refl].
      destruct (_AsyncWebsocketThread.lookup ws (world s)) as [th|] eqn:L; [|apply untouched_refl].
      destruct (th_ws th && negb (th_terminate th)); [|apply untouched_refl].
      rewrite receive_turn_failure, L.
      destruct (th_ws th); cbn [world self].
      - eapply untouched_trans; [apply untouched_store|apply untouched_main_task_exit].
      - apply untouched_main_task_exit. }
    split.
    { unfold background_receive.
      destruct (_ws (self s)) as [ws|]; [|reflexivity].
      destruct (_AsyncWebsocketThread.lookup ws (world s)) as [th|] eqn:L; [|reflexivity].
      destruct (th_ws th && negb (th_terminate th)); [|reflexivity].
      rewrite receive_turn_failure, L.
      destruct (th_ws th); cbn [world self]; rewrite env_main_task_exit; reflexivity. }
    split; [exact E2|].
    rewrite E1. exists []. rewrite app_nil_r. split; [reflexivity|]. split; [constructor|cbn; lia].
  - unfold disconnect, _notify_client_termination.
    destruct (_ws (self s)) as [ws|]; [|apply same; reflexivity].
    cbn [world self].
    split; [eapply untouched_trans; [apply untouched_notify|apply untouched_thread_disconnect]|].
    split; [rewrite env_thread_disconnect, env_notify; reflexivity|].
    split; [reflexivity|].
    rewrite contents_thread_disconnect.
    destruct (contents_notify q (MultiplexingManager.all_queues (_mux (self s))) (world s))
      as (k & Hk & E).
    exists (replicate k None). split; [exact E|].
    split; [apply Forall_replicate_None|]. rewrite length_replicate. lia.
Qed.

(** [Queue.get] under an invariant [I evs s] of the environment's steps,
    [evs] being what is still to happen: the caller either stays blocked on
    an empty queue, nothing being left to happen, or takes the head of the
    queue of a state the invariant holds in. *)
Lemma blocking_get_spec {O : Type} (step : env_event -> State O -> State O) (q : nat)
    (I : list env_event -> State O -> Prop) :
  (forall ev evs' s, I (ev :: evs') s ->
     I evs' (step ev (mkState (set_env evs' (world s)) (self s)))) ->
  forall evs s, I evs s ->
    match Queue.blocking_get step q evs s with
    | (Ok m, s') =>
        exists evs0 s0 rest, I evs0 s0 /\ Queue.contents q (world s0) = m :: rest /\
          s' = mkState (set_consumed (consumed (world s0) ++ [(q, m)])
                          (set_queues (<[q := rest]> (queues (world s0))) (world s0))) (self s0)
    | (Hang, s') => I [] s' /\ Queue.contents q (world s') = []
    | (Raise _, _) => False
    end.
Proof.
  intros Hstep evs. induction evs as [|ev evs IH]; intros s Hs; cbn [Queue.blocking_get].
  - destruct (Queue.contents q (world s)) as [|m rest] eqn:E.
    + rewrite E. auto.
    + exists [], s, rest. auto.
  - destruct (Queue.contents q (world s)) as [|m rest] eqn:E.
    + apply IH, Hstep, Hs.
    + exists (ev :: evs), s, rest. auto.
Qed.

(** ** Remote calls *)

(** The references the multiplexer holds are to queues that exist. *)
Definition mux_wf (s : State t) : Prop :=
  map_Forall (fun _ q => q < next_ref (world s)) (MultiplexingManager.open_channels (_mux (self s)))
  /\ map_Forall (fun _ q => q < next_ref (world s)) (MultiplexingManager.pending_calls (_mux (self s))).

(** The hypotheses of the theorem hold where calls are made: after a
    successful [connect], and still after channels were opened. *)
Lemma connect_ready (s : State t) :
server_ready (world s) = true ->
_ws (self s) = None ->
mux_wf s ->
fst (connect s) = Ok tt /\ can_send (snd (connect s)) = true /\ mux_wf (snd (connect s)).
Proof.
intros R N [Hch Hcalls]. unfold server_ready in R.
apply andb_true_iff in R as [R Ra]. apply andb_true_iff in R as [R Rx].
apply andb_true_iff in R as [Rc Rt].
apply bool_decide_eq_true in Ra.
unfold connect, bind, _fail_if_connected, connected, get_self. rewrite N.
rewrite bool_decide_eq_false_2 by auto.
unfold _AsyncWebsocketThread.connect, _AsyncWebsocketThread._main_task.
cbn [world self srv_accepts tx_ok srv_auth_error auth_rx_ok emit set_wire set_next_ref].
rewrite Rc, Rt, Rx, Ra. cbn.
split; [reflexivity|]. split.
- unfold can_send, _AsyncWebsocketThread.lookup. cbn. rewrite lookup_insert_eq. cbn. exact Rt.
- split; cbn; intros i x H; [apply Hch in H|apply Hcalls in H]; cbn in H; lia.
Qed.

Lemma open_channel_enter_ready (endpoint : ChannelEndpoint) (s : State t) :
can_send s = true ->
mux_wf s ->
can_send (snd (open_channel_enter endpoint s)) = true
/\ mux_wf (snd (open_channel_enter endpoint s)).
Proof.
intros C [Hch Hcalls].
pose proof (open_channel_enter_ok endpoint s C) as E. cbn zeta in E. rewrite E. cbn [snd].
split; [exact C|].
split; cbn; intros i x H.
- apply lookup_insert_Some in H as [[_ <-]|[_ H]]; [lia|]. apply Hch in H. cbn in H. lia.
- apply Hcalls in H. cbn in H. lia.
Qed.

(** The state in which [remote_call] waits for its result: inbox
    allocated and registered, [rpcCall] sent. *)
Definition call_sent (endpoint : string) (params : option Any) (s : State t) : State t :=
  let w := world s in
  let rx_queue := next_ref w in
  let call_id := MultiplexingManager.next_call_id (_mux (self s)) in
  mkState
    (emit (NetSend (rpcCall call_id endpoint (default "null" params)))
       (set_next_ref (S rx_queue) (set_queues (<[rx_queue := []]> (queues w)) w)))
    (set_mux (snd (MultiplexingManager.assign_call_id_enter rx_queue (_mux (self s)))) (self s)).

Definition call_done (call_id : nat) : State t -> State t :=
  mux_update (MultiplexingManager.assign_call_id_exit call_id).

Lemma remote_call_unfold (endpoint : string) (params : option Any) (s : State t) :
  can_send s = true ->
  remote_call endpoint params s
  = let call_id := MultiplexingManager.next_call_id (_mux (self s)) in
    match Queue.blocking_get env_step (next_ref (world s)) (env (world s))
            (call_sent endpoint params s) with
    | (Ok message, s') =>
        match RemoteCallHandler.handle_rx_message message with
        | Hang => (Hang, s')
        | r => (r, call_done call_id s')
        end
    | (Raise e, s') => (Raise e, call_done call_id s')
    | (Hang, s') => (Hang, s')
    end.
Proof.
  intros C. unfold remote_call, bind, Queue.new, get_self, put_self.
  cbn -[_send_call SyncRemoteCall.receive_result].
  unfold finally, bind.
  set (s1 := mkState _ _).
  assert (C1 : can_send s1 = true) by exact C.
  unfold _send_call, bind. rewrite (ensure_connected_ok _ s1 C1).
  rewrite (send_json_ok _ s1 C1).
  unfold SyncRemoteCall.receive_result, bind, queue_get, Queue.get, lift.
  cbn [SyncRemoteCall._rx_queue SyncRemoteCall.__init__].
  change (env (world (mkState (emit _ (world s1)) (self s1)))) with (env (world s)).
  change (mkState (emit _ (world s1)) (self s1)) with (call_sent endpoint params s).
  destruct (Queue.blocking_get _ _ _ _) as [[message|e|] s']; [|reflexivity..].
  destruct (RemoteCallHandler.handle_rx_message message); reflexivity.
Qed.

(** How a remote call concludes, by the message its inbox delivered. *)
Inductive call_conclusion (call_id : nat) : rx_message -> outcome Any -> Prop :=
| concluded_result (result : Any) :
    call_conclusion call_id (Some (rpcResult call_id result)) (Ok result)
| concluded_error (error : Any) :
    call_conclusion call_id (Some (rpcError call_id error)) (Raise (RpcError error))
| concluded_shutdown :
    call_conclusion call_id None (Raise Disconnected).

Lemma deliverable_to_fresh_call (m : MultiplexingManager.t) (rx_queue bound : nat)
    (message : rx_message) :
  map_Forall (fun _ q => q < bound) (MultiplexingManager.open_channels m) ->
  map_Forall (fun _ q => q < bound) (MultiplexingManager.pending_calls m) ->
  bound <= rx_queue ->
  deliverable (snd (MultiplexingManager.assign_call_id_enter rx_queue m)) rx_queue message ->
  call_conclusion (MultiplexingManager.next_call_id m) message
    (RemoteCallHandler.handle_rx_message message).
Proof.
  intros Hch Hcalls Hb D.
  destruct message as [f|]; [|constructor].
  unfold deliverable, MultiplexingManager.map_rx_message in D. cbn in D.
  assert (calls : forall id, <[MultiplexingManager.next_call_id m := rx_queue]>
                    (MultiplexingManager.pending_calls m) !! id = Some rx_queue ->
                  id = MultiplexingManager.next_call_id m).
  { intros id L. destruct (decide (MultiplexingManager.next_call_id m = id)) as [<-|N]; [reflexivity|].
    rewrite lookup_insert_ne in L by exact N. apply Hcalls in L. cbn in L. lia. }
  destruct f; try discriminate.
  - apply calls in D as ->. constructor.
  - apply calls in D as ->. constructor.
  - apply Hch in D. cbn in D. lia.
  - apply Hch in D. cbn in D. lia.
Qed.

(** The background thread of the websocket is receiving. *)
Definition receiving (s : State t) : bool :=
match _ws (self s) with
| Some ws =>
    match _AsyncWebsocketThread.lookup ws (world s) with
    | Some th => th_ws th && negb (th_terminate th)
    | None => false
    end
| None => false
end.

(** The websocket has its thread, with socket and loop up: what
    [connect()] leaves, until the thread winds down. *)
Definition thread_up (s : State t) : bool :=
match _ws (self s) with
| Some ws =>
    match _AsyncWebsocketThread.lookup ws (world s) with
    | Some th => th_ws th && th_ws_loop th
    | None => false
    end
| None => false
end.

Lemma can_send_thread_up (s : State t) : can_send s = thread_up s && tx_ok (world s).
Proof.
unfold can_send, thread_up. destruct (_ws (self s)) as [ws|]; [|reflexivity].
destruct (_AsyncWebsocketThread.lookup ws (world s)); reflexivity.
Qed.

(** The frame answers the call [call_id]. *)
Definition answers (call_id : nat) (f : frame) : bool :=
match f with
| rpcResult id _ | rpcError id _ => bool_decide (id = call_id)
| _ => false
end.

(** The first message to reach the inbox of the call [call_id] on a
    connected websocket, among the events still to happen: a frame that
    answers the call, received while the thread is receiving, or the
    shutdown sentinel of a [disconnect()].  After a failed receive the
    thread receives no more. *)
Fixpoint first_delivery (call_id : nat) (receiving : bool) (evs : list env_event)
  : option rx_message :=
match evs with
| [] => None
| EvRx f :: evs' =>
    if receiving && answers call_id f then Some (Some f)
    else first_delivery call_id receiving evs'
| EvRxFail :: evs' => first_delivery call_id false evs'
| EvDisconnect :: _ => Some None
end.

(** The state of a websocket one of whose calls waits on the empty inbox
    [q], the thread receiving or not as [b] says. *)
Record waiting (call_id q : nat) (b : bool) (s : State t) : Prop := {
wt_thread : exists ws th,
  _ws (self s) = Some ws /\ _AsyncWebsocketThread.lookup ws (world s) = Some th
  /\ th_ws th && negb (th_terminate th) = b;
wt_empty : Queue.contents q (world s) = [];
wt_answers : forall f,
  MultiplexingManager.map_rx_message f (_mux (self s)) = Some q <-> answers call_id f = true;
wt_registered : q ∈ MultiplexingManager.all_queues (_mux (self s));
}.

Lemma waiting_set_env (call_id q : nat) (b : bool) (evs : list env_event) (s : State t) :
waiting call_id q b s -> waiting call_id q b (mkState (set_env evs (world s)) (self s)).
Proof. intros [T E A R]. constructor; assumption. Qed.

Lemma contents_notify_member (q : nat) (l : list nat) (w : World) :
q ∈ l ->
exists k, Queue.contents q (foldl (fun w rx_queue => Queue.put rx_queue None w) w l)
          = Queue.contents q w ++ None :: replicate k None.
Proof.
revert w. induction l as [|q' l IH]; intros w H; [apply elem_of_nil in H; destruct H|].
cbn [foldl]. destruct (decide (q' = q)) as [->|N].
- destruct (contents_notify q l (Queue.put q None w)) as (k & _ & E).
  exists k. rewrite E, contents_put, decide_True by reflexivity.
  rewrite <- app_assoc. reflexivity.
- apply elem_of_cons in H as [H|H]; [congruence|].
  destruct (IH (Queue.put q' None w) H) as [k E]. exists k.
  rewrite E, contents_put, decide_False by exact N. reflexivity.
Qed.

(** One event seen by a waiting call. *)
Lemma env_step_waiting (call_id q : nat) (b : bool) (ev : env_event) (s : State t) :
waiting call_id q b s ->
match ev with
| EvRx f =>
    if b && answers call_id f
    then Queue.contents q (world (env_step ev s)) = [Some f]
    else waiting call_id q b (env_step ev s)
| EvRxFail => waiting call_id q false (env_step ev s)
| EvDisconnect => exists k, Queue.contents q (world (env_step ev s)) = None :: replicate k None
end.
Proof.
intros [(ws & th & W & L & B) E A R].
destruct ev as [f| |]; unfold env_step.
- unfold background_receive. rewrite W, L, B.
  destruct b; cbn [andb].
  + rewrite receive_turn_frame.
    assert (X : th_terminate th = false).
    { apply andb_true_iff in B as [_ B]. apply negb_true_iff in B. exact B. }
    assert (exit : forall w, _AsyncWebsocketThread.lookup ws w = Some th ->
                     _AsyncWebsocketThread._main_task_exit ws w = w).
    { intros w Lw. unfold _AsyncWebsocketThread._main_task_exit. rewrite Lw, X. reflexivity. }
    destruct (answers call_id f) eqn:Ans.
    * apply A in Ans. rewrite Ans. cbn [world self].
      rewrite contents_main_task_exit, contents_put, decide_True by reflexivity.
      rewrite E. reflexivity.
    * destruct (MultiplexingManager.map_rx_message f (_mux (self s))) as [q'|] eqn:Q;
        cbn [world self].
      -- assert (Nq : q' ≠ q).
         { intros ->. apply A in Q. congruence. }
         rewrite (exit (Queue.put q' (Some f) (world s)) L).
         constructor; cbn [world self].
         ++ exists ws, th. auto.
         ++ rewrite contents_put, decide_False by exact Nq. exact E.
         ++ exact A.
         ++ exact R.
      -- rewrite (exit (world s) L).
         constructor; [exists ws, th; auto|exact E|exact A|exact R].
  + constructor; [exists ws, th; auto|exact E|exact A|exact R].
- destruct (transport_failure_delivers_nothing s q) as [Ec Em]. unfold env_step in Ec, Em.
  constructor.
  + unfold background_receive in *. rewrite W, L, B in *.
    destruct b.
    * rewrite receive_turn_failure, L.
      apply andb_true_iff in B as [B1 B2]. rewrite B1. cbn [world self].
      unfold _AsyncWebsocketThread._main_task_exit. rewrite lookup_store.
      cbn [_AsyncWebsocketThread.set_terminate th_terminate].
      eexists ws, _. split; [exact W|]. split; [apply lookup_store|reflexivity].
    * exists ws, th. auto.
  + rewrite Ec. exact E.
  + rewrite Em. exact A.
  + rewrite Em. exact R.
- unfold disconnect, _notify_client_termination. rewrite W. cbn [world self _mux set_ws].
  destruct (contents_notify_member q _ (world s) R) as [k Ek].
  exists k. rewrite contents_thread_disconnect, Ek, E. reflexivity.
Qed.

Lemma blocking_get_head (q : nat) (message : rx_message) (rest : list rx_message)
    (evs : list env_event) (s : State t) :
Queue.contents q (world s) = message :: rest ->
Queue.blocking_get env_step q evs s
= (Ok message,
   mkState (set_consumed (consumed (world s) ++ [(q, message)])
              (set_queues (<[q := rest]> (queues (world s))) (world s))) (self s)).
Proof. intros E. destruct evs; cbn [Queue.blocking_get]; rewrite E; reflexivity. Qed.

(** A waiting call gets the first message delivered to its inbox, and
    stays blocked when there is none. *)
Lemma blocking_get_first_delivery (call_id q : nat) (evs : list env_event) :
forall (b : bool) (s : State t),
  waiting call_id q b s ->
  exists s',
    Queue.blocking_get env_step q evs s
    = (match first_delivery call_id b evs with
       | Some message => Ok message
       | None => Hang
       end, s')
    /\ wire (world s') = wire (world s)
    /\ _mux (self s') = _mux (self s)
    /\ consumed (world s')
       = consumed (world s)
         ++ match first_delivery call_id b evs with
            | Some message => [(q, message)]
            | None => []
            end.
Proof.
induction evs as [|ev evs IH]; intros b s Wt.
- cbn [Queue.blocking_get first_delivery]. rewrite (wt_empty _ _ _ _ Wt).
  exists s. rewrite app_nil_r. auto.
- cbn [Queue.blocking_get]. rewrite (wt_empty _ _ _ _ Wt).
  set (s0 := mkState (set_env evs (world s)) (self s)).
  pose proof (env_step_waiting call_id q b ev s0 (waiting_set_env _ _ _ evs s Wt)) as St.
  destruct (env_step_effect ev s0 q) as ((Uw & Uc & _) & _ & Um & _).
  cbn [world self s0 set_env wire consumed] in Uw, Uc, Um.
  assert (taken : forall message k,
            Queue.contents q (world (env_step ev s0)) = message :: k ->
            exists s',
              Queue.blocking_get env_step q evs (env_step ev s0) = (Ok message, s')
              /\ wire (world s') = wire (world s)
              /\ _mux (self s') = _mux (self s)
              /\ consumed (world s') = consumed (world s) ++ [(q, message)]).
  { intros message k Ec. rewrite (blocking_get_head q message k evs _ Ec).
    eexists. split; [reflexivity|]. cbn [world self wire consumed set_consumed set_queues].
    rewrite Uw, Uc, Um. auto. }
  destruct ev as [f| |]; cbn [first_delivery].
  + destruct (b && answers call_id f).
    * apply (taken (Some f) []), St.
    * destruct (IH b _ St) as (s' & G & Gw & Gm & Gc).
      exists s'. split; [exact G|]. rewrite Gw, Gm, Gc, Uw, Um, Uc. auto.
  + destruct (IH false _ St) as (s' & G & Gw & Gm & Gc).
    exists s'. split; [exact G|]. rewrite Gw, Gm, Gc, Uw, Um, Uc. auto.
  + destruct St as [k Ek]. apply (taken None (replicate k None)), Ek.
Qed.

(** The inbox of a call that was just registered gets the answers to that
    call and no other frame. *)
Lemma fresh_call_answers (m : MultiplexingManager.t) (rx_queue : nat) (f : frame) :
map_Forall (fun _ q => q < rx_queue) (MultiplexingManager.open_channels m) ->
map_Forall (fun _ q => q < rx_queue) (MultiplexingManager.pending_calls m) ->
MultiplexingManager.map_rx_message f (snd (MultiplexingManager.assign_call_id_enter rx_queue m))
= Some rx_queue
<-> answers (MultiplexingManager.next_call_id m) f = true.
Proof.
intros Hch Hcalls. unfold MultiplexingManager.map_rx_message, answers. cbn.
assert (calls : forall id, <[MultiplexingManager.next_call_id m := rx_queue]>
                  (MultiplexingManager.pending_calls m) !! id = Some rx_queue
                <-> id = MultiplexingManager.next_call_id m).
{ intros id. split.
  - intros L. destruct (decide (MultiplexingManager.next_call_id m = id)) as [<-|N]; [reflexivity|].
    rewrite lookup_insert_ne in L by exact N. apply Hcalls in L. cbn in L. lia.
  - intros ->. apply lookup_insert_eq. }
destruct f; try (split; discriminate).
- rewrite calls, bool_decide_eq_true. reflexivity.
- rewrite calls, bool_decide_eq_true. reflexivity.
- split; [|discriminate]. intros D. apply Hch in D. cbn in D. lia.
- split; [|discriminate]. intros D. apply Hch in D. cbn in D. lia.
Qed.

Lemma call_sent_waiting (endpoint : string) (params : option Any) (s : State t) :
thread_up s = true ->
mux_wf s ->
waiting (MultiplexingManager.next_call_id (_mux (self s))) (next_ref (world s)) (receiving s)
  (call_sent endpoint params s).
Proof.
intros U [Hch Hcalls]. unfold thread_up, receiving in *.
destruct (_ws (self s)) as [ws|] eqn:W; [|discriminate].
destruct (_AsyncWebsocketThread.lookup ws (world s)) as [th|] eqn:L; [|discriminate].
constructor.
- exists ws, th. split; [exact W|]. split; [exact L|reflexivity].
- unfold Queue.contents, call_sent. cbn. rewrite lookup_insert_eq. reflexivity.
- intros f. apply (fresh_call_answers (_mux (self s)) (next_ref (world s)) f Hch Hcalls).
- unfold call_sent, MultiplexingManager.all_queues. cbn.
  apply elem_of_app. right. apply list_elem_of_fmap.
  exists (MultiplexingManager.next_call_id (_mux (self s)), next_ref (world s)).
  split; [reflexivity|]. apply elem_of_map_to_list, lookup_insert_eq.
Qed.

Lemma answer_concludes (call_id : nat) (b : bool) (evs : list env_event) (message : rx_message) :
first_delivery call_id b evs = Some message ->
call_conclusion call_id message (RemoteCallHandler.handle_rx_message message).
Proof.
revert b. induction evs as [|[f| |] evs IH]; intros b; cbn [first_delivery]; [discriminate| | |].
- destruct (b && answers call_id f) eqn:A; [|apply IH].
  intros H. injection H as <-. apply andb_true_iff in A as [_ A].
  destruct f; cbn in A; try discriminate; apply bool_decide_eq_true in A; subst; constructor.
- apply IH.
- intros H. injection H as <-. constructor.
Qed.

(** C2, as the code has it.  On a websocket whose thread is up,
    [remote_call] allocates a fresh call id and inbox.  When the transport
    takes the [rpcCall] frame, that frame goes on the wire and the call
    waits for the first message to reach its inbox: while none does, it
    stays blocked, having taken nothing, its id still registered; when one
    does, the call takes exactly that message and concludes by it in one of
    three ways: an [rpcResult] for its id returns the payload, an
    [rpcError] for its id raises [RpcError] with the server's error, the
    shutdown sentinel raises [Disconnected]; the call id is then no longer
    registered.  When the transport refuses the frame, the call raises the
    transmission error for it, with nothing sent, nothing taken from any
    inbox, and the call id no longer registered. *)
Theorem remote_call_concludes_by_one_message (endpoint : string) (params : option Any)
    (s : State t) :
  thread_up s = true ->
  mux_wf s ->
  let call_id := MultiplexingManager.next_call_id (_mux (self s)) in
  let rx_queue := next_ref (world s) in
  let request := rpcCall call_id endpoint (default "null" params) in
  let r := remote_call endpoint params s in
  (tx_ok (world s) = true ->
   wire (world (snd r)) = wire (world s) ++ [NetSend request]
   /\ match first_delivery call_id (receiving s) (env (world s)) with
      | None =>
          fst r = Hang
          /\ consumed (world (snd r)) = consumed (world s)
          /\ MultiplexingManager.pending_calls (_mux (self (snd r))) !! call_id = Some rx_queue
      | Some message =>
          fst r = RemoteCallHandler.handle_rx_message message
          /\ call_conclusion call_id message (fst r)
          /\ consumed (world (snd r)) = consumed (world s) ++ [(rx_queue, message)]
          /\ MultiplexingManager.pending_calls (_mux (self (snd r))) !! call_id = None
      end)
  /\ (tx_ok (world s) = false ->
      fst r = Raise (TxError request)
      /\ wire (world (snd r)) = wire (world s)
      /\ consumed (world (snd r)) = consumed (world s)
      /\ MultiplexingManager.pending_calls (_mux (self (snd r))) !! call_id = None).
Proof.
  intros U Wf. cbn zeta. split.
  - intros T.
    assert (C : can_send s = true) by (rewrite can_send_thread_up, U, T; reflexivity).
    rewrite (remote_call_unfold endpoint params s C). cbn zeta.
    destruct (blocking_get_first_delivery (MultiplexingManager.next_call_id (_mux (self s)))
                (next_ref (world s)) (env (world s)) (receiving s)
                (call_sent endpoint params s) (call_sent_waiting endpoint params s U Wf))
      as (s' & G & Gw & Gm & Gc).
    rewrite G.
    destruct (first_delivery (MultiplexingManager.next_call_id (_mux (self s))) (receiving s)
                (env (world s))) as [message|] eqn:D.
    + pose proof (answer_concludes _ _ _ _ D) as K. cbn beta iota.
      destruct (RemoteCallHandler.handle_rx_message message) as [a|e|] eqn:Hm;
        [| |inversion K];
        cbn [fst snd]; unfold call_done, mux_update; cbn [world self];
        (split; [rewrite Gw; reflexivity|]); (split; [reflexivity|]); (split; [exact K|]);
        (split; [rewrite Gc; reflexivity|]); cbn; apply lookup_delete_eq.
    + cbn [fst snd].
      split; [rewrite Gw; reflexivity|]. split; [reflexivity|].
      split; [rewrite Gc, app_nil_r; reflexivity|].
      rewrite Gm. cbn. apply lookup_insert_eq.
  - intros T.
    unfold remote_call, bind, Queue.new, get_self, put_self.
    cbn -[_send_call SyncRemoteCall.receive_result].
    unfold finally, bind, _send_call, bind, _ensure_connected, connected, _send_json,
      _AsyncWebsocketThread.send_json, _AsyncWebsocketThread._send_json.
    cbn [self world set_mux _ws]. unfold thread_up in U.
    destruct (_ws (self s)) as [ws|] eqn:W; [|discriminate].
    rewrite bool_decide_eq_true_2 by discriminate.
    cbn [self world set_mux _ws]. rewrite W.
    change (_AsyncWebsocketThread.lookup ws (set_next_ref _ (set_queues _ (world s))))
      with (_AsyncWebsocketThread.lookup ws (world s)).
    destruct (_AsyncWebsocketThread.lookup ws (world s)) as [th|] eqn:L; [|discriminate].
    apply andb_true_iff in U as [U1 U2]. rewrite U2, U1.
    change (tx_ok (set_next_ref _ (set_queues _ (world s)))) with (tx_ok (world s)).
    rewrite T. cbn.
    split; [reflexivity|]. split; [reflexivity|]. split; [reflexivity|].
    apply lookup_delete_eq.
Qed.

(** The same state with other things about to happen. *)
Definition with_env {O : Type} (evs : list env_event) (s : State O) : State O :=
  mkState (set_env evs (world s)) (self s).

(** The same state over a transport that refuses to send. *)
Definition tx_down {O : Type} (s : State O) : State O :=
  let w := world s in
  mkState (mkWorld (srv_accepts w) (srv_auth_error w) false (auth_rx_ok w) (env w) (wire w)
             (next_ref w) (queues w) (threads w) (consumed w)) (self s).

Lemma demo_websocket_wf (evs : list env_event) : mux_wf (with_env evs demo_websocket).
Proof. split; intros i x H; vm_compute in H; discriminate. Qed.

Lemma remote_call_concludes_by_one_message_witness :
  let s := with_env [EvRx (rpcResult 0 "[m1, m2]")] demo_websocket in
  let r := remote_call "listLoaded" None s in
  wire (world (snd r)) = wire (world s) ++ [NetSend (rpcCall 0 "listLoaded" "null")]
  /\ fst r = Ok "[m1, m2]"
  /\ call_conclusion 0 (Some (rpcResult 0 "[m1, m2]")) (fst r)
  /\ consumed (world (snd r)) = consumed (world s) ++ [(1, Some (rpcResult 0 "[m1, m2]"))]
  /\ MultiplexingManager.pending_calls (_mux (self (snd r))) !! 0 = None.
Proof.
  pose proof (remote_call_concludes_by_one_message "listLoaded" None
                (with_env [EvRx (rpcResult 0 "[m1, m2]")] demo_websocket)) as H.
  destruct H as [H _]; [vm_compute; reflexivity|apply demo_websocket_wf|].
  destruct H as (H1 & H2 & H3 & H4 & H5); [reflexivity|].
  split; [exact H1|]. split; [exact H2|]. split; [exact H3|]. split; [exact H4|exact H5].
Defined.

(** The three conclusions, on the wire of the demonstration websocket. *)
Example remote_call_result :
  fst (remote_call "listLoaded" None (with_env [EvRx (rpcResult 0 "[m1, m2]")] demo_websocket))
  = Ok "[m1, m2]".
Proof. vm_compute. reflexivity. Qed.

Example remote_call_error :
  fst (remote_call "getModelInfo" None (with_env [EvRx (rpcError 0 "NotFound")] demo_websocket))
  = Raise (RpcError "NotFound").
Proof. vm_compute. reflexivity. Qed.

Example remote_call_shutdown :
  fst (remote_call "listLoaded" None (with_env [EvDisconnect] demo_websocket))
  = Raise Disconnected.
Proof. vm_compute. reflexivity. Qed.

(** C2 as stated fails: when the transport refuses the [rpcCall] frame,
    the call concludes with the transmission error, a fourth way, and takes
    no message from its inbox although one result is on its way. *)
Lemma remote_call_send_failure :
  let s := tx_down (with_env [EvRx (rpcResult 0 "[m1, m2]")] demo_websocket) in
  let r := remote_call "listLoaded" None s in
  fst r = Raise (TxError (rpcCall 0 "listLoaded" "null"))
  /\ consumed (world (snd r)) = []
  /\ wire (world (snd r)) = wire (world s).
Proof. vm_compute. auto. Qed.

(** ** Transport failure *)

(** C4 fails on the code.  A caller is blocked in [remote_call] and the
    transport fails on receive: the thread terminates, the caller's inbox,
    still registered, never gets the shutdown sentinel, and the caller
    stays blocked.  When the client itself disconnects, the same caller
    gets the sentinel and fails with [Disconnected]. *)
Lemma transport_failure_leaves_caller_blocked :
  let r := remote_call "listLoaded" None (with_env [EvRxFail] demo_websocket) in
  fst r = Hang
  /\ MultiplexingManager.pending_calls (_mux (self (snd r))) !! 0 = Some 1
  /\ Queue.contents 1 (world (snd r)) = []
  /\ consumed (world (snd r)) = []
  /\ (th_terminate <$> threads (world (snd r)) !! 0) = Some true
  /\ fst (remote_call "listLoaded" None (with_env [EvDisconnect] demo_websocket))
     = Raise Disconnected.
Proof. vm_compute. auto 10. Qed.

(** The receive loop itself on the same failure: it ends at the failed
    receive, a frame that would have followed is never read, and the
    pending call's inbox stays empty. *)
Example receive_messages_stops_at_failure :
let sent := call_sent "listLoaded" None demo_websocket in
let r := _AsyncWebsocketThread._receive_messages 0 _enqueue_message
           [RxException; RxFrame (rpcResult 0 "late")] sent in
fst r = Ok tt
/\ Queue.contents 1 (world (snd r)) = []
/\ (th_terminate <$> threads (world (snd r)) !! 0) = Some true.
Proof. vm_compute. auto. Qed.

(** ** The receive stream of a channel *)

Definition channel_of (s : State (t * SyncChannel.t)) : SyncChannel.t := snd (self s).

Definition with_channel (channel : SyncChannel.t) (s : State t) : State (t * SyncChannel.t) :=
  mkState (world s) (self s, channel).

Lemma rx_stream_next_finished (s : State (t * SyncChannel.t)) :
  SyncChannel._is_finished (channel_of s) = true ->
  channel_rx_stream_next s = (Ok None, s).
Proof.
  intros F. unfold channel_rx_stream_next, SyncChannel.rx_stream_next, bind, SyncChannel.get_channel.
  unfold channel_of in F. rewrite F. reflexivity.
Qed.

Lemma rx_stream_next_unfinished (s : State (t * SyncChannel.t)) :
  SyncChannel._is_finished (channel_of s) = false ->
  channel_rx_stream_next s
  = let channel := channel_of s in
    match queue_get (SyncChannel._rx_queue channel) (websocket_of s) with
    | (Ok message, s1) =>
        match ChannelHandler.handle_rx_message message with
        | Ok (Some contents) => (Ok (Some contents), with_channel channel s1)
        | Ok None => (Ok None, with_channel (SyncChannel.mark_finished channel) s1)
        | Raise e => (Raise e, with_channel channel s1)
        | Hang => (Hang, with_channel channel s1)
        end
    | (Raise e, s1) => (Raise e, with_channel channel s1)
    | (Hang, s1) => (Hang, with_channel channel s1)
    end.
Proof.
  intros F. unfold channel_rx_stream_next, SyncChannel.rx_stream_next, bind, SyncChannel.get_channel.
  unfold channel_of in *. rewrite F. cbn zeta. unfold SyncChannel.in_owner.
  change (mkState (world s) (fst (self s))) with (websocket_of s).
  destruct (queue_get _ _) as [[message|e|] s1]; cbn [fst snd self world]; try reflexivity.
  unfold lift.
  destruct (ChannelHandler.handle_rx_message message) as [[contents|]|e|]; reflexivity.
Qed.

(** A message that is already in the queue is the one [Queue.get] takes. *)
Lemma queue_get_head (q : nat) (message : rx_message) (rest : list rx_message) (s : State t) :
  Queue.contents q (world s) = message :: rest ->
  queue_get q s
  = (Ok message,
     mkState (set_consumed (consumed (world s) ++ [(q, message)])
                (set_queues (<[q := rest]> (queues (world s))) (world s))) (self s)).
Proof.
  intros E. unfold queue_get, Queue.get.
  destruct (env (world s)); cbn [Queue.blocking_get]; rewrite E; reflexivity.
Qed.

(** The flag after one step of the stream. *)
Lemma rx_stream_next_flag (s : State (t * SyncChannel.t)) :
  let r := channel_rx_stream_next s in
  SyncChannel._rx_queue (channel_of (snd r)) = SyncChannel._rx_queue (channel_of s)
  /\ match fst r with
     | Ok None => SyncChannel._is_finished (channel_of (snd r)) = true
     | _ => SyncChannel._is_finished (channel_of (snd r)) = SyncChannel._is_finished (channel_of s)
     end.
Proof.
  cbn zeta. destruct (SyncChannel._is_finished (channel_of s)) eqn:F.
  - rewrite (rx_stream_next_finished s F). cbn. auto.
  - rewrite (rx_stream_next_unfinished s F). cbn zeta.
    destruct (queue_get _ _) as [[message|e|] s1]; cbn; auto.
    destruct (ChannelHandler.handle_rx_message message) as [[contents|]|e|]; cbn; auto.
Qed.

(** A run of the stream that ends normally leaves the channel finished; a
    run that raises or blocks leaves the flag as it was. *)
Lemma rx_stream_flag (fuel : nat) (s : State (t * SyncChannel.t)) :
  match channel_rx_stream fuel s with
  | Some (Ok _, s') => SyncChannel._is_finished (channel_of s') = true
  | Some (_, s') => SyncChannel._is_finished (channel_of s') = SyncChannel._is_finished (channel_of s)
  | None => True
  end.
Proof.
  revert s. induction fuel as [|fuel IH]; intros s; [exact I|].
  unfold channel_rx_stream in *. cbn [SyncChannel.rx_stream].
  pose proof (rx_stream_next_flag s) as [_ N]. cbn zeta in N.
  unfold channel_rx_stream_next in N.
  destruct (SyncChannel.rx_stream_next queue_get s) as [[[c|]|e|] s1]; cbn [fst snd] in N;
    try exact N.
  specialize (IH s1).
  destruct (SyncChannel.rx_stream queue_get fuel s1) as [[[cs|e|] s2]|]; try exact I;
    try exact IH; congruence.
Qed.

(** What a reader of queue [q] can still get: what is in the queue, and
    what each event still to happen can add to it. *)
Definition queue_budget (q : nat) (s : State t) : nat :=
  length (Queue.contents q (world s))
  + length (env (world s)) * S (length (MultiplexingManager.all_queues (_mux (self s)))).

Lemma queue_get_budget (q : nat) (s : State t) :
  match queue_get q s with
  | (Ok _, s') => queue_budget q s' < queue_budget q s
  | (Raise _, _) => False
  | (Hang, _) => True
  end.
Proof.
  set (B := S (length (MultiplexingManager.all_queues (_mux (self s))))).
  set (Inv := fun (evs : list env_event) (s' : State t) =>
    env (world s') = evs /\ _mux (self s') = _mux (self s)
    /\ length (Queue.contents q (world s')) + length evs * B <= queue_budget q s).
  assert (Hstep : forall ev evs' s', Inv (ev :: evs') s' ->
            Inv evs' (env_step ev (mkState (set_env evs' (world s')) (self s')))).
  { intros ev evs' s' (Ee & Em & Hb).
    destruct (env_step_effect ev (mkState (set_env evs' (world s')) (self s')) q)
      as (_ & Ee' & Em' & added & Ec & _ & La).
    cbn [world self] in *.
    split; [rewrite Ee'; reflexivity|]. split; [congruence|].
    rewrite Ec, length_app. rewrite Em in La. fold B in La.
    change (Queue.contents q (set_env evs' (world s'))) with (Queue.contents q (world s')).
    cbn [length] in Hb. lia. }
  assert (I0 : Inv (env (world s)) s).
  { split; [reflexivity|]. split; [reflexivity|]. unfold queue_budget. fold B. lia. }
  pose proof (blocking_get_spec env_step q Inv Hstep (env (world s)) s I0) as G.
  unfold queue_get, Queue.get.
  destruct (Queue.blocking_get env_step q (env (world s)) s) as [[message|e|] s']; [|exact G|exact I].
  destruct G as (evs0 & s0 & rest & (Ee & Em & Hb) & Ec & ->).
  unfold queue_budget at 1. cbn [world self].
  unfold Queue.contents at 1. cbn. rewrite lookup_insert_eq. cbn.
  rewrite Ee, Em. fold B. rewrite Ec in Hb. cbn [length] in Hb. lia.
Qed.

Definition rx_budget (s : State (t * SyncChannel.t)) : nat :=
  queue_budget (SyncChannel._rx_queue (channel_of s)) (websocket_of s).

(** The stream is finite: with more fuel than the budget of the channel's
    queue the run comes to an end, by stopping, raising or blocking. *)
Lemma rx_stream_terminates (fuel : nat) (s : State (t * SyncChannel.t)) :
  rx_budget s < fuel -> is_Some (channel_rx_stream fuel s).
Proof.
  revert s. induction fuel as [|fuel IH]; intros s Hb; [lia|].
  unfold channel_rx_stream in *. cbn [SyncChannel.rx_stream].
  change (SyncChannel.rx_stream_next queue_get s) with (channel_rx_stream_next s).
  destruct (SyncChannel._is_finished (channel_of s)) eqn:F.
  - rewrite (rx_stream_next_finished s F). eexists; reflexivity.
  - rewrite (rx_stream_next_unfinished s F). cbn zeta.
    pose proof (queue_get_budget (SyncChannel._rx_queue (channel_of s)) (websocket_of s)) as Q.
    destruct (queue_get _ _) as [[message|e|] s1]; [|contradiction|eexists; reflexivity].
    destruct (ChannelHandler.handle_rx_message message) as [[contents|]|e|];
      try (eexists; reflexivity).
    assert (Hb1 : rx_budget (with_channel (channel_of s) s1) < fuel).
    { unfold rx_budget in *. cbn. unfold websocket_of, with_channel. cbn.
      destruct s1 as [w1 o1]. cbn in *. lia. }
    destruct (IH _ Hb1) as [r E]. rewrite E.
    destruct r as [[cs|e|] s2]; eexists; reflexivity.
Qed.

(** C6, as the code has it.  The stream of a channel is finite: a run
    stops, raises or blocks.  It yields the [message] of each [channelSend]
    frame; the server's [channelClose] stops it and marks the channel
    finished, so a run that ends normally leaves the channel finished; the
    shutdown sentinel makes it raise [Disconnected] and leaves the flag as it
    was, as does every run that raises or blocks.  Once the channel is
    finished a new run yields nothing and changes nothing, and neither the
    stream nor [cancel()] unsets the flag. *)
Theorem rx_stream_finite_until_close (s : State (t * SyncChannel.t)) :
  let finished := fun s' => SyncChannel._is_finished (channel_of s') in
  (forall fuel, rx_budget s < fuel -> is_Some (channel_rx_stream fuel s))
  /\ (forall fuel,
        match channel_rx_stream fuel s with
        | Some (Ok _, s') => finished s' = true
        | Some (_, s') => finished s' = finished s
        | None => True
        end)
  /\ (forall message rest,
        finished s = false ->
        Queue.contents (SyncChannel._rx_queue (channel_of s)) (world s) = message :: rest ->
        let r := channel_rx_stream_next s in
        consumed (world (snd r))
        = consumed (world s) ++ [(SyncChannel._rx_queue (channel_of s), message)]
        /\ match message with
           | Some (channelSend _ contents) => fst r = Ok (Some contents) /\ finished (snd r) = false
           | Some (channelClose _) => fst r = Ok None /\ finished (snd r) = true
           | None => fst r = Raise Disconnected /\ finished (snd r) = false
           | Some _ => fst r = Raise ChannelError /\ finished (snd r) = false
           end)
  /\ (finished s = true ->
        (forall fuel, channel_rx_stream (S fuel) s = Some (Ok [], s))
        /\ channel_rx_stream_next s = (Ok None, s)
        /\ channel_cancel s = (Ok tt, s))
  /\ (finished s = true ->
        finished (snd (channel_rx_stream_next s)) = true
        /\ finished (snd (channel_cancel s)) = true).
Proof.
  cbn zeta.
  split; [intros fuel; apply rx_stream_terminates|].
  split; [intros fuel; apply rx_stream_flag|].
  split.
  { intros message rest F E. cbn zeta.
    rewrite (rx_stream_next_unfinished s F). cbn zeta.
    rewrite (queue_get_head _ message rest (websocket_of s) E).
    destruct message as [[]|]; cbn; auto. }
  split.
  - intros F. split; [|split].
    + intros fuel. unfold channel_rx_stream. cbn [SyncChannel.rx_stream].
      change (SyncChannel.rx_stream_next queue_get s) with (channel_rx_stream_next s).
      rewrite (rx_stream_next_finished s F). reflexivity.
    + apply rx_stream_next_finished, F.
    + apply cancel_finished, F.
  - intros F. rewrite (rx_stream_next_finished s F), (cancel_finished s F). auto.
Qed.

(** A predict channel whose server streams three fragments and closes. *)
Example rx_stream_three_fragments :
  let s := with_env [EvRx (channelSend 0 "a"); EvRx (channelSend 0 "b");
                     EvRx (channelSend 0 "c"); EvRx (channelClose 0)] demo_channel in
  (fst <$> channel_rx_stream 5 s) = Some (Ok ["a"; "b"; "c"])
  /\ (SyncChannel._is_finished <$> (channel_of <$> (snd <$> channel_rx_stream 5 s))) = Some true.
Proof. vm_compute. auto. Qed.

(** C6 as stated fails: the shutdown sentinel ends the stream without
    marking the channel finished.  The run raises [Disconnected], the
    channel is still unfinished, and a further run does not end with no
    items but blocks on the empty queue. *)
Lemma shutdown_sentinel_leaves_channel_unfinished :
  let r := channel_rx_stream 2 (with_env [EvDisconnect] demo_channel) in
  (fst <$> r) = Some (Raise Disconnected)
  /\ (consumed <$> (world <$> (snd <$> r))) = Some [(1, None)]
  /\ (SyncChannel._is_finished <$> (channel_of <$> (snd <$> r))) = Some false
  /\ (fst <$> (r ≫= fun r => channel_rx_stream 2 (snd r))) = Some Hang.
Proof. vm_compute. auto. Qed.

(** ** The rounds of [act] *)

Section ActProperties.
Import LLM.

Variable llm_tool_args : Tools.
Variable predict : Z -> Chat -> option Tools -> list PredictionRxEvent * outcome Prediction.
Variable request_tool_call : ToolCallRequest -> Any.
Variable completes_at : ToolCallRequest -> nat.
Variable collected_at : Z -> nat.
Variable set_iteration : list ToolCallRequest -> list ToolCallRequest.
Variable _handle_invalid_tool_request : string -> outcome unit.

Local Notation "'act_round'" := (act_round llm_tool_args predict request_tool_call completes_at
                         collected_at set_iteration _handle_invalid_tool_request).
Local Notation "'act_loop'" := (act_loop llm_tool_args predict request_tool_call completes_at
                        collected_at set_iteration _handle_invalid_tool_request).
Local Notation "'act'" := (act llm_tool_args predict request_tool_call completes_at
                   collected_at set_iteration _handle_invalid_tool_request).
Local Notation "'as_completed'" := (as_completed completes_at set_iteration).

(** *** Tool results *)

Definition completes_before (a b : ToolCallRequest) : Prop :=
  completes_at a <= completes_at b.

Lemma insert_by_perm (key : ToolCallRequest -> nat) (fut : ToolCallRequest)
    (done : list ToolCallRequest) :
insert_by key fut done ≡ₚ fut :: done.
Proof.
induction done as [|other done IH]; cbn [insert_by]; [reflexivity|].
destruct (key fut <=? key other)%nat; [reflexivity|].
rewrite IH. apply Permutation_swap.
Qed.

Lemma in_order_of_perm (key : ToolCallRequest -> nat) (futures : list ToolCallRequest) :
in_order_of key futures ≡ₚ futures.
Proof.
induction futures as [|fut futures IH]; [reflexivity|].
unfold in_order_of in *. cbn [foldr].
rewrite insert_by_perm, IH. reflexivity.
Qed.

Lemma insert_by_sorted (key : ToolCallRequest -> nat) (fut : ToolCallRequest)
    (done : list ToolCallRequest) :
StronglySorted (fun a b => key a <= key b) done ->
StronglySorted (fun a b => key a <= key b) (insert_by key fut done).
Proof.
induction 1 as [|other done Hd IH Hall]; cbn [insert_by].
- repeat constructor.
- destruct (key fut <=? key other)%nat eqn:E.
  + apply Nat.leb_le in E. constructor; [constructor; assumption|].
    constructor; [exact E|].
    eapply Forall_impl; [exact Hall|]. cbn. intros; lia.
  + apply Nat.leb_gt in E. constructor; [exact IH|].
    rewrite insert_by_perm. constructor; [lia|exact Hall].
Qed.

Lemma in_order_of_sorted (key : ToolCallRequest -> nat) (futures : list ToolCallRequest) :
StronglySorted (fun a b => key a <= key b) (in_order_of key futures).
Proof.
induction futures as [|fut futures IH]; [constructor|].
unfold in_order_of in *. cbn [foldr]. apply insert_by_sorted, IH.
Qed.

Lemma filter_split_perm (p : ToolCallRequest -> bool) (futures : list ToolCallRequest) :
List.filter p futures ++ List.filter (fun fut => negb (p fut)) futures ≡ₚ futures.
Proof.
induction futures as [|fut futures IH]; [reflexivity|].
cbn [List.filter]. destruct (p fut); cbn [negb app].
- rewrite IH. reflexivity.
- rewrite <- Permutation_middle, IH. reflexivity.
Qed.

Lemma Forall_filter_true (p : ToolCallRequest -> bool) (futures : list ToolCallRequest) :
Forall (fun fut => p fut = true) (List.filter p futures).
Proof.
induction futures as [|fut futures IH]; [constructor|].
cbn [List.filter]. destruct (p fut) eqn:E; [constructor; assumption|exact IH].
Qed.

(** What [as_completed] yields at the tick [now], a set listing what was
    put into it: first the futures finished by then, in an order of the
    set's making; then the others, as they complete. *)
Lemma as_completed_order (now : nat) (futures : list ToolCallRequest) :
(forall fs, set_iteration fs ≡ₚ fs) ->
exists finished pending,
  as_completed now futures = finished ++ pending
  /\ finished ++ pending ≡ₚ futures
  /\ Forall (fun fut => completes_at fut <= now) finished
  /\ Forall (fun fut => now < completes_at fut) pending
  /\ StronglySorted completes_before pending.
Proof.
intros Hset.
exists (_yield_finished_futures (set_iteration (List.filter (finished_by completes_at now) futures))),
       (in_order_of completes_at
          (List.filter (fun fut => negb (finished_by completes_at now fut)) futures)).
unfold _yield_finished_futures.
split; [reflexivity|].
split; [rewrite reverse_Permutation, Hset, in_order_of_perm; apply filter_split_perm|].
split.
{ rewrite reverse_Permutation, Hset. eapply Forall_impl; [apply Forall_filter_true|].
  intros fut E. cbn in E. apply Nat.leb_le, E. }
split; [|apply in_order_of_sorted].
rewrite in_order_of_perm. eapply Forall_impl; [apply Forall_filter_true|].
intros fut E. cbn in E. apply negb_true_iff, Nat.leb_gt in E. exact E.
Qed.

(** C5, as the code has it.  In a round whose prediction completes with
    tool call requests, the chat gets the assistant response with the
    requests in the order they were received, and then the tool results in
    the order [as_completed] yields the futures when the round collects
    them: the results of the calls that have finished by then come first,
    in an order that a set of futures decides, and after them the results
    of the calls still running, as those complete.  The results are a
    permutation of the results in request order. *)
Theorem tool_results_in_as_completed_order
    (final_round_index round_index : Z) (on_message : bool) (st : ActState)
    (events : list PredictionRxEvent) (prediction : Prediction) :
  (forall fs, set_iteration fs ≡ₚ fs) ->
  predict round_index (agent_chat st)
    (if bool_decide (round_index ≠ final_round_index) then Some llm_tool_args else None)
  = (events, Ok prediction) ->
  tool_call_requests_of events ≠ [] ->
  let requests := tool_call_requests_of events in
  let now := collected_at round_index in
  let st' := snd (act_round final_round_index round_index on_message st) in
  exists finished pending,
    agent_chat st'
    = agent_chat st ++ [AssistantResponse prediction requests;
                        ToolResultMessage (request_tool_call <$> finished ++ pending)]
    /\ request_tool_call <$> finished ++ pending ≡ₚ request_tool_call <$> requests
    /\ Forall (fun fut => completes_at fut <= now) finished
    /\ Forall (fun fut => now < completes_at fut) pending
    /\ StronglySorted completes_before pending.
Proof.
  intros Hset P N. cbn zeta.
  destruct (as_completed_order (collected_at round_index) (tool_call_requests_of events) Hset)
    as (finished & pending & E & Perm & F1 & F2 & S2).
  exists finished, pending.
  split; [|split; [rewrite Perm; reflexivity|auto]].
  unfold LLM.act_round. cbn [log agent_chat]. rewrite P, E.
  destruct (tool_call_requests_of events) as [|request requests] eqn:R; [contradiction|].
  destruct on_message, (bool_decide (round_index = final_round_index));
    try destruct (_handle_invalid_tool_request _); cbn; rewrite <- app_assoc; reflexivity.
Qed.

(** *** Rounds *)

Definition is_endpoint (ev : act_event) : bool :=
match ev with
| ActEndpoint _ _ => true
| _ => false
end.

(** The prediction rounds performed: one endpoint is built, and one channel
    opened, per round. *)
Definition rounds_performed (tr : list act_event) : nat :=
length (List.filter is_endpoint tr).

Lemma rounds_performed_app (tr tr' : list act_event) :
rounds_performed (tr ++ tr') = rounds_performed tr + rounds_performed tr'.
Proof. unfold rounds_performed. rewrite List.filter_app, length_app. reflexivity. Qed.

Lemma rounds_performed_submitted (i : Z) (requests : list ToolCallRequest) :
rounds_performed (ActToolSubmitted i <$> requests) = 0.
Proof. induction requests as [|r requests IH]; [reflexivity|exact IH]. Qed.










(** *** The model's replies *)

(** The reply of the model to a round is a completed prediction that
    carries at least one tool call request. *)
Definition requests_tools (reply : list PredictionRxEvent * outcome Prediction) : bool :=
match reply with
| (events, Ok _) => negb (bool_decide (tool_call_requests_of events = []))
| _ => false
end.







End ActProperties.


(** *** A tool loop: one [add] tool, at most two rounds *)

Definition add_request : ToolCallRequest := mkToolCallRequest 0 "add" "{a: 2, b: 3}".

(** Round 0: the model requests [add(2, 3)]; round 1: it answers "5". *)
Definition add_then_answer (round_index : Z) (chat : Chat) (tools : option Tools)
  : list PredictionRxEvent * outcome Prediction :=
if bool_decide (round_index = 0)%Z
then ([PredictionToolCallEvent add_request], Ok "")
else ([PredictionFragmentEvent "5"], Ok "5").

Definition run_tool (request : ToolCallRequest) : Any :=
if String.eqb (tool_name request) "add" then "5" else tool_arguments request.

Definition at_once (request : ToolCallRequest) : nat := 0.

(** Every round collects its tool results at tick 3. *)
Definition at_three (round_index : Z) : nat := 3.

(** A set that iterates in the order of insertion. *)
Definition as_inserted (futures : list ToolCallRequest) : list ToolCallRequest := futures.

Definition report_invalid (err_msg : string) : outcome unit := Ok tt.

Example act_two_rounds :
LLM.act ["add"] add_then_answer run_tool at_once at_three as_inserted report_invalid 2
  [UserMessage "2+3?"] (Some 2%Z) true
= Some (Ok (mkActResult 2),
        LLM.mkActState
          [UserMessage "2+3?"; AssistantResponse "" [add_request]; ToolResultMessage ["5"];
           AssistantResponse "5" []]
          [LLM.ActRoundStart 0; LLM.ActEndpoint 0 (Some ["add"]);
           LLM.ActToolSubmitted 0 add_request; LLM.ActPredictionCompleted 0;
           LLM.ActMessage (AssistantResponse "" [add_request]);
           LLM.ActMessage (ToolResultMessage ["5"]); LLM.ActRoundEnd 0;
           LLM.ActRoundStart 1; LLM.ActEndpoint 1 None; LLM.ActPredictionCompleted 1;
           LLM.ActMessage (AssistantResponse "5" []); LLM.ActRoundEnd 1]).
Proof. vm_compute. reflexivity. Qed.

(** A model that asks for the tool in every round, the last one included. *)
Definition always_add (round_index : Z) (chat : Chat) (tools : option Tools)
  : list PredictionRxEvent * outcome Prediction :=
([PredictionToolCallEvent add_request], Ok "").

Example act_tool_use_on_final_round :
let r := LLM.act ["add"] always_add run_tool at_once at_three as_inserted report_invalid 2
           [UserMessage "2+3?"] (Some 2%Z) false in
(fst <$> r) = Some (Ok (mkActResult 2))
/\ (last <$> (LLM.trace <$> (snd <$> r)))
   = Some (Some (LLM.ActInvalidToolRequest 1 "Model requested tool use on final prediction round.")).
Proof. vm_compute. auto. Qed.


(** *** Two tool calls that complete out of order *)

Definition slow_request : ToolCallRequest := mkToolCallRequest 0 "slow" "first".
Definition fast_request : ToolCallRequest := mkToolCallRequest 1 "fast" "second".

Definition two_requests (round_index : Z) (chat : Chat) (tools : option Tools)
  : list PredictionRxEvent * outcome Prediction :=
([PredictionToolCallEvent slow_request; PredictionToolCallEvent fast_request], Ok "").

(** The first request takes five ticks, the second one. *)
Definition by_name (request : ToolCallRequest) : nat :=
if String.eqb (tool_name request) "slow" then 5 else 1.

Lemma tool_results_in_as_completed_order_witness :
let requests := [slow_request; fast_request] in
let st' := snd (LLM.act_round ["slow"; "fast"] two_requests tool_arguments by_name at_three
                  as_inserted report_invalid (-1) 0 false
                  (LLM.mkActState [UserMessage "go"] [])) in
exists finished pending,
  LLM.agent_chat st'
  = [UserMessage "go"] ++
    [AssistantResponse "" requests; ToolResultMessage (tool_arguments <$> finished ++ pending)]
  /\ tool_arguments <$> finished ++ pending ≡ₚ tool_arguments <$> requests
  /\ Forall (fun fut => by_name fut <= at_three 0) finished
  /\ Forall (fun fut => at_three 0 < by_name fut) pending
  /\ StronglySorted (completes_before by_name) pending.
Proof.
apply (tool_results_in_as_completed_order ["slow"; "fast"] two_requests tool_arguments by_name
         at_three as_inserted report_invalid (-1) 0 false (LLM.mkActState [UserMessage "go"] [])
         [PredictionToolCallEvent slow_request; PredictionToolCallEvent fast_request] "").
- intros fs. reflexivity.
- reflexivity.
- discriminate.
Defined.

(** C5 as stated fails: the requests are received as [slow], [fast]; when
    the round collects the results the fast call has finished and the slow
    one is still running, and the tool results are appended to the chat as
    [fast]'s, then [slow]'s. *)
Lemma tool_results_not_in_request_order :
let st' := snd (LLM.act_round ["slow"; "fast"] two_requests tool_arguments by_name at_three
                  as_inserted report_invalid (-1) 0 false
                  (LLM.mkActState [UserMessage "go"] [])) in
LLM.agent_chat st'
= [UserMessage "go"; AssistantResponse "" [slow_request; fast_request];
   ToolResultMessage ["second"; "first"]]
/\ tool_arguments <$> [slow_request; fast_request] = ["first"; "second"].
Proof. vm_compute. auto. Qed.

(** Nor is it the order of completion: when both calls have finished
    before the round collects the results, [as_completed] yields them in
    the order the set of futures gives, here the slow call's result first
    although the fast call completed first. *)
Example tool_results_not_in_completion_order :
let st' := snd (LLM.act_round ["slow"; "fast"] two_requests tool_arguments by_name
                  (fun _ => 10) reverse report_invalid (-1) 0 false
                  (LLM.mkActState [UserMessage "go"] [])) in
LLM.agent_chat st'
= [UserMessage "go"; AssistantResponse "" [slow_request; fast_request];
   ToolResultMessage ["first"; "second"]]
/\ by_name fast_request < by_name slow_request.
Proof. vm_compute. auto. Qed.

(** ** Lazy connection *)

Definition is_link_event (e : net_event) : bool :=
match e with
| NetConnect _ | NetAuth _ => true
| NetSend _ => false
end.

(** The connections opened and handshakes made, in order. *)
Definition link_events (w : World) : list net_event :=
List.filter is_link_event (wire w).

(** A method that neither connects nor shakes hands. *)
Definition keeps_link {O A : Type} (m : M O A) : Prop :=
forall s, link_events (world (snd (m s))) = link_events (world s).

Lemma keeps_link_ret {O A : Type} (a : A) : keeps_link (@ret O A a).
Proof. intros s. reflexivity. Qed.

Lemma keeps_link_raise {O A : Type} (e : exn) : keeps_link (@raise O A e).
Proof. intros s. reflexivity. Qed.

Lemma keeps_link_lift {O A : Type} (r : outcome A) : keeps_link (@lift O A r).
Proof. intros s. reflexivity. Qed.

Lemma keeps_link_bind {O A B : Type} (m : M O A) (k : A -> M O B) :
keeps_link m -> (forall a, keeps_link (k a)) -> keeps_link (bind m k).
Proof.
intros Hm Hk s. unfold bind. specialize (Hm s).
destruct (m s) as [[a|e|] s']; cbn [snd] in *; [|exact Hm..].
rewrite (Hk a s'). exact Hm.
Qed.

Lemma keeps_link_finally {O A : Type} (m : M O A) (on_exit : State O -> State O) :
keeps_link m -> (forall s, world (on_exit s) = world s) -> keeps_link (finally m on_exit).
Proof.
intros Hm He s. unfold finally. specialize (Hm s).
destruct (m s) as [[a|e|] s']; cbn [snd] in *; rewrite ?He; exact Hm.
Qed.

Lemma keeps_link_send_json (message : frame) : keeps_link (_send_json message).
Proof.
intros s. unfold _send_json, _AsyncWebsocketThread.send_json, _AsyncWebsocketThread._send_json.
destruct (_ws (self s)) as [ws|]; [|reflexivity].
destruct (_AsyncWebsocketThread.lookup ws (world s)) as [th|]; [|reflexivity].
destruct (th_ws_loop th), (th_ws th), (tx_ok (world s)); try reflexivity.
unfold link_events. cbn. rewrite List.filter_app. cbn. apply app_nil_r.
Qed.

Lemma keeps_link_ensure_connected (usage : string) : keeps_link (_ensure_connected usage).
Proof. intros s. unfold _ensure_connected. destruct (connected (self s)); reflexivity. Qed.

Lemma keeps_link_queue_get (q : nat) : keeps_link (queue_get q).
Proof.
intros s.
set (Inv := fun (_ : list env_event) (s' : State t) =>
  link_events (world s') = link_events (world s)).
assert (Hstep : forall ev evs' s', Inv (ev :: evs') s' ->
          Inv evs' (env_step ev (mkState (set_env evs' (world s')) (self s')))).
{ intros ev evs' s' E.
  destruct (env_step_effect ev (mkState (set_env evs' (world s')) (self s')) q) as ((W & _) & _).
  unfold Inv, link_events in *. cbn [world] in W. rewrite W. exact E. }
pose proof (blocking_get_spec env_step q Inv Hstep (env (world s)) s eq_refl) as G.
unfold queue_get, Queue.get.
destruct (Queue.blocking_get env_step q (env (world s)) s) as [[message|e|] s']; [|contradiction|].
- destruct G as (evs0 & s0 & rest & E & _ & ->). exact E.
- destruct G as [E _]. exact E.
Qed.

Lemma keeps_link_remote_call (endpoint : string) (params : option Any) :
keeps_link (remote_call endpoint params).
Proof.
unfold remote_call.
apply keeps_link_bind; [intros s; reflexivity|]. intros rx_queue.
apply keeps_link_bind; [intros s; reflexivity|]. intros o.
destruct (MultiplexingManager.assign_call_id_enter rx_queue (_mux o)) as [call_id mux].
apply keeps_link_bind; [intros s; reflexivity|]. intros _.
apply keeps_link_finally; [|reflexivity].
apply keeps_link_bind.
- unfold _send_call. apply keeps_link_bind; [apply keeps_link_ensure_connected|].
  intros _. apply keeps_link_send_json.
- intros _. unfold SyncRemoteCall.receive_result.
  apply keeps_link_bind; [apply keeps_link_queue_get|]. intros message. apply keeps_link_lift.
Qed.

Lemma keeps_link_open_channel_enter (endpoint : ChannelEndpoint) :
keeps_link (open_channel_enter endpoint).
Proof.
unfold open_channel_enter.
apply keeps_link_bind; [intros s; reflexivity|]. intros rx_queue.
apply keeps_link_bind; [intros s; reflexivity|]. intros o.
destruct (MultiplexingManager.assign_channel_id_enter rx_queue (_mux o)) as [channel_id mux].
apply keeps_link_bind; [intros s; reflexivity|]. intros _ s.
assert (K : keeps_link (_connect_to_endpoint (SyncChannel.__init__ channel_id rx_queue endpoint))).
{ unfold _connect_to_endpoint. apply keeps_link_bind; [apply keeps_link_ensure_connected|].
  intros _. apply keeps_link_send_json. }
specialize (K s).
destruct (_connect_to_endpoint _ s) as [[a|e|] s']; exact K.
Qed.

(** The operations of a session that need the connection. *)
Inductive session_op : Type :=
| OpRemoteCall (endpoint : string) (params : option Any)
| OpCreateChannel (endpoint : ChannelEndpoint).

Definition run_op (op : session_op) : M SyncSession.t unit :=
match op with
| OpRemoteCall endpoint params => _ <- SyncSession.remote_call endpoint params ;; ret tt
| OpCreateChannel endpoint => _ <- SyncSession._create_channel_enter endpoint ;; ret tt
end.

(** One caller running operations one after the other, whatever each one
    returns or raises; an operation that blocks is the caller's last. *)
Fixpoint run_ops (ops : list session_op) (s : State SyncSession.t) : State SyncSession.t :=
match ops with
| [] => s
| op :: ops' =>
    match run_op op s with
    | (Hang, s') => s'
    | (_, s') => run_ops ops' s'
    end
end.

Definition has_websocket (s : State SyncSession.t) : Prop :=
SyncSession._lmsws (self s) ≠ None.

Lemma on_lmsws_effect {A : Type} (usage : string) (m : M t A) (s : State SyncSession.t) :
keeps_link m ->
has_websocket s ->
link_events (world (snd (SyncSession.on_lmsws usage m s))) = link_events (world s)
/\ has_websocket (snd (SyncSession.on_lmsws usage m s)).
Proof.
intros K H. unfold SyncSession.on_lmsws, has_websocket in *.
destruct (SyncSession._lmsws (self s)) as [lmsws|] eqn:E; [|contradiction].
destruct (connected lmsws).
- specialize (K (mkState (world s) lmsws)).
  destruct (m _) as [r s']. cbn in *. split; [exact K|discriminate].
- cbn [snd]. rewrite E. split; [reflexivity|discriminate].
Qed.

Lemma ensure_connected_with_websocket (s : State SyncSession.t) :
has_websocket s -> SyncSession._ensure_connected s = (Ok tt, s).
Proof.
unfold has_websocket, SyncSession._ensure_connected, bind, get_self.
destruct (SyncSession._lmsws (self s)); [reflexivity|contradiction].
Qed.

Lemma run_op_with_websocket (op : session_op) (s : State SyncSession.t) :
has_websocket s ->
link_events (world (snd (run_op op s))) = link_events (world s)
/\ has_websocket (snd (run_op op s)).
Proof.
intros H. destruct op as [endpoint params|endpoint]; unfold run_op, bind at 1.
- unfold SyncSession.remote_call, bind. rewrite (ensure_connected_with_websocket s H).
  destruct (on_lmsws_effect "make remote calls" (remote_call endpoint params) s
              (keeps_link_remote_call endpoint params) H) as [L W].
  destruct (SyncSession.on_lmsws _ _ s) as [[a|e|] s']; auto.
- unfold SyncSession._create_channel_enter, bind. rewrite (ensure_connected_with_websocket s H).
  destruct (on_lmsws_effect "create channels" (open_channel_enter endpoint) s
              (keeps_link_open_channel_enter endpoint) H) as [L W].
  destruct (SyncSession.on_lmsws _ _ s) as [[a|e|] s']; auto.
Qed.

Lemma run_ops_with_websocket (ops : list session_op) (s : State SyncSession.t) :
has_websocket s ->
link_events (world (run_ops ops s)) = link_events (world s).
Proof.
revert s. induction ops as [|op ops IH]; intros s H; [reflexivity|].
cbn [run_ops]. destruct (run_op_with_websocket op s H) as [L W].
destruct (run_op op s) as [[a|e|] s']; cbn [snd] in *; try exact L;
  rewrite (IH s' W); exact L.
Qed.

Definition session_url (o : SyncSession.t) (namespace : string) : string :=
"ws://" +:+ SyncSession.client_api_host o +:+ "/" +:+ namespace.

(** The first use of a session: the websocket is connected and the
    handshake made. *)
Lemma ensure_connected_first (namespace : string) (s : State SyncSession.t) :
server_ready (world s) = true ->
SyncSession._lmsws (self s) = None ->
SyncSession.API_NAMESPACE (self s) = Some namespace ->
fst (SyncSession._ensure_connected s) = Ok tt
/\ SyncSession.connected (self (snd (SyncSession._ensure_connected s))) = true
/\ link_events (world (snd (SyncSession._ensure_connected s)))
   = link_events (world s)
     ++ [NetConnect (session_url (self s) namespace);
         NetAuth (SyncSession.client_auth_details (self s))].
Proof.
intros R L N. unfold server_ready in R.
apply andb_true_iff in R as [R Ra]. apply andb_true_iff in R as [R Rx].
apply andb_true_iff in R as [Rc Rt].
apply bool_decide_eq_true in Ra.
unfold SyncSession._ensure_connected, bind, get_self. rewrite L.
unfold SyncSession.connect, bind, SyncSession._fail_if_connected, SyncSession.connected, get_self.
rewrite L, N.
unfold run_on, __enter__, bind, get_self. cbn [self world __init__ _ws].
unfold connect, bind, _fail_if_connected, connected, get_self.
cbn [self world __init__ _ws]. rewrite bool_decide_eq_false_2 by auto.
unfold _AsyncWebsocketThread.connect, _AsyncWebsocketThread._main_task.
cbn [world self srv_accepts tx_ok srv_auth_error auth_rx_ok emit set_wire set_next_ref].
rewrite Rc, Rt, Rx, Ra. cbn.
split; [reflexivity|]. split; [reflexivity|].
unfold link_events. cbn. rewrite <- app_assoc, List.filter_app. reflexivity.
Qed.

Lemma run_op_first (namespace : string) (op : session_op) (s : State SyncSession.t) :
server_ready (world s) = true ->
SyncSession._lmsws (self s) = None ->
SyncSession.API_NAMESPACE (self s) = Some namespace ->
link_events (world (snd (run_op op s)))
= link_events (world s)
  ++ [NetConnect (session_url (self s) namespace);
      NetAuth (SyncSession.client_auth_details (self s))]
/\ has_websocket (snd (run_op op s)).
Proof.
intros R L N.
destruct (ensure_connected_first namespace s R L N) as (E1 & E2 & E3).
assert (W1 : has_websocket (snd (SyncSession._ensure_connected s))).
{ intros X. unfold SyncSession.connected in E2. rewrite X in E2. discriminate. }
destruct op as [endpoint params|endpoint]; unfold run_op, bind at 1.
- unfold SyncSession.remote_call, bind.
  destruct (SyncSession._ensure_connected s) as [r s1]. cbn [fst snd] in *. subst r.
  destruct (on_lmsws_effect "make remote calls" (remote_call endpoint params) s1
              (keeps_link_remote_call endpoint params) W1) as [K W].
  destruct (SyncSession.on_lmsws _ _ s1) as [[a|e|] s']; cbn [snd] in *;
    (split; [exact (eq_trans K E3)|exact W]).
- unfold SyncSession._create_channel_enter, bind.
  destruct (SyncSession._ensure_connected s) as [r s1]. cbn [fst snd] in *. subst r.
  destruct (on_lmsws_effect "create channels" (open_channel_enter endpoint) s1
              (keeps_link_open_channel_enter endpoint) W1) as [K W].
  destruct (SyncSession.on_lmsws _ _ s1) as [[a|e|] s']; cbn [snd] in *;
    (split; [exact (eq_trans K E3)|exact W]).
Qed.

Definition already_connected_session : exn :=
LMStudioWebsocketError "Attempted to connect already connected session".

(** C8.  Constructing a [Client] leaves the world as it is and creates no
    session; a session the client creates has no websocket.  On a session
    without a websocket, with the server ready, any run of operations that
    need the connection opens one connection and makes one handshake, in
    the first of them.  An explicit [connect()] on a connected session
    raises and leaves the session and the world as they were. *)
Theorem lazy_connect_handshake_once :
(forall (O : Type) (api_host : option string) (auth_details : Any) (s : State O),
   exists client,
     Client.__init__ api_host auth_details s = (Ok client, s)
     /\ Client._sessions client = ∅)
/\ (forall (client : Client.t) (namespace : string) (w : World),
      Client._sessions client !! namespace = None ->
      exists session,
        fst (Client._get_session namespace (mkState w client)) = Ok session
        /\ SyncSession._lmsws session = None
        /\ world (snd (Client._get_session namespace (mkState w client))) = w)
/\ (forall (namespace : string) (s : State SyncSession.t) (op : session_op)
      (ops : list session_op),
      server_ready (world s) = true ->
      SyncSession._lmsws (self s) = None ->
      SyncSession.API_NAMESPACE (self s) = Some namespace ->
      link_events (world (run_ops (op :: ops) s))
      = link_events (world s)
        ++ [NetConnect (session_url (self s) namespace);
            NetAuth (SyncSession.client_auth_details (self s))])
/\ (forall s : State SyncSession.t,
      SyncSession.connected (self s) = true ->
      SyncSession.connect s = (Raise already_connected_session, s)
      /\ SyncSession._ensure_connected s = (Ok tt, s)).
Proof.
split; [|split; [|split]].
- intros O api_host auth_details s. eexists. split; reflexivity.
- intros client namespace w L. unfold Client._get_session, bind, get_self. cbn [self].
  rewrite L. eexists. cbn. split; [reflexivity|]. split; reflexivity.
- intros namespace s op ops R L N. cbn [run_ops].
  destruct (run_op_first namespace op s R L N) as [K W].
  destruct (run_op op s) as [[a|e|] s']; cbn [snd] in *; try exact K;
    rewrite (run_ops_with_websocket ops s' W); exact K.
- intros s C. split.
  + unfold SyncSession.connect, bind, SyncSession._fail_if_connected. rewrite C. reflexivity.
  + apply ensure_connected_with_websocket. intros X.
    unfold SyncSession.connected in C. rewrite X in C. discriminate.
Qed.

(** A client, its [llm] session, and two remote calls: one connection and
    one handshake, before the first call's frame. *)
Example two_calls_one_handshake :
let client := Client.mk "127.0.0.1:1234" "auth" ∅ [] in
let session := SyncSession.__init__ (Some "llm") "127.0.0.1:1234" "auth" in
let w := set_env [EvRx (rpcResult 0 "[]"); EvRx (rpcResult 1 "[]")] demo_world in
fst (Client._get_session "llm" (mkState w client)) = Ok session
/\ wire (world (run_ops [OpRemoteCall "listLoaded" None; OpRemoteCall "listLoaded" None]
                  (mkState w session)))
   = [NetConnect "ws://127.0.0.1:1234/llm"; NetAuth "auth";
      NetSend (rpcCall 0 "listLoaded" "null"); NetSend (rpcCall 1 "listLoaded" "null")].
Proof. vm_compute. auto. Qed.

(** ** A prediction stream on a fresh session *)

Definition demo_stream : State PredictionStream.Self :=
mkState demo_world
  (SyncSession.__init__ (Some "llm") "127.0.0.1:1234" "auth",
   PredictionStream.__init__ predict_endpoint).

(** [start()] connects the session and sends the request; a second
    [start()] raises and sends nothing. *)
Example prediction_start_twice :
let s1 := snd (PredictionStream.start demo_stream) in
fst (PredictionStream.start demo_stream) = Ok tt
/\ wire (world s1)
   = [NetConnect "ws://127.0.0.1:1234/llm"; NetAuth "auth";
      NetSend (channelCreate 0 "predict" "{}")]
/\ PredictionStream.start s1 = (Raise already_sent, s1).
Proof. vm_compute. auto. Qed.

(** [PredictionStream.cancel()] twice before the prediction has finished:
    two [channelCancel] frames. *)
Example prediction_cancel_twice :
let s1 := snd (PredictionStream.start demo_stream) in
let s3 := snd (PredictionStream.cancel (snd (PredictionStream.cancel s1))) in
PredictionStream._is_cancelled (snd (self s3)) = true
/\ cancel_frames 0 (world s3) = 2.
Proof. vm_compute. auto. Qed.

(** [PredictionStream.close()] on a started, unfinished prediction records
    the error, leaves the channel scope and sends nothing. *)
Example prediction_close_sends_no_cancel :
let s1 := snd (PredictionStream.start demo_stream) in
let s2 := snd (PredictionStream.close s1) in
PredictionStream._error (snd (self s2))
= Some (LMStudioCancelledError "Prediction cancelled unexpectedly: please use .cancel()")
/\ PredictionStream._channel (snd (self s2)) = None
/\ wire (world s2) = wire (world s1)
/\ cancel_frames 0 (world s2) = 0.
Proof. vm_compute. auto. Qed.

Lemma start_twice_raises_witness :
PredictionStream.start (snd (PredictionStream.start demo_stream))
= (Raise already_sent, snd (PredictionStream.start demo_stream)).
Proof.
apply (start_twice_raises demo_stream). vm_compute. reflexivity.
Defined.

(** The open channel of the demonstration websocket with the server's
    [channelClose] in its queue. *)
Definition demo_closing : State (t * SyncChannel.t) :=
mkState (Queue.put 1 (Some (channelClose 0)) (world demo_channel)) (self demo_channel).

Lemma rx_stream_finite_until_close_witness :
let r := channel_rx_stream_next demo_closing in
consumed (world (snd r)) = consumed (world demo_closing) ++ [(1, Some (channelClose 0))]
/\ fst r = Ok None
/\ SyncChannel._is_finished (channel_of (snd r)) = true.
Proof.
pose proof (rx_stream_finite_until_close demo_closing) as H. cbn zeta in H.
destruct H as (_ & _ & H & _).
apply (H (Some (channelClose 0)) []); vm_compute; reflexivity.
Defined.

Lemma lazy_connect_handshake_once_witness :
let s := mkState (set_env [EvRx (rpcResult 0 "[]")] demo_world)
           (SyncSession.__init__ (Some "llm") "127.0.0.1:1234" "auth") in
link_events (world (run_ops [OpRemoteCall "listLoaded" None;
                             OpCreateChannel predict_endpoint] s))
= link_events (world s) ++ [NetConnect "ws://127.0.0.1:1234/llm"; NetAuth "auth"].
Proof.
pose proof lazy_connect_handshake_once as (_ & _ & H & _).
apply (H "llm" (mkState (set_env [EvRx (rpcResult 0 "[]")] demo_world)
                  (SyncSession.__init__ (Some "llm") "127.0.0.1:1234" "auth"))
         (OpRemoteCall "listLoaded" None) [OpCreateChannel predict_endpoint]);
  reflexivity.
Defined.

(** * Further properties of the transport *)

(** ** The receive loop *)

Lemma receive_turn_frame_result (ws : nat) (message : frame) (s : State t) :
_AsyncWebsocketThread._receive_messages_turn ws _enqueue_message (RxFrame message) s
= (Ok true,
   match MultiplexingManager.map_rx_message message (_mux (self s)) with
   | Some rx_queue => mkState (Queue.put rx_queue (Some message) (world s)) (self s)
   | None => s
   end).
Proof.
unfold _AsyncWebsocketThread._receive_messages_turn, _AsyncWebsocketThread._process_next_message,
  _enqueue_message.
destruct (MultiplexingManager.map_rx_message message (_mux (self s))); reflexivity.
Qed.

(** The frames among [frames] that the multiplexer [m] maps to queue [q]. *)
Definition frames_for (m : MultiplexingManager.t) (q : nat) (frames : list frame) : list frame :=
filter (fun f => MultiplexingManager.map_rx_message f m = Some q) frames.

(** X1.  While the transport delivers frames, the receive loop appends each one
    to the inbox the multiplexer maps it to, in the order received; a frame
    the multiplexer maps nowhere is dropped; the websocket object, the
    threads and the caller's part of the world stay as they were. *)
Theorem receive_messages_delivers_in_order (ws : nat) (frames : list frame) (s : State t) :
let r := _AsyncWebsocketThread._receive_messages ws _enqueue_message (RxFrame <$> frames) s in
fst r = Ok tt
/\ self (snd r) = self s
/\ threads (world (snd r)) = threads (world s)
/\ untouched (world s) (world (snd r))
/\ forall q, Queue.contents q (world (snd r))
             = Queue.contents q (world s) ++ (Some <$> frames_for (_mux (self s)) q frames).
Proof.
revert s. induction frames as [|f frames IH]; intros s; cbn zeta.
- cbn. split; [reflexivity|]. split; [reflexivity|]. split; [reflexivity|].
  split; [apply untouched_refl|]. intros q. rewrite app_nil_r. reflexivity.
- cbn [fmap list_fmap _AsyncWebsocketThread._receive_messages]. unfold bind.
  rewrite receive_turn_frame_result.
  set (s1 := match MultiplexingManager.map_rx_message f (_mux (self s)) with
             | Some rx_queue => mkState (Queue.put rx_queue (Some f) (world s)) (self s)
             | None => s
             end).
  assert (S1 : self s1 = self s /\ threads (world s1) = threads (world s)
               /\ untouched (world s) (world s1)
               /\ forall q, Queue.contents q (world s1)
                   = Queue.contents q (world s) ++ (Some <$> frames_for (_mux (self s)) q [f])).
  { subst s1. unfold frames_for.
    destruct (MultiplexingManager.map_rx_message f (_mux (self s))) as [q'|] eqn:Q.
    - split; [reflexivity|]. split; [reflexivity|]. split; [apply untouched_put|].
      intros q. cbn [world]. rewrite contents_put, filter_cons, filter_nil.
      destruct (decide (q' = q)) as [->|N].
      + rewrite decide_True by exact Q. reflexivity.
      + rewrite decide_False by congruence. cbn. rewrite app_nil_r. reflexivity.
    - split; [reflexivity|]. split; [reflexivity|]. split; [apply untouched_refl|].
      intros q. rewrite filter_cons, filter_nil.
      rewrite decide_False by congruence. cbn. rewrite app_nil_r. reflexivity. }
  destruct S1 as (E1 & E2 & E3 & E4).
  specialize (IH s1). cbn zeta in IH. destruct IH as (I1 & I2 & I3 & I4 & I5).
  change (_AsyncWebsocketThread._receive_messages ws _enqueue_message (list_fmap _ _ RxFrame frames))
    with (_AsyncWebsocketThread._receive_messages ws _enqueue_message (RxFrame <$> frames)).
  split; [exact I1|]. split; [congruence|]. split; [congruence|].
  split; [eapply untouched_trans; eassumption|].
  intros q. rewrite I5, E4, E1. unfold frames_for.
  rewrite (filter_cons _ f frames), filter_cons, filter_nil.
  destruct (decide (MultiplexingManager.map_rx_message f (_mux (self s)) = Some q));
    cbn; rewrite <- app_assoc; reflexivity.
Qed.

(** The state the receive loop leaves when a receive fails in state [s]:
    [_terminate] is set if the thread's websocket is still there. *)
Definition after_receive_failure (ws : nat) (s : State t) : State t :=
match _AsyncWebsocketThread.lookup ws (world s) with
| Some th =>
    if th_ws th
    then mkState (_AsyncWebsocketThread.store ws (_AsyncWebsocketThread.set_terminate th) (world s))
           (self s)
    else s
| None => s
end.

(** X2.  The receive loop ends at the first failed receive: whatever the
    transport would have delivered after it is never read, so the loop
    leaves the state the frames before the failure led to, with
    [_terminate] set; no inbox gets anything for the failure. *)
Theorem receive_messages_ends_at_first_failure
    (ws : nat) (frames : list frame) (later : list rx_result) (s : State t) :
let r := _AsyncWebsocketThread._receive_messages ws _enqueue_message
           ((RxFrame <$> frames) ++ RxException :: later) s in
let delivered := snd (_AsyncWebsocketThread._receive_messages ws _enqueue_message
                        (RxFrame <$> frames) s) in
r = (Ok tt, after_receive_failure ws delivered)
/\ queues (world (snd r)) = queues (world delivered).
Proof.
revert s. induction frames as [|f frames IH]; intros s; cbn zeta.
- cbn [fmap list_fmap app _AsyncWebsocketThread._receive_messages]. unfold bind.
  unfold _AsyncWebsocketThread._receive_messages_turn, _AsyncWebsocketThread._process_next_message,
    raise, after_receive_failure. cbn [ret snd].
  destruct (_AsyncWebsocketThread.lookup ws (world s)) as [th|]; [|split; reflexivity].
  destruct (th_ws th); split; reflexivity.
- cbn [fmap list_fmap app _AsyncWebsocketThread._receive_messages]. unfold bind.
  rewrite receive_turn_frame_result.
  apply IH.
Qed.

(** ** Disconnecting *)

Lemma contents_notify_nodup (q : nat) (l : list nat) (w : World) :
NoDup l ->
Queue.contents q (foldl (fun w rx_queue => Queue.put rx_queue None w) w l)
= Queue.contents q w ++ (if bool_decide (q ∈ l) then [None] else []).
Proof.
intros N. revert w. induction N as [|q' l Hn N IH]; intros w; cbn [foldl].
- rewrite bool_decide_eq_false_2 by apply not_elem_of_nil. rewrite app_nil_r. reflexivity.
- rewrite IH, contents_put. destruct (decide (q' = q)) as [->|Ne].
  + rewrite (bool_decide_eq_false_2 (q ∈ l)) by exact Hn.
    rewrite bool_decide_eq_true_2 by apply list_elem_of_here.
    rewrite app_nil_r. reflexivity.
  + destruct (decide (q ∈ l)) as [I|I].
    * rewrite !bool_decide_eq_true_2; [reflexivity|apply list_elem_of_further, I|exact I].
    * rewrite !bool_decide_eq_false_2; [reflexivity| |exact I].
      intros H. apply elem_of_cons in H as [H|H]; [congruence|contradiction].
Qed.

(** X3.  [disconnect()] on a connected websocket whose registrations hold
    distinct queues puts exactly one shutdown sentinel at the end of every
    registered inbox and nothing in any other queue; it puts nothing on the
    wire and leaves the websocket without a thread. *)
Theorem disconnect_notifies_every_inbox_once (ws : nat) (s : State t) :
_ws (self s) = Some ws ->
NoDup (MultiplexingManager.all_queues (_mux (self s))) ->
_ws (self (disconnect s)) = None
/\ _mux (self (disconnect s)) = _mux (self s)
/\ untouched (world s) (world (disconnect s))
/\ forall q, Queue.contents q (world (disconnect s))
             = Queue.contents q (world s)
               ++ (if bool_decide (q ∈ MultiplexingManager.all_queues (_mux (self s)))
                   then [None] else []).
Proof.
intros W N. unfold disconnect, _notify_client_termination. rewrite W. cbn [world self].
split; [reflexivity|]. split; [reflexivity|].
split; [eapply untouched_trans; [apply untouched_notify|apply untouched_thread_disconnect]|].
intros q. rewrite contents_thread_disconnect. apply contents_notify_nodup, N.
Qed.

Lemma disconnect_notifies_every_inbox_once_witness :
let s := call_sent "listLoaded" None demo_websocket in
_ws (self (disconnect s)) = None
/\ _mux (self (disconnect s)) = _mux (self s)
/\ untouched (world s) (world (disconnect s))
/\ forall q, Queue.contents q (world (disconnect s))
             = Queue.contents q (world s)
               ++ (if bool_decide (q ∈ MultiplexingManager.all_queues (_mux (self s)))
                   then [None] else []).
Proof.
apply (disconnect_notifies_every_inbox_once 0 (call_sent "listLoaded" None demo_websocket)).
- reflexivity.
- vm_compute. apply NoDup_singleton.
Defined.

(** X4.  [disconnect()] is idempotent, and after it nothing can be sent: every
    [_send_json] fails its [ws is not None] assertion and leaves the state,
    so the wire, as it is. *)
Theorem disconnect_is_final (s : State t) (message : frame) :
disconnect (disconnect s) = disconnect s
/\ connected (self (disconnect s)) = false
/\ wire (world (disconnect s)) = wire (world s)
/\ _send_json message (disconnect s) = (Raise AssertionError, disconnect s).
Proof.
assert (N : _ws (self (disconnect s)) = None).
{ unfold disconnect. destruct (_ws (self s)); reflexivity. }
split; [|split; [|split]].
- unfold disconnect at 1. rewrite N. destruct (disconnect s) as [w [u a ws m]].
  cbn in N. subst ws. reflexivity.
- unfold connected. rewrite N. reflexivity.
- unfold disconnect, _notify_client_termination. destruct (_ws (self s)) as [ws|]; [|reflexivity].
  cbn [world self].
  destruct (untouched_thread_disconnect ws
              (foldl (fun w rx_queue => Queue.put rx_queue None w) (world s)
                 (MultiplexingManager.all_queues (_mux (self s))))) as [E _].
  destruct (untouched_notify (MultiplexingManager.all_queues (_mux (self s))) (world s)) as [E' _].
  exact (eq_trans E E').
- unfold _send_json. rewrite N. reflexivity.
Qed.

(** ** Connecting *)

(** X5.  [connect()] on a websocket without a thread opens one connection and
    reports what became of it: a refused connection, a handshake that could
    not be sent and a handshake whose reply could not be received are
    connection errors, a refused handshake is an authentication error
    carrying the server's error, and otherwise the websocket is connected
    and can send.  The handshake goes on the wire only over an accepted
    connection.  After a failure the websocket object is as it was, so
    [connect()] can be tried again. *)
Theorem connect_outcome (s : State t) :
_ws (self s) = None ->
let w := world s in
let r := connect s in
wire (world (snd r))
= wire w ++ NetConnect (_ws_url (self s))
            :: (if srv_accepts w && tx_ok w then [NetAuth (_auth_details (self s))] else [])
/\ fst r = (if negb (srv_accepts w) then Raise ConnectError
            else if negb (tx_ok w) then Raise ConnectError
            else if negb (auth_rx_ok w) then Raise ConnectError
            else match srv_auth_error w with
                 | Some error => Raise (AuthError error)
                 | None => Ok tt
                 end)
/\ (fst r = Ok tt -> can_send (snd r) = true)
/\ (fst r <> Ok tt -> self (snd r) = self s).
Proof.
intros N. cbn zeta.
unfold connect, bind, _fail_if_connected, connected, get_self, get_world, put_self, raise.
rewrite N. rewrite bool_decide_eq_false_2 by auto.
unfold _AsyncWebsocketThread.connect, _AsyncWebsocketThread._main_task.
cbn [world self srv_accepts tx_ok srv_auth_error auth_rx_ok emit set_wire set_next_ref].
destruct (srv_accepts (world s)) eqn:A; cbn [negb andb].
- destruct (tx_ok (world s)) eqn:T; cbn [negb andb].
  + destruct (auth_rx_ok (world s)) eqn:X; cbn [negb andb].
    * destruct (srv_auth_error (world s)) as [error|] eqn:E;
        cbn [andb negb fst snd self world th_ws th_ws_loop];
        rewrite ?lookup_store; cbn; rewrite <- ?app_assoc.
      -- split; [reflexivity|]. split; [reflexivity|]. split; [discriminate|reflexivity].
      -- split; [reflexivity|]. split; [reflexivity|]. split; [|intros H; contradiction].
         intros _. unfold can_send. cbn [self world _ws set_ws]. rewrite lookup_store. cbn. exact T.
    * cbn [andb negb fst snd self world th_ws th_ws_loop]. rewrite lookup_store. cbn.
      rewrite <- ?app_assoc.
      split; [reflexivity|]. split; [reflexivity|]. split; [discriminate|reflexivity].
  + cbn [andb negb fst snd self world th_ws th_ws_loop]. rewrite lookup_store. cbn.
    split; [reflexivity|]. split; [reflexivity|]. split; [discriminate|reflexivity].
- cbn [andb negb fst snd self world th_ws th_ws_loop]. rewrite lookup_store. cbn.
  split; [reflexivity|]. split; [reflexivity|]. split; [discriminate|reflexivity].
Qed.

(** The handshake is sent and its reply is lost: the connection error,
    with the handshake on the wire and no failure recorded on the thread. *)
Example connect_handshake_reply_lost :
let w := mkWorld true None true false [] [] 0 ∅ ∅ [] in
let r := connect (mkState w (__init__ "ws://127.0.0.1:1234/llm" "auth")) in
fst r = Raise ConnectError
/\ wire (world (snd r)) = [NetConnect "ws://127.0.0.1:1234/llm"; NetAuth "auth"]
/\ threads (world (snd r)) !! 0 = Some (mkThread false false false false None)
/\ _ws (self (snd r)) = None.
Proof. vm_compute. auto. Qed.

Lemma connect_outcome_witness :
let s := mkState demo_world (__init__ "ws://127.0.0.1:1234/llm" "auth") in
let r := connect s in
wire (world (snd r))
= [] ++ [NetConnect "ws://127.0.0.1:1234/llm"; NetAuth "auth"]
/\ fst r = Ok tt
/\ (fst r = Ok tt -> can_send (snd r) = true)
/\ (fst r <> Ok tt -> self (snd r) = self s).
Proof.
apply (connect_outcome (mkState demo_world (__init__ "ws://127.0.0.1:1234/llm" "auth"))).
reflexivity.
Defined.

(** ** Sessions: reconnecting and retrying *)

Lemma untouched_disconnect (s : State t) : untouched (world s) (world (disconnect s)).
Proof.
unfold disconnect, _notify_client_termination.
destruct (_ws (self s)) as [ws|]; [|apply untouched_refl].
cbn [world self].
eapply untouched_trans; [apply untouched_notify|apply untouched_thread_disconnect].
Qed.

Lemma untouched_session_disconnect (s : State SyncSession.t) :
untouched (world s) (world (SyncSession.disconnect s)).
Proof.
unfold SyncSession.disconnect.
destruct (SyncSession._lmsws (self s)) as [lmsws|]; [|apply untouched_refl].
cbn [world self]. unfold __exit__.
apply (untouched_disconnect (mkState (world s) lmsws)).
Qed.

Lemma untouched_server_ready (w w' : World) :
untouched w w' -> server_ready w' = server_ready w.
Proof. intros (_ & _ & _ & T & A & E & X). unfold server_ready. rewrite T, A, E, X. reflexivity. Qed.

Lemma untouched_link_events (w w' : World) :
untouched w w' -> link_events w' = link_events w.
Proof. intros (W & _). unfold link_events. rewrite W. reflexivity. Qed.

(** X6.  [SyncSession.disconnect()] drops the websocket, puts nothing on the
    wire and is idempotent; after it, with the server ready, any run of
    operations that need the connection connects and shakes hands anew,
    once, in the first of them. *)
Theorem session_reconnects_after_disconnect
    (namespace : string) (s : State SyncSession.t) (op : session_op) (ops : list session_op) :
server_ready (world s) = true ->
SyncSession.API_NAMESPACE (self s) = Some namespace ->
let s' := SyncSession.disconnect s in
SyncSession._lmsws (self s') = None
/\ SyncSession.disconnect s' = s'
/\ wire (world s') = wire (world s)
/\ link_events (world (run_ops (op :: ops) s'))
   = link_events (world s)
     ++ [NetConnect (session_url (self s) namespace);
         NetAuth (SyncSession.client_auth_details (self s))].
Proof.
intros R N. cbn zeta.
pose proof (untouched_session_disconnect s) as U.
assert (L : SyncSession._lmsws (self (SyncSession.disconnect s)) = None).
{ unfold SyncSession.disconnect. destruct (SyncSession._lmsws (self s)); reflexivity. }
assert (E : self (SyncSession.disconnect s) = SyncSession.set_lmsws None (self s)).
{ unfold SyncSession.disconnect. destruct (SyncSession._lmsws (self s)); reflexivity. }
split; [exact L|]. split; [|split].
- unfold SyncSession.disconnect at 1. rewrite L.
  destruct (SyncSession.disconnect s) as [w [ns h a l n]]. cbn in L. subst l. reflexivity.
- destruct U as [W _]. exact W.
- assert (R' : server_ready (world (SyncSession.disconnect s)) = true)
    by (rewrite (untouched_server_ready _ _ U); exact R).
  assert (N' : SyncSession.API_NAMESPACE (self (SyncSession.disconnect s)) = Some namespace)
    by (rewrite E; exact N).
  cbn [run_ops].
  destruct (run_op_first namespace op (SyncSession.disconnect s) R' L N') as [K W].
  rewrite (untouched_link_events _ _ U), E in K.
  change (session_url (SyncSession.set_lmsws None (self s)) namespace)
    with (session_url (self s) namespace) in K.
  change (SyncSession.client_auth_details (SyncSession.set_lmsws None (self s)))
    with (SyncSession.client_auth_details (self s)) in K.
  destruct (run_op op (SyncSession.disconnect s)) as [[a|e|] s1]; cbn [snd] in *; try exact K;
    rewrite (run_ops_with_websocket ops s1 W); exact K.
Qed.

Definition demo_session : State SyncSession.t :=
mkState (set_env [EvRx (rpcResult 0 "[]")] demo_world)
  (SyncSession.__init__ (Some "llm") "127.0.0.1:1234" "auth").

Lemma session_reconnects_after_disconnect_witness :
let s := snd (SyncSession.remote_call "listLoaded" None demo_session) in
let s' := SyncSession.disconnect s in
SyncSession._lmsws (self s') = None
/\ SyncSession.disconnect s' = s'
/\ wire (world s') = wire (world s)
/\ link_events (world (run_ops [OpRemoteCall "listLoaded" None] s'))
   = link_events (world s)
     ++ [NetConnect "ws://127.0.0.1:1234/llm"; NetAuth "auth"].
Proof.
apply (session_reconnects_after_disconnect "llm"
         (snd (SyncSession.remote_call "listLoaded" None demo_session))
         (OpRemoteCall "listLoaded" None) []); vm_compute; reflexivity.
Defined.

(** A session whose websocket was connected, used and dropped connects a
    second time on its next call: two connections, two handshakes, and the
    call ids of the new websocket start at 0 again. *)
Example session_second_connection :
let s := snd (SyncSession.remote_call "listLoaded" None demo_session) in
wire (world (run_ops [OpRemoteCall "listLoaded" None] (SyncSession.disconnect s)))
= [NetConnect "ws://127.0.0.1:1234/llm"; NetAuth "auth";
   NetSend (rpcCall 0 "listLoaded" "null");
   NetConnect "ws://127.0.0.1:1234/llm"; NetAuth "auth";
   NetSend (rpcCall 0 "listLoaded" "null")].
Proof. vm_compute. reflexivity. Qed.

Lemma run_op_refused (namespace : string) (op : session_op) (s : State SyncSession.t) :
srv_accepts (world s) = false ->
SyncSession._lmsws (self s) = None ->
SyncSession.API_NAMESPACE (self s) = Some namespace ->
fst (run_op op s) = Raise ConnectError
/\ self (snd (run_op op s)) = self s
/\ wire (world (snd (run_op op s)))
   = wire (world s) ++ [NetConnect (session_url (self s) namespace)]
/\ srv_accepts (world (snd (run_op op s))) = false.
Proof.
intros A L N.
assert (E : SyncSession._ensure_connected s
            = (Raise ConnectError,
               mkState (_AsyncWebsocketThread.store (next_ref (world s))
                          (mkThread false false false true None)
                          (emit (NetConnect (session_url (self s) namespace))
                             (set_next_ref (S (next_ref (world s))) (world s))))
                 (self s))).
{ unfold SyncSession._ensure_connected, bind, get_self. rewrite L.
  unfold SyncSession.connect, bind, SyncSession._fail_if_connected, SyncSession.connected, get_self.
  rewrite L, N.
  unfold run_on, __enter__, bind, get_self. cbn [self world __init__ _ws].
  unfold connect, bind, _fail_if_connected, connected, get_self, get_world, raise.
  cbn [self world __init__ _ws]. rewrite bool_decide_eq_false_2 by auto.
  unfold _AsyncWebsocketThread.connect, _AsyncWebsocketThread._main_task.
  cbn [world self srv_accepts tx_ok srv_auth_error auth_rx_ok emit set_wire set_next_ref].
  rewrite A. cbn [negb andb fst snd self world th_ws th_ws_loop].
  rewrite lookup_store. reflexivity. }
destruct op as [endpoint params|endpoint]; unfold run_op, bind at 1;
  [unfold SyncSession.remote_call|unfold SyncSession._create_channel_enter];
  unfold bind; rewrite E; cbn [fst snd self world];
  (split; [reflexivity|]); (split; [reflexivity|]); (split; [reflexivity|exact A]).
Qed.

(** X7.  While the server refuses the connection, a session stays without a
    websocket: every operation that needs the connection raises the
    connection error after one attempt to connect, so a run of [n]
    operations makes [n] attempts and no handshake, and sends nothing. *)
Theorem refused_connection_is_retried
    (namespace : string) (ops : list session_op) (s : State SyncSession.t) :
srv_accepts (world s) = false ->
SyncSession._lmsws (self s) = None ->
SyncSession.API_NAMESPACE (self s) = Some namespace ->
self (run_ops ops s) = self s
/\ wire (world (run_ops ops s))
   = wire (world s) ++ replicate (length ops) (NetConnect (session_url (self s) namespace))
/\ Forall (fun op => fst (run_op op s) = Raise ConnectError) ops.
Proof.
revert s. induction ops as [|op ops IH]; intros s A L N.
- cbn. rewrite app_nil_r. auto.
- destruct (run_op_refused namespace op s A L N) as (E1 & E2 & E3 & E4).
  cbn [run_ops length replicate].
  destruct (run_op op s) as [r s1]. cbn [fst snd] in *. subst r.
  destruct (IH s1) as (I1 & I2 & I3); [exact E4|rewrite E2; exact L|rewrite E2; exact N|].
  split; [congruence|]. split.
  + rewrite I2, E3, E2, <- app_assoc. reflexivity.
  + constructor.
    * apply (run_op_refused namespace op s A L N).
    * eapply Forall_impl; [exact I3|]. intros op' H.
      apply (run_op_refused namespace op' s A L N).
Qed.

Lemma refused_connection_is_retried_witness :
let s := mkState (mkWorld false None true true [] [] 0 ∅ ∅ [])
           (SyncSession.__init__ (Some "llm") "127.0.0.1:1234" "auth") in
let ops := [OpRemoteCall "listLoaded" None; OpCreateChannel predict_endpoint] in
self (run_ops ops s) = self s
/\ wire (world (run_ops ops s))
   = wire (world s) ++ replicate (length ops) (NetConnect (session_url (self s) "llm"))
/\ Forall (fun op => fst (run_op op s) = Raise ConnectError) ops.
Proof.
apply (refused_connection_is_retried "llm"
         [OpRemoteCall "listLoaded" None; OpCreateChannel predict_endpoint]
         (mkState (mkWorld false None true true [] [] 0 ∅ ∅ [])
            (SyncSession.__init__ (Some "llm") "127.0.0.1:1234" "auth"))); reflexivity.
Defined.

(** ** Registration scopes when nothing can be sent *)

(** With no thread, a thread that is down or a transport that refuses,
    the guarded send raises and changes nothing. *)
Lemma cannot_send (usage : string) (message : frame) (s : State t) :
can_send s = false ->
exists e, bind (_ensure_connected usage) (fun _ => _send_json message) s = (Raise e, s).
Proof.
unfold can_send, bind, _ensure_connected, connected, _send_json,
  _AsyncWebsocketThread.send_json, _AsyncWebsocketThread._send_json.
destruct (_ws (self s)) as [ws|] eqn:W.
- rewrite bool_decide_eq_true_2 by discriminate. cbn beta iota. rewrite W.
  destruct (_AsyncWebsocketThread.lookup ws (world s)) as [th|]; [|eauto].
  destruct (th_ws_loop th), (th_ws th), (tx_ok (world s)); cbn; try discriminate; eauto.
- rewrite bool_decide_eq_false_2 by auto. eauto.
Qed.

(** The state of [remote_call] inside its [assign_call_id] scope, before
    the request is sent. *)
Definition call_registered (s : State t) : State t :=
let w := world s in
let rx_queue := next_ref w in
mkState (set_next_ref (S rx_queue) (set_queues (<[rx_queue := []]> (queues w)) w))
  (set_mux (snd (MultiplexingManager.assign_call_id_enter rx_queue (_mux (self s)))) (self s)).

Lemma remote_call_cannot_send (endpoint : string) (params : option Any) (s : State t) :
can_send s = false ->
exists e, remote_call endpoint params s
          = (Raise e, call_done (MultiplexingManager.next_call_id (_mux (self s)))
                        (call_registered s)).
Proof.
intros C. unfold remote_call, bind at 1 2 3, Queue.new, get_self, put_self.
cbn -[_send_call SyncRemoteCall.receive_result bind].
unfold finally, bind at 1.
change (mkState _ _) with (call_registered s).
assert (C1 : can_send (call_registered s) = false) by exact C.
destruct (cannot_send "send remote procedure call"
            (SyncRemoteCall.get_rpc_message
               (SyncRemoteCall.__init__ (MultiplexingManager.next_call_id (_mux (self s)))
                  (next_ref (world s))) endpoint params)
            (call_registered s) C1) as [e E].
unfold _send_call. rewrite E. exists e. reflexivity.
Qed.

(** X8.  [remote_call] holds its call id exactly while it runs, whatever the
    state of the connection: when it comes back, with a result or an
    exception, the multiplexer is the one it found with the call id used
    up and its registration removed, so the pending calls are those from
    before; while the caller is blocked the registration stands.  When
    nothing can be sent it raises with nothing sent and nothing taken from
    any inbox. *)
Theorem remote_call_registration_scope (endpoint : string) (params : option Any) (s : State t) :
let m := _mux (self s) in
let call_id := MultiplexingManager.next_call_id m in
let registered := snd (MultiplexingManager.assign_call_id_enter (next_ref (world s)) m) in
let r := remote_call endpoint params s in
_mux (self (snd r))
= match fst r with
  | Hang => registered
  | _ => MultiplexingManager.assign_call_id_exit call_id registered
  end
/\ (fst r <> Hang ->
    MultiplexingManager.pending_calls m !! call_id = None ->
    MultiplexingManager.pending_calls (_mux (self (snd r))) = MultiplexingManager.pending_calls m
    /\ MultiplexingManager.open_channels (_mux (self (snd r))) = MultiplexingManager.open_channels m
    /\ MultiplexingManager.next_call_id (_mux (self (snd r))) = S call_id)
/\ (can_send s = false ->
    (exists e, fst r = Raise e)
    /\ wire (world (snd r)) = wire (world s)
    /\ consumed (world (snd r)) = consumed (world s)).
Proof.
cbn zeta.
assert (M : _mux (self (snd (remote_call endpoint params s)))
            = match fst (remote_call endpoint params s) with
              | Hang => snd (MultiplexingManager.assign_call_id_enter (next_ref (world s))
                               (_mux (self s)))
              | _ => MultiplexingManager.assign_call_id_exit
                       (MultiplexingManager.next_call_id (_mux (self s)))
                       (snd (MultiplexingManager.assign_call_id_enter (next_ref (world s))
                               (_mux (self s))))
              end).
{ destruct (can_send s) eqn:C.
  - rewrite (remote_call_unfold endpoint params s C). cbn zeta.
    set (s2 := call_sent endpoint params s).
    set (q := next_ref (world s)).
    set (Inv := fun (_ : list env_event) (s' : State t) => _mux (self s') = _mux (self s2)).
    assert (Hstep : forall ev evs' s', Inv (ev :: evs') s' ->
              Inv evs' (env_step ev (mkState (set_env evs' (world s')) (self s')))).
    { intros ev evs' s' Em.
      destruct (env_step_effect ev (mkState (set_env evs' (world s')) (self s')) q)
        as (_ & _ & Em' & _).
      unfold Inv. rewrite Em'. exact Em. }
    pose proof (blocking_get_spec env_step q Inv Hstep (env (world s)) s2 eq_refl) as G.
    destruct (Queue.blocking_get env_step q (env (world s)) s2) as [[message|e|] s'];
      [|contradiction|].
    + destruct G as (evs0 & s0 & rest & Em & _ & ->).
      destruct message as [[]|]; cbn [RemoteCallHandler.handle_rx_message fst snd];
        unfold call_done, mux_update; cbn [self world _mux set_mux]; rewrite Em; reflexivity.
    + destruct G as [Em _]. exact Em.
  - destruct (remote_call_cannot_send endpoint params s C) as [e E]. rewrite E. reflexivity. }
split; [exact M|]. split.
- intros NH Fresh. rewrite M.
  destruct (fst (remote_call endpoint params s)) as [a|e|]; [| |contradiction];
    cbn; rewrite delete_insert_id by exact Fresh; auto.
- intros C. destruct (remote_call_cannot_send endpoint params s C) as [e E]. rewrite E.
  split; [exists e; reflexivity|]. split; reflexivity.
Qed.

(** A call on a websocket that was never connected: the id is used up,
    nothing stays registered, nothing is on the wire. *)
Example remote_call_not_connected :
let s := mkState demo_world (__init__ "ws://127.0.0.1:1234/llm" "auth") in
let r := remote_call "listLoaded" None s in
fst r = Raise (LMStudioWebsocketError "Websocket must be connected to send remote procedure call")
/\ _mux (self (snd r)) = MultiplexingManager.mk 0 1 ∅ ∅
/\ wire (world (snd r)) = [].
Proof. vm_compute. auto. Qed.

(** X9.  When nothing can be sent, entering [open_channel] raises inside the
    [assign_channel_id] scope: the channel id is used up, its registration
    is removed again, nothing is sent, and the body of the [with]
    statement never runs. *)
Theorem open_channel_cannot_send (endpoint : ChannelEndpoint) (s : State t) :
can_send s = false ->
let m := _mux (self s) in
let channel_id := MultiplexingManager.next_channel_id m in
let r := open_channel_enter endpoint s in
exists e,
  fst r = Raise e
  /\ wire (world (snd r)) = wire (world s)
  /\ consumed (world (snd r)) = consumed (world s)
  /\ _mux (self (snd r))
     = MultiplexingManager.assign_channel_id_exit channel_id
         (snd (MultiplexingManager.assign_channel_id_enter (next_ref (world s)) m))
  /\ MultiplexingManager.open_channels (_mux (self (snd r))) !! channel_id = None
  /\ forall (A : Type) (body : SyncChannel.t -> M t A),
       open_channel endpoint body s = (Raise e, snd r).
Proof.
intros C. cbn zeta.
assert (E : exists e, open_channel_enter endpoint s
            = (Raise e,
               mux_update (MultiplexingManager.assign_channel_id_exit
                             (MultiplexingManager.next_channel_id (_mux (self s))))
                 (mkState (set_next_ref (S (next_ref (world s)))
                             (set_queues (<[next_ref (world s) := []]> (queues (world s))) (world s)))
                    (set_mux (snd (MultiplexingManager.assign_channel_id_enter (next_ref (world s))
                                     (_mux (self s)))) (self s))))).
{ unfold open_channel_enter, bind, Queue.new, get_self, put_self.
  cbn -[_connect_to_endpoint].
  set (s1 := mkState _ _).
  assert (C1 : can_send s1 = false) by exact C.
  destruct (cannot_send "open channel endpoints"
              (SyncChannel.get_creation_message
                 (SyncChannel.__init__ (MultiplexingManager.next_channel_id (_mux (self s)))
                    (next_ref (world s)) endpoint)) s1 C1) as [e E].
  unfold _connect_to_endpoint. rewrite E. exists e. reflexivity. }
destruct E as [e E]. exists e. rewrite E. cbn [fst snd].
split; [reflexivity|]. split; [reflexivity|]. split; [reflexivity|]. split; [reflexivity|].
split; [cbn; apply lookup_delete_eq|].
intros A body. unfold open_channel, bind. rewrite E. reflexivity.
Qed.

Lemma open_channel_cannot_send_witness :
let s := tx_down demo_websocket in
let r := open_channel_enter predict_endpoint s in
exists e,
  fst r = Raise e
  /\ wire (world (snd r)) = wire (world s)
  /\ consumed (world (snd r)) = consumed (world s)
  /\ _mux (self (snd r))
     = MultiplexingManager.assign_channel_id_exit 0
         (snd (MultiplexingManager.assign_channel_id_enter 1 MultiplexingManager.empty))
  /\ MultiplexingManager.open_channels (_mux (self (snd r))) !! 0 = None
  /\ forall (A : Type) (body : SyncChannel.t -> M t A),
       open_channel predict_endpoint body s = (Raise e, snd r).
Proof.
apply (open_channel_cannot_send predict_endpoint (tx_down demo_websocket)).
vm_compute. reflexivity.
Defined.

(** The transport refuses the [channelCreate] frame: the caller gets the
    transmission error for that frame. *)
Example open_channel_send_refused :
fst (open_channel_enter predict_endpoint (tx_down demo_websocket))
= Raise (TxError (channelCreate 0 "predict" "{}")).
Proof. vm_compute. reflexivity. Qed.

(** ** The order of a channel's stream *)

(** A reader blocked on its empty inbox while the next thing to arrive is
    a frame for that inbox: it gets that frame, and the inbox is empty
    again. *)
Lemma queue_get_next_frame (q : nat) (f : frame) (evs : list env_event) (s : State t) :
receiving s = true ->
MultiplexingManager.map_rx_message f (_mux (self s)) = Some q ->
Queue.contents q (world s) = [] ->
env (world s) = EvRx f :: evs ->
exists s', queue_get q s = (Ok (Some f), s')
  /\ self s' = self s
  /\ threads (world s') = threads (world s)
  /\ env (world s') = evs
  /\ Queue.contents q (world s') = []
  /\ wire (world s') = wire (world s)
  /\ consumed (world s') = consumed (world s) ++ [(q, Some f)].
Proof.
intros R Q E Ev. unfold receiving in R.
destruct (_ws (self s)) as [ws|] eqn:W; [|discriminate].
destruct (_AsyncWebsocketThread.lookup ws (world s)) as [th|] eqn:L; [|discriminate].
unfold queue_get, Queue.get. rewrite Ev. cbn [Queue.blocking_get]. rewrite E.
set (s1 := mkState (set_env evs (world s)) (self s)).
assert (S1 : env_step (EvRx f) s1 = mkState (Queue.put q (Some f) (world s1)) (self s)).
{ unfold env_step, background_receive. cbn [self s1]. rewrite W.
  change (_AsyncWebsocketThread.lookup ws (world s1)) with (_AsyncWebsocketThread.lookup ws (world s)).
  rewrite L, R, receive_turn_frame. cbn [self s1]. rewrite Q. cbn [world self].
  unfold _AsyncWebsocketThread._main_task_exit.
  change (_AsyncWebsocketThread.lookup ws (Queue.put q (Some f) (world s1)))
    with (_AsyncWebsocketThread.lookup ws (world s)).
  rewrite L. apply andb_true_iff in R as [_ R]. apply negb_true_iff in R. rewrite R.
  reflexivity. }
rewrite S1.
assert (C : Queue.contents q (Queue.put q (Some f) (world s1)) = [Some f]).
{ rewrite contents_put, decide_True by reflexivity.
  change (Queue.contents q (world s1)) with (Queue.contents q (world s)). rewrite E. reflexivity. }
eexists. split.
{ destruct evs; cbn [Queue.blocking_get world]; rewrite C; reflexivity. }
cbn [self world]. split; [reflexivity|]. split; [reflexivity|]. split; [reflexivity|].
split; [unfold Queue.contents; cbn; rewrite lookup_insert_eq; reflexivity|].
split; reflexivity.
Qed.

(** The events by which the server streams [fragments] on a channel. *)
Definition fragments_sent (channel_id : nat) (fragments : list Any) : list env_event :=
(fun c => EvRx (channelSend channel_id c)) <$> fragments.

(** X10.  A channel's stream gives what the server sent on the channel, in the
    order sent, and stops at the server's [channelClose]: with the thread
    receiving, the channel registered and its inbox empty, the run yields
    exactly the fragments sent before the close, takes those frames and the
    close from the inbox in that order, marks the channel finished, sends
    nothing, and leaves what was to happen after the close still to
    happen. *)
Theorem rx_stream_yields_fragments_in_order
    (fragments : list Any) (later : list env_event) (fuel : nat) (s : State (t * SyncChannel.t)) :
let channel := channel_of s in
let q := SyncChannel._rx_queue channel in
let id := SyncChannel.channel_id channel in
receiving (websocket_of s) = true ->
SyncChannel._is_finished channel = false ->
MultiplexingManager.open_channels (_mux (fst (self s))) !! id = Some q ->
Queue.contents q (world s) = [] ->
env (world s) = fragments_sent id fragments ++ EvRx (channelClose id) :: later ->
length fragments < fuel ->
exists s',
  channel_rx_stream fuel s = Some (Ok fragments, s')
  /\ self s' = (fst (self s), SyncChannel.mark_finished channel)
  /\ env (world s') = later
  /\ wire (world s') = wire (world s)
  /\ consumed (world s')
     = consumed (world s)
       ++ ((fun c => (q, Some (channelSend id c))) <$> fragments)
       ++ [(q, Some (channelClose id))].
Proof.
cbn zeta. revert fuel s.
induction fragments as [|c fragments IH]; intros fuel s R F Q E Ev Hf;
  (destruct fuel as [|fuel]; [cbn in Hf; lia|]);
  unfold channel_rx_stream; cbn [SyncChannel.rx_stream];
  change (SyncChannel.rx_stream_next queue_get s) with (channel_rx_stream_next s);
  rewrite (rx_stream_next_unfinished s F); cbn zeta.
- destruct (queue_get_next_frame (SyncChannel._rx_queue (channel_of s))
              (channelClose (SyncChannel.channel_id (channel_of s))) later (websocket_of s)
              R Q E Ev) as (s1 & G & Es & _ & Ee & _ & Ew & Ec).
  rewrite G. cbn [ChannelHandler.handle_rx_message].
  eexists. split; [reflexivity|]. unfold with_channel. cbn [self world].
  split; [rewrite Es; reflexivity|]. split; [exact Ee|]. split; [exact Ew|].
  rewrite Ec. reflexivity.
- cbn [fragments_sent fmap list_fmap app] in Ev.
  destruct (queue_get_next_frame (SyncChannel._rx_queue (channel_of s))
              (channelSend (SyncChannel.channel_id (channel_of s)) c) _ (websocket_of s)
              R Q E Ev) as (s1 & G & Es & Et & Ee & Eq & Ew & Ec).
  rewrite G. cbn [ChannelHandler.handle_rx_message].
  set (s2 := with_channel (channel_of s) s1).
  assert (R2 : receiving (websocket_of s2) = true).
  { unfold receiving, _AsyncWebsocketThread.lookup in *. cbn [websocket_of s2 with_channel self world fst] in *.
    rewrite Es, Et. exact R. }
  assert (Q2 : MultiplexingManager.open_channels (_mux (fst (self s2)))
               !! SyncChannel.channel_id (channel_of s2)
               = Some (SyncChannel._rx_queue (channel_of s2))).
  { cbn [s2 with_channel self fst channel_of snd]. rewrite Es. exact Q. }
  destruct (IH fuel s2 R2 F Q2 Eq Ee) as (s' & G' & Es' & Ee' & Ew' & Ec');
    [cbn in Hf; lia|].
  unfold channel_rx_stream in G'. rewrite G'.
  exists s'. split; [reflexivity|].
  split; [rewrite Es'; cbn [s2 with_channel self fst channel_of snd]; rewrite Es; reflexivity|].
  split; [exact Ee'|]. split; [rewrite Ew'; exact Ew|].
  rewrite Ec'. cbn [s2 with_channel self world channel_of snd]. rewrite Ec.
  cbn [fmap list_fmap]. rewrite <- app_assoc. reflexivity.
Qed.

Lemma rx_stream_yields_fragments_in_order_witness :
let s := with_env (fragments_sent 0 ["a"; "b"] ++ EvRx (channelClose 0) :: [EvDisconnect])
           demo_channel in
exists s',
  channel_rx_stream 3 s = Some (Ok ["a"; "b"], s')
  /\ self s' = (fst (self s), SyncChannel.mark_finished (channel_of s))
  /\ env (world s') = [EvDisconnect]
  /\ wire (world s') = wire (world s)
  /\ consumed (world s')
     = consumed (world s)
       ++ ((fun c => (1, Some (channelSend 0 c))) <$> ["a"; "b"])
       ++ [(1, Some (channelClose 0))].
Proof.
apply (rx_stream_yields_fragments_in_order ["a"; "b"] [EvDisconnect] 3
         (with_env (fragments_sent 0 ["a"; "b"] ++ EvRx (channelClose 0) :: [EvDisconnect])
            demo_channel)); vm_compute; reflexivity.
Defined.

(** ** The scope of a prediction stream *)

(** The channels registered with the session's websocket. *)
Definition channels_of (o : SyncSession.t) : gmap nat nat :=
match SyncSession._lmsws o with
| Some lmsws => MultiplexingManager.open_channels (_mux lmsws)
| None => ∅
end.

(** The ids of the channels, among those of [scopes], that the websocket
    numbered [serial] opened. *)
Definition opened_ids (serial : nat) (scopes : list SyncSession.ChannelScope) : list nat :=
(fun scope => SyncChannel.channel_id (SyncSession.scope_channel scope))
  <$> List.filter (fun scope => bool_decide (SyncSession.opened_by scope = serial)) scopes.

(** [ExitStack.close()] for the channel scopes a stream entered. *)
Definition release (scopes : list SyncSession.ChannelScope) (s : State SyncSession.t)
  : State SyncSession.t :=
foldl (fun s scope => SyncSession._create_channel_exit scope s) s scopes.

Lemma create_channel_exit_effect (scope : SyncSession.ChannelScope) (s : State SyncSession.t) :
world (SyncSession._create_channel_exit scope s) = world s
/\ SyncSession.connected (self (SyncSession._create_channel_exit scope s))
   = SyncSession.connected (self s)
/\ SyncSession.lmsws_serial (self (SyncSession._create_channel_exit scope s))
   = SyncSession.lmsws_serial (self s)
/\ channels_of (self (SyncSession._create_channel_exit scope s))
   = if bool_decide (SyncSession.opened_by scope = SyncSession.lmsws_serial (self s))
     then delete (SyncChannel.channel_id (SyncSession.scope_channel scope)) (channels_of (self s))
     else channels_of (self s).
Proof.
unfold SyncSession._create_channel_exit, SyncSession.held_websocket, channels_of,
  SyncSession.connected.
destruct (SyncSession._lmsws (self s)) as [lmsws|] eqn:L.
- destruct (decide (SyncSession.lmsws_serial (self s) = SyncSession.opened_by scope)) as [E|N].
  + rewrite bool_decide_eq_true_2 by exact E.
    rewrite bool_decide_eq_true_2 by (symmetry; exact E). cbn. auto.
  + rewrite bool_decide_eq_false_2 by exact N.
    rewrite bool_decide_eq_false_2 by (intros E; apply N; symmetry; exact E).
    rewrite L. auto.
- rewrite L. rewrite delete_empty.
  destruct (bool_decide _); auto.
Qed.

Lemma release_effect (scopes : list SyncSession.ChannelScope) (s : State SyncSession.t) :
world (release scopes s) = world s
/\ SyncSession.connected (self (release scopes s)) = SyncSession.connected (self s)
/\ SyncSession.lmsws_serial (self (release scopes s)) = SyncSession.lmsws_serial (self s)
/\ forall id, channels_of (self (release scopes s)) !! id
              = if bool_decide (id ∈ opened_ids (SyncSession.lmsws_serial (self s)) scopes)
                then None else channels_of (self s) !! id.
Proof.
revert s. induction scopes as [|scope scopes IH]; intros s; unfold release; cbn [foldl].
- split; [reflexivity|]. split; [reflexivity|]. split; [reflexivity|]. intros id.
  rewrite bool_decide_eq_false_2 by apply not_elem_of_nil. reflexivity.
- destruct (create_channel_exit_effect scope s) as (W & C & N & Ch).
  destruct (IH (SyncSession._create_channel_exit scope s)) as (W' & C' & N' & Ch').
  unfold release in *.
  split; [congruence|]. split; [congruence|]. split; [congruence|]. intros id.
  rewrite Ch', Ch, N. unfold opened_ids. cbn [List.filter].
  set (rest := (fun scope => SyncChannel.channel_id (SyncSession.scope_channel scope))
                 <$> List.filter (fun scope => bool_decide (SyncSession.opened_by scope
                                                             = SyncSession.lmsws_serial (self s)))
                       scopes).
  destruct (bool_decide (SyncSession.opened_by scope = SyncSession.lmsws_serial (self s)));
    [|reflexivity].
  cbn [fmap list_fmap]. fold rest.
  destruct (decide (id = SyncChannel.channel_id (SyncSession.scope_channel scope))) as [->|Ne].
  + rewrite lookup_delete_eq.
    rewrite (bool_decide_eq_true_2 (_ ∈ _ :: rest)) by apply list_elem_of_here.
    destruct (bool_decide _); reflexivity.
  + rewrite lookup_delete_ne by auto.
    destruct (decide (id ∈ rest)) as [I|I].
    * rewrite !bool_decide_eq_true_2; [reflexivity|apply list_elem_of_further, I|exact I].
    * rewrite !bool_decide_eq_false_2; [reflexivity| |exact I].
      intros H. apply elem_of_cons in H as [H|H]; contradiction.
Qed.

Definition cancelled_unexpectedly : exn :=
LMStudioCancelledError "Prediction cancelled unexpectedly: please use .cancel()".

Lemma close_unfold (s : State PredictionStream.Self) :
let p := snd (self s) in
let p' := if PredictionStream._is_started p && negb (PredictionStream._is_finished p)
          then PredictionStream._set_error cancelled_unexpectedly p else p in
let s' := release (PredictionStream._resources p) (mkState (world s) (fst (self s))) in
PredictionStream.close s
= (Ok tt, mkState (world s') (self s', PredictionStream.set_channel None [] p')).
Proof.
cbn zeta. unfold PredictionStream.close, bind, PredictionStream.get_stream,
  PredictionStream.put_stream, PredictionStream.in_session. cbn [fst snd self world].
destruct (PredictionStream._is_started (snd (self s))
          && negb (PredictionStream._is_finished (snd (self s))));
  reflexivity.
Qed.

Lemma close_closed (w : World) (o : SyncSession.t) (p : PredictionStream.t) :
PredictionStream._channel p = None ->
PredictionStream._resources p = [] ->
PredictionStream._is_started p && negb (PredictionStream._is_finished p) = false ->
PredictionStream.close (mkState w (o, p)) = (Ok tt, mkState w (o, p)).
Proof.
intros C R E. rewrite close_unfold. cbn [self world fst snd]. rewrite R, E.
destruct p as [started finished cancelled error channel resources endpoint].
cbn in *. subst channel resources. reflexivity.
Qed.

(** The stream as [__exit__] hands it to [close()]. *)
Definition leaving (exc_val : option exn) (p : PredictionStream.t) : PredictionStream.t :=
match exc_val with
| Some e => if negb (PredictionStream._is_finished p) then PredictionStream._set_error e p else p
| None => p
end.

Lemma exit_unfold (exc_val : option exn) (s : State PredictionStream.Self) :
PredictionStream.__exit__ exc_val s
= PredictionStream.close (mkState (world s) (fst (self s), leaving exc_val (snd (self s)))).
Proof.
unfold PredictionStream.__exit__, bind at 1 2, PredictionStream.get_stream, leaving.
destruct s as [w [o p]]. cbn [fst snd self world].
destruct exc_val as [e|]; [destruct (negb (PredictionStream._is_finished p))|]; reflexivity.
Qed.

Lemma leaving_fields (exc_val : option exn) (p : PredictionStream.t) :
PredictionStream._resources (leaving exc_val p) = PredictionStream._resources p
/\ PredictionStream._is_started (leaving exc_val p) = PredictionStream._is_started p.
Proof.
unfold leaving.
destruct exc_val as [e|]; [destruct (negb (PredictionStream._is_finished p))|]; auto.
Qed.

(** The stream [close()] leaves behind is finished if it was ever started. *)
Lemma closed_stream_finished (p : PredictionStream.t) :
let p' := if PredictionStream._is_started p && negb (PredictionStream._is_finished p)
          then PredictionStream._set_error cancelled_unexpectedly p else p in
PredictionStream._is_started p' = PredictionStream._is_started p
/\ PredictionStream._is_started p' && negb (PredictionStream._is_finished p') = false.
Proof.
cbn zeta.
destruct (PredictionStream._is_started p) eqn:S, (PredictionStream._is_finished p) eqn:F;
  cbn; rewrite ?S, ?F; auto.
Qed.

(** X11.  Leaving a prediction stream, by [close()] or by the end of a [with]
    statement (with or without an exception): the stream drops its channel
    and leaves every channel scope it entered.  Each scope is left on the
    websocket that opened its channel: of the websocket the session holds,
    the channel ids of the scopes it opened itself are no longer
    registered, and every other registration stands, also that of a channel
    with the same id which a websocket the session held before had opened
    for this stream.  Nothing is sent, and the session stays connected as
    it was.  After that [cancel()] does nothing and a further [close()]
    changes nothing. *)
Theorem prediction_exit_releases_channels
    (exc_val : option exn) (s : State PredictionStream.Self) :
let p := snd (self s) in
let session := fst (self s) in
let r := PredictionStream.__exit__ exc_val s in
fst r = Ok tt
/\ world (snd r) = world s
/\ PredictionStream._channel (snd (self (snd r))) = None
/\ PredictionStream._resources (snd (self (snd r))) = []
/\ (forall id, channels_of (fst (self (snd r))) !! id
               = if bool_decide (id ∈ opened_ids (SyncSession.lmsws_serial session)
                                        (PredictionStream._resources p))
                 then None
                 else channels_of session !! id)
/\ SyncSession.connected (fst (self (snd r))) = SyncSession.connected session
/\ PredictionStream.cancel (snd r) = (Ok tt, snd r)
/\ PredictionStream.close (snd r) = (Ok tt, snd r)
/\ PredictionStream.__exit__ None s = PredictionStream.close s.
Proof.
cbn zeta.
set (p1 := leaving exc_val (snd (self s))).
destruct (leaving_fields exc_val (snd (self s))) as (R1 & _). fold p1 in R1.
rewrite exit_unfold. fold p1. rewrite close_unfold. cbn [fst snd self world]. rewrite R1.
destruct (release_effect (PredictionStream._resources (snd (self s)))
            (mkState (world s) (fst (self s)))) as (W & C & _ & Ch).
cbn [world self] in W, C, Ch.
split; [reflexivity|]. split; [exact W|]. split; [reflexivity|]. split; [reflexivity|].
split; [exact Ch|]. split; [exact C|]. split; [reflexivity|]. split.
- apply close_closed; [reflexivity|reflexivity|].
  destruct (closed_stream_finished p1) as [_ E]. cbn zeta in E.
  destruct (PredictionStream._is_started p1 && negb (PredictionStream._is_finished p1));
    exact E.
- rewrite (exit_unfold None s). destruct s as [w [o p]]; reflexivity.
Qed.

Lemma enter_started (s : State PredictionStream.Self) :
PredictionStream._channel (snd (self s)) = None ->
PredictionStream._is_started (snd (self s)) = true ->
PredictionStream.__enter__ s
= (Raise (if PredictionStream._is_finished (snd (self s)) then already_received else already_sent), s).
Proof.
intros C S. unfold PredictionStream.__enter__, bind, PredictionStream.get_stream. cbn [fst snd].
rewrite C. unfold PredictionStream.start, bind, PredictionStream.get_stream. cbn [fst snd].
rewrite S. destruct (PredictionStream._is_finished (snd (self s))); reflexivity.
Qed.

Lemma enter_with_channel (scope : SyncSession.ChannelScope) (s : State PredictionStream.Self) :
PredictionStream._channel (snd (self s)) = Some scope ->
PredictionStream.__enter__ s = (Ok tt, s).
Proof.
intros C. unfold PredictionStream.__enter__, bind, PredictionStream.get_stream. cbn [fst snd].
rewrite C. reflexivity.
Qed.

Lemma start_sets_channel (s : State PredictionStream.Self) :
fst (PredictionStream.start s) = Ok tt ->
exists scope, PredictionStream._channel (snd (self (snd (PredictionStream.start s)))) = Some scope.
Proof.
unfold PredictionStream.start, bind, PredictionStream.get_stream. cbn [fst snd].
destruct (PredictionStream._is_finished (snd (self s))); [discriminate|].
destruct (PredictionStream._is_started (snd (self s))); [discriminate|].
destruct (PredictionStream.in_session _ s) as [[channel|e|] s1]; cbn; try discriminate.
eauto.
Qed.

(** X12.  A stream that was started and then left is finished, and cannot be
    entered again: [__enter__] finds no channel, calls [start()], and that
    raises, the result having been received already, and changes nothing.
    While the stream holds its channel a nested [__enter__] does nothing. *)
Theorem prediction_enter_after_exit (exc_val : option exn) (s : State PredictionStream.Self) :
let p := snd (self s) in
PredictionStream._is_started p = true ->
let c := snd (PredictionStream.__exit__ exc_val s) in
PredictionStream._is_finished (snd (self c)) = true
/\ PredictionStream.__enter__ c = (Raise already_received, c)
/\ forall s0 : State PredictionStream.Self,
     fst (PredictionStream.__enter__ s0) = Ok tt ->
     PredictionStream.__enter__ (snd (PredictionStream.__enter__ s0))
     = (Ok tt, snd (PredictionStream.__enter__ s0)).
Proof.
cbn zeta. intros S.
assert (F : PredictionStream._is_started (snd (self (snd (PredictionStream.__exit__ exc_val s)))) = true
            /\ PredictionStream._is_finished (snd (self (snd (PredictionStream.__exit__ exc_val s)))) = true
            /\ PredictionStream._channel (snd (self (snd (PredictionStream.__exit__ exc_val s)))) = None).
{ set (p1 := leaving exc_val (snd (self s))).
  destruct (leaving_fields exc_val (snd (self s))) as (_ & S1). fold p1 in S1.
  rewrite S in S1.
  rewrite exit_unfold. fold p1. rewrite close_unfold. cbn [fst snd self world].
  destruct (closed_stream_finished p1) as [S2 E]. cbn zeta in S2, E.
  set (p2 := if PredictionStream._is_started p1 && negb (PredictionStream._is_finished p1)
             then PredictionStream._set_error cancelled_unexpectedly p1 else p1) in *.
  rewrite S1 in S2. rewrite S2 in E. cbn in E. apply negb_false_iff in E.
  split; [exact S2|]. split; [exact E|reflexivity]. }
destruct F as (S' & F' & C').
split; [exact F'|]. split.
- rewrite (enter_started _ C' S'), F'. reflexivity.
- intros s0 H.
  destruct (PredictionStream._channel (snd (self s0))) as [ch|] eqn:C.
  + rewrite (enter_with_channel ch s0 C). cbn [snd]. apply (enter_with_channel ch s0 C).
  + assert (E : PredictionStream.__enter__ s0 = PredictionStream.start s0).
    { unfold PredictionStream.__enter__, bind, PredictionStream.get_stream. cbn [fst snd].
      rewrite C. reflexivity. }
    rewrite E in *. destruct (start_sets_channel s0 H) as [scope Ch].
    rewrite (enter_with_channel scope _ Ch). reflexivity.
Qed.

Lemma prediction_enter_after_exit_witness :
let s := snd (PredictionStream.start demo_stream) in
PredictionStream._is_finished (snd (self (snd (PredictionStream.__exit__ None s)))) = true
/\ PredictionStream.__enter__ (snd (PredictionStream.__exit__ None s))
   = (Raise already_received, snd (PredictionStream.__exit__ None s)).
Proof.
pose proof (prediction_enter_after_exit None (snd (PredictionStream.start demo_stream))) as H.
cbn zeta in H. destruct H as (H1 & H2 & _); [vm_compute; reflexivity|].
split; [exact H1|exact H2].
Defined.

Lemma send_json_fails (message : frame) (s : State t) :
can_send s = false -> exists e, _send_json message s = (Raise e, s).
Proof.
unfold can_send, _send_json, _AsyncWebsocketThread.send_json, _AsyncWebsocketThread._send_json.
destruct (_ws (self s)) as [ws|]; [|eauto].
destruct (_AsyncWebsocketThread.lookup ws (world s)) as [th|]; [|eauto].
destruct (th_ws_loop th), (th_ws th), (tx_ok (world s)); cbn; try discriminate; eauto.
Qed.

(** X13.  [PredictionStream.cancel()] does nothing on a stream without a channel
    or on a finished one.  Otherwise it marks the stream cancelled first and
    then cancels the channel, through the websocket that opened it.  While
    the session holds that websocket and it can send, one [channelCancel]
    frame for the stream's channel goes out unless the channel has
    finished; when it cannot send, the call raises.  Once the session holds
    that websocket no more, after [disconnect()] and also after a new
    connection, the call on an unfinished channel fails the assertion of
    [_send_json] and nothing is sent on the session's new websocket.  In
    each case of failure the stream is marked cancelled already. *)
Theorem prediction_cancel_marks_then_sends (s : State PredictionStream.Self) :
let p := snd (self s) in
let session := fst (self s) in
let r := PredictionStream.cancel s in
(PredictionStream._channel p = None \/ PredictionStream._is_finished p = true -> r = (Ok tt, s))
/\ forall scope,
     PredictionStream._channel p = Some scope ->
     PredictionStream._is_finished p = false ->
     let channel := SyncSession.scope_channel scope in
     PredictionStream._is_cancelled (snd (self (snd r))) = true
     /\ (forall lmsws,
           SyncSession.held_websocket (SyncSession.opened_by scope) session = Some lmsws ->
           (can_send (mkState (world s) lmsws) = true ->
            fst r = Ok tt
            /\ wire (world (snd r))
               = wire (world s)
                 ++ (if SyncChannel._is_finished channel then []
                     else [NetSend (channelCancel (SyncChannel.channel_id channel))]))
           /\ (can_send (mkState (world s) lmsws) = false ->
               SyncChannel._is_finished channel = false ->
               (exists e, fst r = Raise e) /\ wire (world (snd r)) = wire (world s)))
     /\ (SyncSession.held_websocket (SyncSession.opened_by scope) session = None ->
         fst r = (if SyncChannel._is_finished channel then Ok tt else Raise AssertionError)
         /\ world (snd r) = world s
         /\ fst (self (snd r)) = session).
Proof.
cbn zeta. split.
- unfold PredictionStream.cancel, bind, PredictionStream.get_stream. cbn [fst snd].
  intros [C|F].
  + rewrite C. reflexivity.
  + rewrite F. destruct (PredictionStream._channel (snd (self s))); reflexivity.
- intros scope C F.
  unfold PredictionStream.cancel, bind, PredictionStream.get_stream, PredictionStream.put_stream,
    PredictionStream.in_session. cbn [fst snd self world].
  rewrite C, F. cbn [negb fst snd self world].
  unfold SyncSession.channel_cancel. cbn [self world].
  set (channel := SyncSession.scope_channel scope).
  destruct (SyncSession.held_websocket (SyncSession.opened_by scope) (fst (self s)))
    as [lmsws|] eqn:H.
  + split; [destruct (channel_cancel _) as [r0 s0]; reflexivity|].
    split; [|discriminate].
    intros lmsws' E. injection E as <-.
    destruct (SyncChannel._is_finished channel) eqn:CF.
    * rewrite (cancel_finished (mkState (world s) (lmsws, channel)) CF). cbn.
      split; [|discriminate]. intros _. rewrite app_nil_r. auto.
    * split.
      -- intros Cs. rewrite (cancel_unfinished (mkState (world s) (lmsws, channel)) CF Cs). cbn.
         auto.
      -- intros Cs _. unfold channel_cancel, SyncChannel.cancel, bind, SyncChannel.get_channel.
         cbn [fst snd self world]. rewrite CF. unfold SyncChannel.in_owner.
         cbn [fst snd self world].
         destruct (send_json_fails
                     (ChannelHandler.get_cancel_message (SyncChannel.channel_id channel))
                     (mkState (world s) lmsws) Cs) as [e E].
         rewrite E. cbn. eauto.
  + split; [destruct (SyncChannel._is_finished channel); reflexivity|].
    split; [discriminate|]. intros _.
    destruct (SyncChannel._is_finished channel); cbn; auto.
Qed.

(** Two streams on one session, with a reconnection in between: the first
    is started, the session is disconnected, and the second is started,
    which connects the session anew. *)
Definition two_streams : State PredictionStream.Self :=
let s1 := snd (PredictionStream.start demo_stream) in
let stream1 := snd (self s1) in
let dropped := SyncSession.disconnect (mkState (world s1) (fst (self s1))) in
let s2 := snd (PredictionStream.start
                 (mkState (world dropped)
                    (self dropped, PredictionStream.__init__ predict_endpoint))) in
mkState (world s2) (fst (self s2), stream1).

(** The first stream's channel and the second's are both channel 0, of
    different websockets.  [cancel()] on the first stream fails the
    assertion of the old websocket and sends nothing; [close()] on it
    leaves channel 0 of the new websocket registered. *)
Example stale_stream_leaves_new_websocket_alone :
(SyncChannel.channel_id <$> (SyncSession.scope_channel
                               <$> PredictionStream._channel (snd (self two_streams))))
= Some 0
/\ channels_of (fst (self two_streams)) !! 0 = Some 3
/\ fst (PredictionStream.cancel two_streams) = Raise AssertionError
/\ wire (world (snd (PredictionStream.cancel two_streams))) = wire (world two_streams)
/\ cancel_frames 0 (world (snd (PredictionStream.cancel two_streams))) = 0
/\ channels_of (fst (self (snd (PredictionStream.close two_streams)))) !! 0 = Some 3.
Proof. vm_compute. auto 10. Qed.

(** ** [act] without a limit on the rounds *)

Section ActUnlimited.
Import LLM.

Variable llm_tool_args : Tools.
Variable predict : Z -> Chat -> option Tools -> list PredictionRxEvent * outcome Prediction.
Variable request_tool_call : ToolCallRequest -> Any.
Variable completes_at : ToolCallRequest -> nat.
Variable collected_at : Z -> nat.
Variable set_iteration : list ToolCallRequest -> list ToolCallRequest.

(** What a round that is not the final one adds to the trace, under any
    handler for invalid tool requests. *)
Record open_round_trace (i : Z) (r : outcome loop_exit) (evs : list act_event) : Prop := {
ot_one_round : rounds_performed evs = 1;
ot_endpoint : forall j tools, ActEndpoint j tools ∈ evs -> j = i /\ tools = Some llm_tool_args;
ot_valid : forall j err_msg, ActInvalidToolRequest j err_msg ∉ evs;
ot_submitted : forall j request, ActToolSubmitted j request ∈ evs -> j = i;
ot_break : r = Ok Break -> forall j request, ActToolSubmitted j request ∉ evs;
}.

Ltac in_events H :=
repeat first
  [ apply elem_of_app in H as [H|H]
  | apply elem_of_cons in H as [H|H]
  | apply elem_of_nil in H; destruct H
  | apply list_elem_of_fmap in H as (? & H & _) ];
try discriminate H.

Ltac open_round_fields :=
constructor;
[ rewrite !rounds_performed_app, rounds_performed_submitted; reflexivity
| intros j tools H; in_events H; simplify_eq; auto
| intros j err_msg H; in_events H
| intros j rq H; in_events H; simplify_eq; auto
| try discriminate; intros _ j rq H; in_events H ].

Lemma act_round_open (handler handler' : string -> outcome unit)
    (final_round_index i : Z) (on_message : bool) (st : ActState) :
i ≠ final_round_index ->
let round := act_round llm_tool_args predict request_tool_call
               completes_at collected_at set_iteration handler
               final_round_index i on_message st in
act_round llm_tool_args predict request_tool_call
  completes_at collected_at set_iteration handler'
  final_round_index i on_message st = round
/\ exists evs, trace (snd round) = trace st ++ evs /\ open_round_trace i (fst round) evs.
Proof.
intros N. cbn zeta. unfold LLM.act_round. cbn [log agent_chat trace].
rewrite (bool_decide_eq_true_2 (i ≠ final_round_index)) by exact N.
rewrite (bool_decide_eq_false_2 (i = final_round_index)) by exact N.
destruct (predict i (agent_chat st) _) as [events result].
destruct result as [prediction|e|].
- destruct (tool_call_requests_of events) as [|request requests] eqn:R.
  + destruct on_message; cbn [fst snd trace log add_message agent_chat];
      (split; [reflexivity|]);
      eexists; (split; [rewrite <- !app_assoc; reflexivity|]); open_round_fields.
  + destruct on_message; cbn [fst snd trace log add_message agent_chat];
      (split; [reflexivity|]);
      eexists; (split; [rewrite <- !app_assoc; reflexivity|]); open_round_fields.
- cbn [fst snd trace log]. split; [reflexivity|].
  eexists; (split; [rewrite <- !app_assoc; reflexivity|]). open_round_fields.
- cbn [fst snd trace log]. split; [reflexivity|].
  eexists; (split; [rewrite <- !app_assoc; reflexivity|]). open_round_fields.
Qed.

(** What the unlimited loop adds to the trace from round [i] on. *)
Record open_loop_trace (i : Z) (r : outcome Z) (evs : list act_event) : Prop := {
ol_endpoint : forall j tools, ActEndpoint j tools ∈ evs ->
  (i <= j)%Z /\ tools = Some llm_tool_args;
ol_valid : forall j err_msg, ActInvalidToolRequest j err_msg ∉ evs;
ol_submitted : forall j request, ActToolSubmitted j request ∈ evs -> (i <= j)%Z;
ol_result : forall k, r = Ok k ->
  (i <= k)%Z /\ Z.of_nat (rounds_performed evs) = (k + 1 - i)%Z
  /\ forall request, ActToolSubmitted k request ∉ evs;
}.

Lemma act_loop_open (handler handler' : string -> outcome unit) (on_message : bool) (fuel : nat) :
forall (i : Z) (st : ActState) (r : outcome Z) (st' : ActState),
  (0 <= i)%Z ->
  act_loop llm_tool_args predict request_tool_call
    completes_at collected_at set_iteration handler
    fuel count (-1) on_message i st = Some (r, st') ->
  act_loop llm_tool_args predict request_tool_call
    completes_at collected_at set_iteration handler'
    fuel count (-1) on_message i st = Some (r, st')
  /\ exists evs, trace st' = trace st ++ evs /\ open_loop_trace i r evs.
Proof.
induction fuel as [|fuel IH]; intros i st r st' Hi E; [discriminate|].
cbn [LLM.act_loop] in *.
destruct (act_round_open handler handler' (-1) i on_message st) as (Eh & evs1 & T1 & R1); [lia|].
cbn zeta in *. rewrite Eh.
destruct (act_round llm_tool_args predict request_tool_call
            completes_at collected_at set_iteration handler
            (-1) i on_message st) as [r1 st1].
cbn [fst snd] in *.
assert (stop : forall r0 : outcome Z,
          (forall k, r0 = Ok k -> k = i /\ r1 = Ok Break) -> open_loop_trace i r0 evs1).
{ intros r0 Hr. destruct R1. constructor.
  - intros j tools H. destruct (ot_endpoint0 j tools H) as [-> ->]. split; [lia|reflexivity].
  - exact ot_valid0.
  - intros j request H. rewrite (ot_submitted0 j request H). lia.
  - intros k Ek. destruct (Hr k Ek) as [-> B]. split; [lia|].
    split; [rewrite ot_one_round0; lia|]. intros request. apply ot_break0, B. }
destruct r1 as [[|]|e|].
- cbn [has_round] in *.
  destruct (IH (i + 1)%Z st1 r st') as (Eh' & evs2 & T2 & R2); [lia|exact E|].
  split; [exact Eh'|].
  exists (evs1 ++ evs2). split; [rewrite T2, T1, app_assoc; reflexivity|].
  destruct R1, R2. constructor.
  + intros j tools H. apply elem_of_app in H as [H|H].
    * destruct (ot_endpoint0 j tools H) as [-> ->]. split; [lia|reflexivity].
    * destruct (ol_endpoint0 j tools H) as [? ->]. split; [lia|reflexivity].
  + intros j err_msg H. apply elem_of_app in H as [H|H].
    * exact (ot_valid0 j err_msg H).
    * exact (ol_valid0 j err_msg H).
  + intros j request H. apply elem_of_app in H as [H|H].
    * rewrite (ot_submitted0 j request H). lia.
    * pose proof (ol_submitted0 j request H). lia.
  + intros k Ek. destruct (ol_result0 k Ek) as (Hk & Hr & Hs).
    split; [lia|]. split; [rewrite rounds_performed_app, ot_one_round0; lia|].
    intros request H. apply elem_of_app in H as [H|H].
    * apply ot_submitted0 in H. lia.
    * exact (Hs request H).
- injection E as <- <-. split; [reflexivity|].
  exists evs1. split; [exact T1|]. apply stop. intros k Ek. injection Ek as <-. auto.
- injection E as <- <-. split; [reflexivity|].
  exists evs1. split; [exact T1|]. apply stop. discriminate.
- injection E as <- <-. split; [reflexivity|].
  exists evs1. split; [exact T1|]. apply stop. discriminate.
Qed.

(** X14.  [act] without [max_prediction_rounds] has no final round: whenever it
    comes to an end, every endpoint was built with the tool definitions, no
    tool request was ever treated as invalid, and the handler for invalid
    tool requests had no part in the run (any other handler gives the same
    run).  When it returns, [rounds] is the number of rounds performed and
    the last round brought no tool call request. *)
Theorem act_unlimited_has_no_final_round
    (handler : string -> outcome unit) (fuel : nat) (chat : Chat) (on_message : bool)
    (r : outcome ActResult) (st : ActState) :
act llm_tool_args predict request_tool_call
  completes_at collected_at set_iteration handler fuel chat None on_message
= Some (r, st) ->
(forall j tools, ActEndpoint j tools ∈ trace st -> (0 <= j)%Z /\ tools = Some llm_tool_args)
/\ (forall j err_msg, ActInvalidToolRequest j err_msg ∉ trace st)
/\ (forall result, r = Ok result ->
      rounds result = Z.of_nat (rounds_performed (trace st))
      /\ forall request, ActToolSubmitted (rounds result - 1) request ∉ trace st)
/\ (forall handler' : string -> outcome unit,
      act llm_tool_args predict request_tool_call
        completes_at collected_at set_iteration handler' fuel chat None on_message
      = Some (r, st)).
Proof.
unfold LLM.act. intros E.
destruct (act_loop llm_tool_args predict request_tool_call
            completes_at collected_at set_iteration handler
            fuel count (-1) on_message 0 (mkActState chat [])) as [[r0 st0]|] eqn:L;
  [|discriminate].
assert (H : forall handler',
            act_loop llm_tool_args predict request_tool_call
              completes_at collected_at set_iteration handler'
              fuel count (-1) on_message 0 (mkActState chat []) = Some (r0, st0)
            /\ exists evs, trace st0 = evs /\ open_loop_trace 0 r0 evs).
{ intros handler'.
  destruct (act_loop_open handler handler' on_message fuel 0 (mkActState chat []) r0 st0)
    as (Eh & evs & T & R); [lia|exact L|].
  split; [exact Eh|]. exists evs. split; [exact T|exact R]. }
destruct (H handler) as (_ & evs & T & R). destruct R.
assert (S : st = st0 /\ forall result, r = Ok result -> r0 = Ok (rounds result - 1)%Z).
{ destruct r0 as [k|e|]; injection E as <- <-; (split; [reflexivity|]);
    intros result Er; [|discriminate..].
  injection Er as <-. cbn [rounds]. f_equal. lia. }
destruct S as [-> Sr]. rewrite T.
split; [exact ol_endpoint0|]. split; [exact ol_valid0|]. split.
- intros result Er. destruct (ol_result0 _ (Sr result Er)) as (_ & Hr & Hs).
  split; [lia|exact Hs].
- intros handler'. destruct (H handler') as [-> _].
  destruct r0 as [k|e|]; exact E.
Qed.

Lemma act_round_goes_on (handler : string -> outcome unit) (on_message : bool)
    (i : Z) (st : ActState) :
(forall i chat tools, requests_tools (predict i chat tools) = true) ->
i ≠ (-1)%Z ->
fst (act_round llm_tool_args predict request_tool_call
       completes_at collected_at set_iteration handler
       (-1) i on_message st) = Ok Continue.
Proof.
intros P N. unfold LLM.act_round. cbn [log agent_chat].
rewrite (bool_decide_eq_false_2 (i = (-1)%Z)) by exact N.
specialize (P i (agent_chat st) (if bool_decide (i ≠ (-1)%Z) then Some llm_tool_args else None)).
destruct (predict i (agent_chat st) _) as [events [prediction|e|]]; cbn in P;
  try discriminate.
destruct (tool_call_requests_of events) as [|request requests]; [discriminate|].
reflexivity.
Qed.

Lemma act_loop_goes_on (handler : string -> outcome unit) (on_message : bool) (fuel : nat) :
(forall i chat tools, requests_tools (predict i chat tools) = true) ->
forall (i : Z) (st : ActState),
  (0 <= i)%Z ->
  act_loop llm_tool_args predict request_tool_call
    completes_at collected_at set_iteration handler
    fuel count (-1) on_message i st = None.
Proof.
intros P. induction fuel as [|fuel IH]; intros i st Hi; [reflexivity|].
cbn [LLM.act_loop].
pose proof (act_round_goes_on handler on_message i st P) as C.
destruct (act_round _ _ _ _ _ _ _ _ _) as [r1 st1]. cbn [fst] in C.
rewrite C by lia. cbn [has_round]. apply IH. lia.
Qed.

(** X15.  Without [max_prediction_rounds] nothing but the model ends the loop:
    against a model that answers every round with a completed prediction
    carrying a tool call request, [act] performs round after round and
    never comes back. *)
Theorem act_unlimited_runs_while_tools_requested
    (handler : string -> outcome unit) (chat : Chat) (on_message : bool) :
(forall i chat tools, requests_tools (predict i chat tools) = true) ->
forall fuel,
  act llm_tool_args predict request_tool_call
    completes_at collected_at set_iteration handler fuel chat None on_message
  = None.
Proof.
intros P fuel. unfold LLM.act.
rewrite (act_loop_goes_on handler on_message fuel P 0 (mkActState chat [])) by lia.
reflexivity.
Qed.

End ActUnlimited.

Lemma act_unlimited_has_no_final_round_witness :
LLM.act ["add"] add_then_answer run_tool at_once at_three as_inserted (fun _ => Hang) 2
  [UserMessage "2+3?"] None true
= Some (Ok (mkActResult 2),
        LLM.mkActState
          [UserMessage "2+3?"; AssistantResponse "" [add_request]; ToolResultMessage ["5"];
           AssistantResponse "5" []]
          [LLM.ActRoundStart 0; LLM.ActEndpoint 0 (Some ["add"]);
           LLM.ActToolSubmitted 0 add_request; LLM.ActPredictionCompleted 0;
           LLM.ActMessage (AssistantResponse "" [add_request]);
           LLM.ActMessage (ToolResultMessage ["5"]); LLM.ActRoundEnd 0;
           LLM.ActRoundStart 1; LLM.ActEndpoint 1 (Some ["add"]); LLM.ActPredictionCompleted 1;
           LLM.ActMessage (AssistantResponse "5" []); LLM.ActRoundEnd 1]).
Proof.
apply (act_unlimited_has_no_final_round ["add"] add_then_answer run_tool at_once at_three
         as_inserted report_invalid 2 [UserMessage "2+3?"] true).
vm_compute. reflexivity.
Defined.

(** The tool loop of above without a limit: two rounds, both with the
    tool definitions. *)
Example act_unlimited_two_rounds :
let r := LLM.act ["add"] add_then_answer run_tool at_once at_three as_inserted report_invalid 2
           [UserMessage "2+3?"] None true in
(fst <$> r) = Some (Ok (mkActResult 2))
/\ (List.filter is_endpoint <$> (LLM.trace <$> (snd <$> r)))
   = Some [LLM.ActEndpoint 0 (Some ["add"]); LLM.ActEndpoint 1 (Some ["add"])].
Proof. vm_compute. auto. Qed.

Lemma act_unlimited_runs_while_tools_requested_witness :
LLM.act ["add"] always_add run_tool at_once at_three as_inserted report_invalid 1000
  [UserMessage "2+3?"] None false
= None.
Proof.
apply (act_unlimited_runs_while_tools_requested ["add"] always_add run_tool at_once
         at_three as_inserted report_invalid [UserMessage "2+3?"] false).
intros i chat tools. reflexivity.
Defined.

(** ** The sessions of a client *)

(** The sessions of the given namespaces requested one after the other,
    as the properties [llm], [embedding], [system], ... do. *)
Fixpoint get_sessions (namespaces : list string) : M Client.t (list SyncSession.t) :=
match namespaces with
| [] => ret []
| namespace :: rest =>
    session <- Client._get_session namespace ;;
    sessions <- get_sessions rest ;;
    ret (session :: sessions)
end.

(** The session [_get_session] creates for a namespace. *)
Definition new_session (c : Client.t) (namespace : string) : SyncSession.t :=
SyncSession.__init__ (Some namespace) (Client.api_host c) (Client._auth_details c).

(** Every session of the client is pushed for closing once, and none has
    been used yet. *)
Record sessions_wf (c : Client.t) : Prop := {
wf_nodup : NoDup (Client._resources c);
wf_pushed : forall namespace,
  namespace ∈ Client._resources c <-> is_Some (Client._sessions c !! namespace);
wf_unused : forall namespace session,
  Client._sessions c !! namespace = Some session -> session = new_session c namespace;
}.

Lemma get_session_effect (namespace : string) (s : State Client.t) :
sessions_wf (self s) ->
let r := Client._get_session namespace s in
fst r = Ok (new_session (self s) namespace)
/\ world (snd r) = world s
/\ sessions_wf (self (snd r))
/\ Client.api_host (self (snd r)) = Client.api_host (self s)
/\ Client._auth_details (self (snd r)) = Client._auth_details (self s)
/\ (forall ns, Client._sessions (self (snd r)) !! ns
               = if bool_decide (ns = namespace) then Some (new_session (self s) namespace)
                 else Client._sessions (self s) !! ns)
/\ (forall ns, ns ∈ Client._resources (self (snd r))
               <-> ns = namespace \/ ns ∈ Client._resources (self s)).
Proof.
intros [Hn Hp Hu]. cbn zeta.
unfold Client._get_session, bind, get_self, put_self. cbn [fst snd self world].
destruct (Client._sessions (self s) !! namespace) as [session|] eqn:L; cbn [ret fst snd self world].
- rewrite (Hu namespace session L).
  split; [reflexivity|]. split; [reflexivity|]. split; [constructor; assumption|].
  split; [reflexivity|]. split; [reflexivity|]. split.
  + intros ns. destruct (decide (ns = namespace)) as [->|N].
    * rewrite bool_decide_eq_true_2 by reflexivity. rewrite L. f_equal. apply (Hu _ _ L).
    * rewrite bool_decide_eq_false_2 by exact N. reflexivity.
  + intros ns. split; [auto|]. intros [->|H]; [|exact H]. apply Hp. eauto.
- split; [reflexivity|]. split; [reflexivity|]. split.
  { constructor; cbn.
    - constructor; [|exact Hn]. intros H. apply Hp in H as [x H]. congruence.
    - intros ns. rewrite elem_of_cons, Hp. destruct (decide (namespace = ns)) as [->|N].
      + rewrite lookup_insert_eq. split; eauto.
      + rewrite lookup_insert_ne by exact N. split; [intros [->|H]; [contradiction|exact H]|auto].
    - intros ns session. destruct (decide (namespace = ns)) as [->|N].
      + rewrite lookup_insert_eq. intros H. injection H as <-. reflexivity.
      + rewrite lookup_insert_ne by exact N. apply Hu. }
  split; [reflexivity|]. split; [reflexivity|]. split.
  + intros ns. cbn. destruct (decide (ns = namespace)) as [->|N].
    * rewrite bool_decide_eq_true_2 by reflexivity. apply lookup_insert_eq.
    * rewrite bool_decide_eq_false_2 by exact N. apply lookup_insert_ne. auto.
  + intros ns. cbn. apply elem_of_cons.
Qed.

Lemma get_sessions_effect (namespaces : list string) :
forall s : State Client.t,
  sessions_wf (self s) ->
  let r := get_sessions namespaces s in
  fst r = Ok (new_session (self s) <$> namespaces)
  /\ world (snd r) = world s
  /\ sessions_wf (self (snd r))
  /\ Client.api_host (self (snd r)) = Client.api_host (self s)
  /\ Client._auth_details (self (snd r)) = Client._auth_details (self s)
  /\ (forall ns, Client._sessions (self (snd r)) !! ns
                 = if bool_decide (ns ∈ namespaces) then Some (new_session (self s) ns)
                   else Client._sessions (self s) !! ns)
  /\ (forall ns, ns ∈ Client._resources (self (snd r))
                 <-> ns ∈ namespaces \/ ns ∈ Client._resources (self s)).
Proof.
induction namespaces as [|namespace namespaces IH]; intros s Wf; cbn zeta.
- cbn. split; [reflexivity|]. split; [reflexivity|]. split; [exact Wf|].
  split; [reflexivity|]. split; [reflexivity|]. split.
  + intros ns. rewrite bool_decide_eq_false_2 by apply not_elem_of_nil. reflexivity.
  + intros ns. rewrite elem_of_nil. tauto.
- destruct (get_session_effect namespace s Wf) as (R1 & W1 & Wf1 & H1 & A1 & S1 & P1).
  cbn zeta in *.
  destruct (Client._get_session namespace s) as [r1 s1] eqn:E1. cbn [fst snd] in *. subst r1.
  destruct (IH s1 Wf1) as (R2 & W2 & Wf2 & H2 & A2 & S2 & P2). cbn zeta in *.
  destruct (get_sessions namespaces s1) as [r2 s2] eqn:E2. cbn [fst snd] in *. subst r2.
  assert (E : get_sessions (namespace :: namespaces) s
              = (Ok (new_session (self s) namespace :: (new_session (self s1) <$> namespaces)), s2)).
  { cbn [get_sessions]. unfold bind. rewrite E1, E2. reflexivity. }
  rewrite E. clear E E1 E2.
  assert (N : forall ns, new_session (self s1) ns = new_session (self s) ns)
    by (intros ns; unfold new_session; rewrite H1, A1; reflexivity).
  cbn [ret fst snd fmap list_fmap].
  split; [f_equal; f_equal; clear -N; induction namespaces as [|n l IH];
          [reflexivity|cbn; rewrite N; f_equal; exact IH]|].
  split; [congruence|]. split; [exact Wf2|]. split; [congruence|]. split; [congruence|].
  split.
  + intros ns. rewrite S2, S1, N.
    destruct (decide (ns ∈ namespaces)) as [I|I].
    * rewrite !bool_decide_eq_true_2; [reflexivity|apply list_elem_of_further, I|exact I].
    * rewrite (bool_decide_eq_false_2 (ns ∈ namespaces)) by exact I.
      destruct (decide (ns = namespace)) as [->|Ne].
      -- rewrite !bool_decide_eq_true_2; [reflexivity|apply list_elem_of_here|reflexivity].
      -- rewrite !bool_decide_eq_false_2; [reflexivity| |exact Ne].
         intros H. apply elem_of_cons in H as [H|H]; contradiction.
  + intros ns. rewrite P2, P1, elem_of_cons. tauto.
Qed.

(** X16.  A client keeps one session per namespace.  On a client as
    [Client(api_host)] creates it, any run of session requests returns, for
    each request, the session of that namespace on the client's host and
    with its authentication details, not yet connected; the client ends up
    holding exactly the sessions of the namespaces asked for, each pushed
    for closing once however often it was asked for; and nothing is
    connected or sent. *)
Theorem client_keeps_one_session_per_namespace
    (api_host : option string) (auth_details : Any) (w : World) (namespaces : list string) :
let created := Client.__init__ api_host auth_details (mkState w tt) in
let host := default "127.0.0.1:1234" api_host in
let session_for := fun namespace => SyncSession.__init__ (Some namespace) host auth_details in
exists client,
  fst created = Ok client
  /\ let r := get_sessions namespaces (mkState w client) in
     fst r = Ok (session_for <$> namespaces)
     /\ world (snd r) = w
     /\ NoDup (Client._resources (self (snd r)))
     /\ (forall ns, ns ∈ Client._resources (self (snd r)) <-> ns ∈ namespaces)
     /\ (forall ns, Client._sessions (self (snd r)) !! ns
                    = if bool_decide (ns ∈ namespaces) then Some (session_for ns) else None)
     /\ Forall (fun session => SyncSession.connected session = false) (session_for <$> namespaces).
Proof.
cbn zeta. eexists. split; [reflexivity|].
set (c0 := Client.mk _ _ _ _).
assert (Wf : sessions_wf (self (mkState w c0))).
{ constructor; cbn.
  - constructor.
  - intros ns. rewrite elem_of_nil, lookup_empty. split; [tauto|]. intros [x H]. discriminate.
  - intros ns session. rewrite lookup_empty. discriminate. }
destruct (get_sessions_effect namespaces (mkState w c0) Wf) as (R & W & [Hn _ _] & _ & _ & S & P).
cbn zeta in *.
split; [exact R|]. split; [exact W|]. split; [exact Hn|]. split.
- intros ns. rewrite P. cbn. rewrite elem_of_nil. tauto.
- split.
  + intros ns. rewrite S. cbn. rewrite lookup_empty. reflexivity.
  + apply Forall_fmap, Forall_forall. intros ns _. reflexivity.
Qed.

(** [client.llm], [client.system], [client.llm] again: two sessions. *)
Example client_llm_requested_twice :
let c := Client.mk "127.0.0.1:1234" "auth" ∅ [] in
let r := get_sessions ["llm"; "system"; "llm"] (mkState demo_world c) in
Client._resources (self (snd r)) = ["system"; "llm"]
/\ (SyncSession.API_NAMESPACE <$> Client._sessions (self (snd r)) !! "llm") = Some (Some "llm").
Proof. vm_compute. auto. Qed.
